(** * PracticeBeats gamification engine: streaks, points, levels, readiness,
      badges and the weekly leaderboard (backend/crud.py)

    The engine functions of [crud.py] are embedded as Rocq functions over an
    explicit store.  Python [int] is [Z]; Python [float] is IEEE-754 binary64,
    taken from the standard library's [SpecFloat] (53-bit mantissa, round to
    nearest even); calendar dates are day ordinals ([date.toordinal]). *)

From Stdlib Require Import ZArith List Bool Lia String QArith Qround.
From Stdlib Require Import Permutation Sorted.
From Stdlib Require Import Floats.SpecFloat.
Import ListNotations.
Local Open Scope Z_scope.

(** ** Python exceptions the engine can raise *)

Inductive exn : Type :=
| ValueError (msg : string)
| AttributeError
| OverflowError
| ZeroDivisionError
| IntegrityError.

Inductive result (A : Type) : Type :=
| Ok (a : A)
| Raise (e : exn).
Arguments Ok {A} a.
Arguments Raise {A} e.

(** ** Python floats *)

Module PyFloat.

Definition prec : Z := 53.
Definition emax : Z := 1024.

Definition float := spec_float.

Definition zero : float := S754_zero false.

  (** [float(n)] for an [int]: correctly rounded, [OverflowError] when the
      integer is too large for a binary64. *)
Definition of_int (n : Z) : result float :=
    match binary_normalize prec emax n 0 false with
    | S754_infinity _ => Raise OverflowError
    | f => Ok f
    end.

  (** An integer as an unrounded operand [n * 2^0]. *)
Definition raw (n : Z) : float :=
    match n with
    | Z0 => S754_zero false
    | Zpos p => S754_finite false p 0
    | Zneg p => S754_finite true p 0
    end.

  (** [a / b] on two [int]s (true division): the correctly rounded quotient. *)
Definition int_truediv (a b : Z) : result float :=
    if b =? 0 then Raise ZeroDivisionError
    else if a =? 0 then Ok (S754_zero (b <? 0))
    else match SFdiv prec emax (raw a) (raw b) with
         | S754_infinity _ => Raise OverflowError
         | f => Ok f
         end.

  (** A decimal literal [n/d] of the source text: the nearest binary64. *)
Definition literal (n d : Z) : float := SFdiv prec emax (raw n) (raw d).

Definition mul (x y : float) : float := SFmul prec emax x y.
Definition add (x y : float) : float := SFadd prec emax x y.

(** [x * n] and [n * x] with an [int] operand, which is converted first. *)
Definition mul_int (x : float) (n : Z) : result float :=
  match of_int n with
  | Ok fn => Ok (mul x fn)
  | Raise e => Raise e
  end.

Definition int_mul (n : Z) (x : float) : result float :=
  match of_int n with
  | Ok fn => Ok (mul fn x)
  | Raise e => Raise e
  end.

Definition int_add (n : Z) (x : float) : result float :=
  match of_int n with
  | Ok fn => Ok (add fn x)
  | Raise e => Raise e
  end.

Definition add_int (x : float) (n : Z) : result float :=
  match of_int n with
  | Ok fn => Ok (add x fn)
  | Raise e => Raise e
  end.

  (** [int(x)]: truncation toward zero; the magnitude [m * 2^e] loses its
      fractional bits when [e] is negative. *)
Definition to_int (x : float) : result Z :=
    match x with
    | S754_zero _ => Ok 0
    | S754_finite s m e =>
        let a := Z.shiftl (Z.pos m) e in
        Ok (if s then - a else a)
    | S754_infinity _ => Raise OverflowError
    | S754_nan => Raise (ValueError "cannot convert float NaN to integer")
    end.

  (** [min(x, y)] of the builtins: [y] only when [y < x]. *)
Definition min (x y : float) : float := if SFltb y x then y else x.

Definition leb (x y : float) : bool := SFleb x y.

End PyFloat.

(** ** Python numbers: an [int] or a [float], with the usual coercion *)

Inductive num : Type :=
| Int (n : Z)
| Float (x : PyFloat.float).

Definition result_map {A B} (f : A -> B) (r : result A) : result B :=
  match r with
  | Ok a => Ok (f a)
  | Raise e => Raise e
  end.

Definition num_mul (a b : num) : result num :=
  match a, b with
  | Int x, Int y => Ok (Int (x * y))
  | Int x, Float y => result_map Float (PyFloat.int_mul x y)
  | Float x, Int y => result_map Float (PyFloat.mul_int x y)
  | Float x, Float y => Ok (Float (PyFloat.mul x y))
  end.

Definition num_add (a b : num) : result num :=
  match a, b with
  | Int x, Int y => Ok (Int (x + y))
  | Int x, Float y => result_map Float (PyFloat.int_add x y)
  | Float x, Int y => result_map Float (PyFloat.add_int x y)
  | Float x, Float y => Ok (Float (PyFloat.add x y))
  end.

(** The builtin [int(..)]. *)
Definition num_int (a : num) : result Z :=
  match a with
  | Int n => Ok n
  | Float x => PyFloat.to_int x
  end.

Definition result_bind {A B} (r : result A) (k : A -> result B) : result B :=
  match r with
  | Ok a => k a
  | Raise e => Raise e
  end.

(** ** Data model (models.py)

    Only the columns the engine reads or writes are kept. *)

Inductive TaskStatus : Type := NOT_STARTED | IN_PROGRESS | READY.

Module DateTime.
  (** A timestamp: its calendar date (day ordinal) and its hour. *)
Record t := mk { date : Z; hour : Z }.
End DateTime.

Module User.
Record t := mk {
    id : Z;
    ensemble_id : option Z;
    streak_count : Z;
    total_points : Z;
    level : Z;
    last_practice_date : option Z
  }.
Definition set_streak_count (u : t) (v : Z) : t :=
    mk (id u) (ensemble_id u) v (total_points u) (level u) (last_practice_date u).
Definition set_total_points (u : t) (v : Z) : t :=
    mk (id u) (ensemble_id u) (streak_count u) v (level u) (last_practice_date u).
Definition set_level (u : t) (v : Z) : t :=
    mk (id u) (ensemble_id u) (streak_count u) (total_points u) v (last_practice_date u).
Definition set_last_practice_date (u : t) (v : option Z) : t :=
    mk (id u) (ensemble_id u) (streak_count u) (total_points u) (level u) v.
End User.

Module PracticeTask.
Record t := mk {
    id : Z;
    user_id : Z;
    estimated_minutes : Z;
    total_time_practiced : Z;
    practice_count : Z;
    status : TaskStatus;
    readiness_score : PyFloat.float
  }.
Definition set_total_time_practiced (k : t) (v : Z) : t :=
    mk (id k) (user_id k) (estimated_minutes k) v (practice_count k) (status k)
       (readiness_score k).
Definition set_practice_count (k : t) (v : Z) : t :=
    mk (id k) (user_id k) (estimated_minutes k) (total_time_practiced k) v (status k)
       (readiness_score k).
Definition set_status (k : t) (v : TaskStatus) : t :=
    mk (id k) (user_id k) (estimated_minutes k) (total_time_practiced k)
       (practice_count k) v (readiness_score k).
Definition set_readiness_score (k : t) (v : PyFloat.float) : t :=
    mk (id k) (user_id k) (estimated_minutes k) (total_time_practiced k)
       (practice_count k) (status k) v.
End PracticeTask.

Module PracticeSession.
Record t := mk {
    id : Z;
    user_id : Z;
    start_time : DateTime.t;
    duration_minutes : Z;
    focus_rating : option Z;
    progress_rating : option Z;
    energy_rating : option Z;
    notes : option string;
    points_earned : Z
  }.
Definition set_id (s : t) (v : Z) : t :=
    mk v (user_id s) (start_time s) (duration_minutes s) (focus_rating s)
       (progress_rating s) (energy_rating s) (notes s) (points_earned s).
Definition set_focus_rating (s : t) (v : option Z) : t :=
    mk (id s) (user_id s) (start_time s) (duration_minutes s) v
       (progress_rating s) (energy_rating s) (notes s) (points_earned s).
Definition set_progress_rating (s : t) (v : option Z) : t :=
    mk (id s) (user_id s) (start_time s) (duration_minutes s) (focus_rating s)
       v (energy_rating s) (notes s) (points_earned s).
Definition set_energy_rating (s : t) (v : option Z) : t :=
    mk (id s) (user_id s) (start_time s) (duration_minutes s) (focus_rating s)
       (progress_rating s) v (notes s) (points_earned s).
Definition set_notes (s : t) (v : option string) : t :=
    mk (id s) (user_id s) (start_time s) (duration_minutes s) (focus_rating s)
       (progress_rating s) (energy_rating s) v (points_earned s).
Definition set_points_earned (s : t) (v : Z) : t :=
    mk (id s) (user_id s) (start_time s) (duration_minutes s) (focus_rating s)
       (progress_rating s) (energy_rating s) (notes s) v.
End PracticeSession.

Module SessionTask.
Record t := mk { session_id : Z; task_id : Z; minutes_spent : Z }.
End SessionTask.

Module Badge.
Record t := mk { user_id : Z; badge_type : string }.
End Badge.

(** Request bodies (schemas.py). *)

Module SessionTaskCreate.
Record t := mk { task_id : Z; minutes_spent : Z }.
End SessionTaskCreate.

Module PracticeSessionCreate.
  (** [tasks] is falsy both as [None] and as [[]]; the list is empty then. *)
Record t := mk {
    user_id : Z;
    start_time : DateTime.t;
    duration_minutes : Z;
    notes : option string;
    focus_rating : option Z;
    progress_rating : option Z;
    energy_rating : option Z;
    tasks : list SessionTaskCreate.t
  }.
End PracticeSessionCreate.

Module PracticeSessionUpdate.
  (** [model_dump(exclude_unset=True)]: the outer [None] is a field the
      request did not set, [Some None] a field set to [null]. *)
Record t := mk {
    focus_rating : option (option Z);
    progress_rating : option (option Z);
    energy_rating : option (option Z);
    notes : option (option string)
  }.
End PracticeSessionUpdate.

Module LeaderboardEntry.
Record t := mk { rank : Z; user : User.t; weekly_minutes : Z; weekly_points : Z }.
End LeaderboardEntry.

Module Leaderboard.
Record t := mk {
    entries : list LeaderboardEntry.t;
    period_start : Z;
    period_end : Z
  }.
End Leaderboard.

(** ** The store and the unit of work

    The tables are lists of rows in storage order.  A Python object loaded
    from the store is the row with its primary key: an attribute assignment
    is written through with [put_user], [put_task] or [put_session].  The
    session factory of database.py is created with [autoflush=False]: a row
    handed to [db.add] waits in [new_session_tasks] or [new_badges] and is
    not seen by a query until [db.commit()]. *)

Record Store := mkStore {
  users : list User.t;
  tasks : list PracticeTask.t;
  sessions : list PracticeSession.t;
  session_tasks : list SessionTask.t;
  badges : list Badge.t;
  new_session_tasks : list SessionTask.t;
  new_badges : list Badge.t
}.

Definition M (A : Type) : Type := Store -> Store * result A.

Definition ret {A} (a : A) : M A := fun db => (db, Ok a).

Definition bind {A B} (m : M A) (k : A -> M B) : M B :=
  fun db =>
    match m db with
    | (db', Ok a) => k a db'
    | (db', Raise e) => (db', Raise e)
    end.

Definition raise {A} (e : exn) : M A := fun db => (db, Raise e).

Definition gets {A} (f : Store -> A) : M A := fun db => (db, Ok (f db)).

Definition modify (f : Store -> Store) : M unit := fun db => (f db, Ok tt).

Definition lift {A} (r : result A) : M A := fun db => (db, r).

Notation "x <- m ;; k" := (bind m (fun x => k))
  (at level 61, m at next level, right associativity).
Notation "m ;; k" := (bind m (fun _ => k))
  (at level 61, right associativity).

Definition when (c : bool) (m : M unit) : M unit := if c then m else ret tt.

Fixpoint for_each {A} (l : list A) (body : A -> M unit) : M unit :=
  match l with
  | [] => ret tt
  | x :: l' => body x ;; for_each l' body
  end.

(** Row access by primary key. *)

Definition get_user (user_id : Z) : M (option User.t) :=
  gets (fun db => find (fun u => User.id u =? user_id) (users db)).

Definition get_task (task_id : Z) : M (option PracticeTask.t) :=
  gets (fun db => find (fun k => PracticeTask.id k =? task_id) (tasks db)).

Definition get_practice_session (session_id : Z) : M (option PracticeSession.t) :=
  gets (fun db => find (fun s => PracticeSession.id s =? session_id) (sessions db)).

(** An object written back: the rows with its primary key become it. *)
Definition replace_row {A} (key : A -> Z) (x : A) (rows : list A) : list A :=
  map (fun r => if key r =? key x then x else r) rows.

Definition replace_user : User.t -> list User.t -> list User.t :=
  replace_row User.id.

Definition replace_task : PracticeTask.t -> list PracticeTask.t -> list PracticeTask.t :=
  replace_row PracticeTask.id.

Definition replace_session
  : PracticeSession.t -> list PracticeSession.t -> list PracticeSession.t :=
  replace_row PracticeSession.id.

Definition put_user (u : User.t) : M unit :=
  modify (fun db =>
    mkStore (replace_user u (users db)) (tasks db) (sessions db) (session_tasks db)
            (badges db) (new_session_tasks db) (new_badges db)).

Definition put_task (k : PracticeTask.t) : M unit :=
  modify (fun db =>
    mkStore (users db) (replace_task k (tasks db)) (sessions db) (session_tasks db)
            (badges db) (new_session_tasks db) (new_badges db)).

Definition put_session (s : PracticeSession.t) : M unit :=
  modify (fun db =>
    mkStore (users db) (tasks db) (replace_session s (sessions db)) (session_tasks db)
            (badges db) (new_session_tasks db) (new_badges db)).

(** The next free integer primary key: one more than the largest in use. *)
Definition next_id (ids : list Z) : Z := fold_right Z.max 0 ids + 1.

(** [db.add(db_session); db.commit(); db.refresh(db_session)]: the session
    row is stored under a fresh id and read back. *)
Definition add_session (s : PracticeSession.t) : M PracticeSession.t :=
  fun db =>
    let s' := PracticeSession.set_id s (next_id (map PracticeSession.id (sessions db))) in
    (mkStore (users db) (tasks db) (sessions db ++ [s']) (session_tasks db)
             (badges db) (new_session_tasks db) (new_badges db),
     Ok s').

Definition add_session_task (st : SessionTask.t) : M unit :=
  modify (fun db =>
    mkStore (users db) (tasks db) (sessions db) (session_tasks db)
            (badges db) (new_session_tasks db ++ [st]) (new_badges db)).

Definition add_badge (b : Badge.t) : M unit :=
  modify (fun db =>
    mkStore (users db) (tasks db) (sessions db) (session_tasks db)
            (badges db) (new_session_tasks db) (new_badges db ++ [b])).

(** [db.commit()]: the rows waiting since [db.add] reach their tables. *)
Definition committed (db : Store) : Store :=
  mkStore (users db) (tasks db) (sessions db)
          (session_tasks db ++ new_session_tasks db)
          (badges db ++ new_badges db) [] [].

Definition commit : M unit := modify committed.

(** What a failed flush leaves: the transaction is rolled back, so the
    tables are those it began with, and the rows waiting since [db.add] are
    dropped with it. *)
Definition rolled_back (start : Store) : Store :=
  mkStore (users start) (tasks start) (sessions start) (session_tasks start)
          (badges start) [] [].

(** The object is assigned to and handed back. *)
Definition assign_user (u : User.t) : M User.t := put_user u ;; ret u.
Definition assign_task (k : PracticeTask.t) : M PracticeTask.t := put_task k ;; ret k.
Definition assign_session (s : PracticeSession.t) : M PracticeSession.t :=
  put_session s ;; ret s.

(** ** Streak and points (crud.py, "The Gamification Engine") *)

(** [update_streak(db, user)] with [today = date.today()]; the result is the
    user object after the assignments. *)
Definition update_streak (today : Z) (user : User.t) : User.t :=
  let user :=
    match User.last_practice_date user with
    | None => User.set_streak_count user 1
    | Some last =>
        if last =? today then user
        else if last =? today - 1
             then User.set_streak_count user (User.streak_count user + 1)
             else User.set_streak_count user 1
    end in
  User.set_last_practice_date user (Some today).

(** Truth value of an optional integer: [None] and [0] are falsy. *)
Definition truthy (r : option Z) : bool :=
  match r with
  | Some v => negb (v =? 0)
  | None => false
  end.

Definition rating_value (r : option Z) : Z :=
  match r with
  | Some v => v
  | None => 0
  end.

Definition streak_multiplier (streak_count : Z) : num :=
  if 30 <=? streak_count then Float (PyFloat.literal 20 10)        (* 2.0 *)
  else if 7 <=? streak_count then Float (PyFloat.literal 15 10)    (* 1.5 *)
  else if 3 <=? streak_count then Float (PyFloat.literal 12 10)    (* 1.2 *)
  else Float (PyFloat.literal 10 10).                              (* 1.0 *)

Definition quality_bonus (focus_rating : option Z) : num :=
  if truthy focus_rating && (4 <=? rating_value focus_rating)
  then Float (PyFloat.literal 2 10)                                (* 0.2 *)
  else Int 0.

(** [int(base_points * multiplier * (1 + quality_bonus))] *)
Definition calculate_points (session : PracticeSession.t) (user : User.t) : result Z :=
  let base_points := Int (PracticeSession.duration_minutes session) in
  let multiplier := streak_multiplier (User.streak_count user) in
  let quality_bonus := quality_bonus (PracticeSession.focus_rating session) in
  result_bind (num_mul base_points multiplier) (fun x =>
  result_bind (num_add (Int 1) quality_bonus) (fun y =>
  result_bind (num_mul x y) num_int)).

Definition update_user_level (user : User.t) : User.t :=
  let new_level := User.total_points user / 100 + 1 in
  User.set_level user new_level.

(** ** Readiness *)

(** One round of the loop over the links of a task: the running
    [(cumulative_rating_points, rated_sessions)]. *)
Definition readiness_round (db : Store) (acc : Z * Z) (st : SessionTask.t)
  : result (Z * Z) :=
  match find (fun s => PracticeSession.id s =? SessionTask.session_id st) (sessions db) with
  | None => Raise AttributeError
  | Some session =>
      let '(cumulative_rating_points, rated_sessions) := acc in
      let session_has_rating := false in
      let '(cumulative_rating_points, session_has_rating) :=
        if truthy (PracticeSession.focus_rating session)
        then (cumulative_rating_points
                + rating_value (PracticeSession.focus_rating session) * 2, true)
        else (cumulative_rating_points, session_has_rating) in
      let '(cumulative_rating_points, session_has_rating) :=
        if truthy (PracticeSession.progress_rating session)
        then (cumulative_rating_points
                + rating_value (PracticeSession.progress_rating session) * 2, true)
        else (cumulative_rating_points, session_has_rating) in
      let '(cumulative_rating_points, session_has_rating) :=
        if truthy (PracticeSession.energy_rating session)
        then (cumulative_rating_points
                + rating_value (PracticeSession.energy_rating session) * 2, true)
        else (cumulative_rating_points, session_has_rating) in
      Ok (cumulative_rating_points,
          if session_has_rating then rated_sessions + 1 else rated_sessions)
  end.

Fixpoint readiness_loop (db : Store) (acc : Z * Z) (l : list SessionTask.t)
  : result (Z * Z) :=
  match l with
  | [] => Ok acc
  | st :: l' => result_bind (readiness_round db acc st) (fun acc' => readiness_loop db acc' l')
  end.

(** The links of a task that queries can see. *)
Definition task_links (db : Store) (task_id : Z) : list SessionTask.t :=
  filter (fun st => SessionTask.task_id st =? task_id) (session_tasks db).

Definition calculate_task_readiness (db : Store) (task : PracticeTask.t)
  : result PyFloat.float :=
  if PracticeTask.estimated_minutes task <=? 0 then Ok PyFloat.zero
  else
    let session_tasks := task_links db (PracticeTask.id task) in
    result_bind (readiness_loop db (0, 0) session_tasks) (fun '(cumulative_rating_points, rated_sessions) =>
      let score := PracticeTask.total_time_practiced task + cumulative_rating_points in
      let max_rating_points := rated_sessions * 30 in
      let max_score := PracticeTask.estimated_minutes task + max_rating_points in
      if max_score <=? 0 then Ok PyFloat.zero
      else
        result_bind (PyFloat.int_truediv score max_score) (fun q =>
        result_bind (PyFloat.mul_int q 100) (fun readiness =>
          Ok (PyFloat.min readiness (PyFloat.literal 100 1))))).

Definition mk_session (session : PracticeSessionCreate.t) : PracticeSession.t :=
  PracticeSession.mk 0
    (PracticeSessionCreate.user_id session)
    (PracticeSessionCreate.start_time session)
    (PracticeSessionCreate.duration_minutes session)
    (PracticeSessionCreate.focus_rating session)
    (PracticeSessionCreate.progress_rating session)
    (PracticeSessionCreate.energy_rating session)
    (PracticeSessionCreate.notes session)
    0.

(** ** Badges *)

Definition has_badge (db : Store) (user_id : Z) (badge_type : string) : bool :=
  existsb (fun b => (Badge.user_id b =? user_id) && String.eqb (Badge.badge_type b) badge_type)
          (badges db).

(** The inner [award_badge]: [new_badges] is the list it appends to. *)
Definition award_badge (user : User.t) (badge_type : string) (new_badges : list Badge.t)
  : M (list Badge.t) :=
  existing <- gets (fun db => has_badge db (User.id user) badge_type) ;;
  if existing then ret new_badges
  else
    let badge := Badge.mk (User.id user) badge_type in
    add_badge badge ;;
    ret (new_badges ++ [badge]).

Definition award_if (c : bool) (user : User.t) (badge_type : string)
           (new_badges : list Badge.t) : M (list Badge.t) :=
  if c then award_badge user badge_type new_badges else ret new_badges.

Definition session_count (db : Store) (user_id : Z) : Z :=
  Z.of_nat (List.length (filter (fun s => PracticeSession.user_id s =? user_id) (sessions db))).

Definition focus_is (r : option Z) (v : Z) : bool :=
  match r with
  | Some x => x =? v
  | None => false
  end.

Definition check_and_award_badges (user : User.t) (session : PracticeSession.t)
  : M (list Badge.t) :=
  let new_badges := [] in
  session_count <- gets (fun db => session_count db (User.id user)) ;;
  new_badges <- award_if (session_count =? 1) user "first_session" new_badges ;;
  new_badges <- award_if (3 <=? User.streak_count user) user "streak_3" new_badges ;;
  new_badges <- award_if (7 <=? User.streak_count user) user "streak_7" new_badges ;;
  new_badges <- award_if (30 <=? User.streak_count user) user "streak_30" new_badges ;;
  new_badges <- award_if (60 <=? PracticeSession.duration_minutes session)
                         user "marathon" new_badges ;;
  new_badges <- award_if (focus_is (PracticeSession.focus_rating session) 5)
                         user "perfect_focus" new_badges ;;
  let session_hour := DateTime.hour (PracticeSession.start_time session) in
  new_badges <- award_if (session_hour <? 8) user "early_bird" new_badges ;;
  new_badges <- award_if (22 <=? session_hour) user "night_owl" new_badges ;;
  commit ;;
  ret new_badges.

(** ** Practice session operations *)

(** The body of the loop over [session.tasks]. *)
Definition link_task (db_session : PracticeSession.t) (task_data : SessionTaskCreate.t)
  : M unit :=
  add_session_task (SessionTask.mk (PracticeSession.id db_session)
                                   (SessionTaskCreate.task_id task_data)
                                   (SessionTaskCreate.minutes_spent task_data)) ;;
  task <- get_task (SessionTaskCreate.task_id task_data) ;;
  match task with
  | None => ret tt
  | Some task =>
      task <- assign_task (PracticeTask.set_total_time_practiced task
                (PracticeTask.total_time_practiced task
                 + SessionTaskCreate.minutes_spent task_data)) ;;
      task <- assign_task (PracticeTask.set_practice_count task
                (PracticeTask.practice_count task + 1)) ;;
      task <- match PracticeTask.status task with
              | NOT_STARTED => assign_task (PracticeTask.set_status task IN_PROGRESS)
              | _ => ret task
              end ;;
      readiness <- (fun db => (db, calculate_task_readiness db task)) ;;
      put_task (PracticeTask.set_readiness_score task readiness)
  end.

Definition create_practice_session (today : Z) (session : PracticeSessionCreate.t)
  : M PracticeSession.t :=
  user <- get_user (PracticeSessionCreate.user_id session) ;;
  match user with
  | None => raise (ValueError "User not found")
  | Some user =>
      let db_session := mk_session session in
      user <- assign_user (update_streak today user) ;;
      points <- lift (calculate_points db_session user) ;;
      let db_session := PracticeSession.set_points_earned db_session points in
      user <- assign_user (User.set_total_points user (User.total_points user + points)) ;;
      user <- assign_user (update_user_level user) ;;
      db_session <- add_session db_session ;;
      commit ;;
      match PracticeSessionCreate.tasks session with
      | [] => ret tt
      | task_list => for_each task_list (link_task db_session) ;; commit
      end ;;
      check_and_award_badges user db_session ;;
      ret db_session
  end.

(** [setattr] over the fields present in [update_data], in field order. *)
Definition apply_update (session_update : PracticeSessionUpdate.t)
           (db_session : PracticeSession.t) : PracticeSession.t :=
  let db_session :=
    match PracticeSessionUpdate.focus_rating session_update with
    | Some v => PracticeSession.set_focus_rating db_session v
    | None => db_session
    end in
  let db_session :=
    match PracticeSessionUpdate.progress_rating session_update with
    | Some v => PracticeSession.set_progress_rating db_session v
    | None => db_session
    end in
  let db_session :=
    match PracticeSessionUpdate.energy_rating session_update with
    | Some v => PracticeSession.set_energy_rating db_session v
    | None => db_session
    end in
  match PracticeSessionUpdate.notes session_update with
  | Some v => PracticeSession.set_notes db_session v
  | None => db_session
  end.

Definition option_Z_eqb (a b : option Z) : bool :=
  match a, b with
  | Some x, Some y => x =? y
  | None, None => true
  | _, _ => false
  end.

(** ['focus_rating' in update_data and update_data['focus_rating'] != old_focus] *)
Definition focus_changed (session_update : PracticeSessionUpdate.t) (old_focus : option Z)
  : bool :=
  match PracticeSessionUpdate.focus_rating session_update with
  | Some v => negb (option_Z_eqb v old_focus)
  | None => false
  end.

Definition update_practice_session (session_id : Z)
           (session_update : PracticeSessionUpdate.t) : M (option PracticeSession.t) :=
  db_session <- get_practice_session session_id ;;
  match db_session with
  | None => ret None
  | Some db_session =>
      let old_focus := PracticeSession.focus_rating db_session in
      db_session <- assign_session (apply_update session_update db_session) ;;
      db_session <-
        (if focus_changed session_update old_focus then
           user <- get_user (PracticeSession.user_id db_session) ;;
           match user with
           | None => raise AttributeError
           | Some user =>
               let old_points := PracticeSession.points_earned db_session in
               new_points <- lift (calculate_points db_session user) ;;
               let point_diff := new_points - old_points in
               db_session <- assign_session
                               (PracticeSession.set_points_earned db_session new_points) ;;
               user <- assign_user (User.set_total_points user
                                      (User.total_points user + point_diff)) ;;
               assign_user (update_user_level user) ;;
               ret db_session
           end
         else ret db_session) ;;
      commit ;;
      ret (Some db_session)
  end.

(** The body of the loop over [db_session.session_tasks]. *)
Definition unlink_task (st : SessionTask.t) : M unit :=
  task <- get_task (SessionTask.task_id st) ;;
  match task with
  | None => raise AttributeError
  | Some task =>
      task <- assign_task (PracticeTask.set_total_time_practiced task
                (Z.max 0 (PracticeTask.total_time_practiced task
                          - SessionTask.minutes_spent st))) ;;
      put_task (PracticeTask.set_practice_count task
                  (Z.max 0 (PracticeTask.practice_count task - 1)))
  end.

Definition session_links (db : Store) (session_id : Z) : list SessionTask.t :=
  filter (fun st => SessionTask.session_id st =? session_id) (session_tasks db).

(** [db.delete(db_session); db.commit()], in a unit of work that began with
    the store [start]; [links] is the loaded collection
    [db_session.session_tasks].  The relationship has no delete cascade
    (models.py, [PracticeSession.session_tasks]), so the flush first detaches
    the links from the session: it writes NULL to their [session_id].  That
    column is declared [nullable=False]: with a link the flush fails, the
    commit raises IntegrityError and every write of the unit of work is
    rolled back.  Without a link the session row is deleted and the commit
    goes through. *)
Definition delete_session (start : Store) (db_session : PracticeSession.t)
           (links : list SessionTask.t) : M unit :=
  fun db =>
    match links with
    | [] =>
        (committed
           (mkStore (users db) (tasks db)
              (filter (fun s => negb (PracticeSession.id s =? PracticeSession.id db_session))
                      (sessions db))
              (session_tasks db) (badges db) (new_session_tasks db) (new_badges db)),
         Ok tt)
    | _ :: _ => (rolled_back start, Raise IntegrityError)
    end.

Definition delete_practice_session (session_id : Z) : M bool :=
  fun start =>
    (db_session <- get_practice_session session_id ;;
     match db_session with
     | None => ret false
     | Some db_session =>
         user <- get_user (PracticeSession.user_id db_session) ;;
         match user with
         | Some user =>
             user <- assign_user (User.set_total_points user
                       (Z.max 0 (User.total_points user
                                 - PracticeSession.points_earned db_session))) ;;
             put_user (update_user_level user)
         | None => ret tt
         end ;;
         links <- gets (fun db => session_links db (PracticeSession.id db_session)) ;;
         for_each links unlink_task ;;
         delete_session start db_session links ;;
         ret true
     end) start.

(** ** Leaderboard *)

Definition get_ensemble_members (db : Store) (ensemble_id : Z) : list User.t :=
  filter (fun u => match User.ensemble_id u with
                   | Some e => e =? ensemble_id
                   | None => false
                   end) (users db).

(** [date.weekday()]: Monday is 0; day ordinal 1 is a Monday. *)
Definition weekday (d : Z) : Z := (d - 1) mod 7.

Definition sum_Z (l : list Z) : Z := fold_right Z.add 0 l.

(** [func.sum(..)...scalar()]: [None] when no row is selected. *)
Definition scalar_sum (l : list Z) : option Z :=
  match l with
  | [] => None
  | _ => Some (sum_Z l)
  end.

(** [x or 0] *)
Definition or_0 (x : option Z) : Z := if truthy x then rating_value x else 0.

Definition in_week (week_start week_end : Z) (member_id : Z) (s : PracticeSession.t)
  : bool :=
  (PracticeSession.user_id s =? member_id)
  && (week_start <=? DateTime.date (PracticeSession.start_time s))
  && (DateTime.date (PracticeSession.start_time s) <=? week_end).

(** The dictionaries appended to [entries]. *)
Module Entry.
Record t := mk { user : User.t; weekly_minutes : Z; weekly_points : Z }.
End Entry.

Definition member_entry (db : Store) (week_start week_end : Z) (member : User.t)
  : Entry.t :=
  let rows := filter (in_week week_start week_end (User.id member)) (sessions db) in
  let weekly_minutes := or_0 (scalar_sum (map PracticeSession.duration_minutes rows)) in
  let weekly_points := or_0 (scalar_sum (map PracticeSession.points_earned rows)) in
  Entry.mk member weekly_minutes weekly_points.

(** [list.sort(key=.., reverse=True)]: stable, into descending key order.
    An element goes in front of the first one whose key is not larger. *)
Fixpoint insert_desc {A} (key : A -> Z) (x : A) (l : list A) : list A :=
  match l with
  | [] => [x]
  | y :: l' => if key x <? key y then y :: insert_desc key x l' else x :: l
  end.

Definition sort_reverse {A} (key : A -> Z) (l : list A) : list A :=
  fold_right (insert_desc key) [] l.

(** [rank = i + 1 for i, entry in enumerate(entries)], [i] counted from the
    given start. *)
Fixpoint rank_entries (i : Z) (entries : list Entry.t) : list LeaderboardEntry.t :=
  match entries with
  | [] => []
  | entry :: rest =>
      LeaderboardEntry.mk (i + 1) (Entry.user entry) (Entry.weekly_minutes entry)
                          (Entry.weekly_points entry)
      :: rank_entries (i + 1) rest
  end.

Definition get_weekly_leaderboard (today : Z) (db : Store) (ensemble_id : Z)
  : Leaderboard.t :=
  let week_start := today - weekday today in
  let week_end := week_start + 6 in
  let members := get_ensemble_members db ensemble_id in
  let entries := map (member_entry db week_start week_end) members in
  let entries := sort_reverse Entry.weekly_minutes entries in
  Leaderboard.mk (rank_entries 0 entries) week_start week_end.

(** ** Stores of the examples *)

(** A user with a two-day streak who practiced yesterday (day 99), one task
    of 60 estimated minutes, no session yet. *)
Definition studio : Store :=
  mkStore [User.mk 1 (Some 7) 2 0 1 (Some 99); User.mk 2 (Some 7) 0 0 1 None]
          [PracticeTask.mk 1 1 60 0 0 NOT_STARTED PyFloat.zero]
          [] [] [] [] [].

(** 40 minutes at 6 in the morning of day 100, focus 5, 30 of them on task 1. *)
Definition morning_session (user_id : Z) : PracticeSessionCreate.t :=
  PracticeSessionCreate.mk user_id (DateTime.mk 100 6) 40 None (Some 5) None None
                           [SessionTaskCreate.mk 1 30].

(** [studio] once user 1 has logged [morning_session]. *)
Definition studio_after : Store :=
  Eval vm_compute in fst (create_practice_session 100 (morning_session 1) studio).

(** A new account as [create_user] stores it (no streak, 0 points, level 1,
    no practice date) with a new task of 60 estimated minutes as
    [create_task] stores it; no session yet. *)
Definition newcomer : Store :=
  mkStore [User.mk 1 None 0 0 1 None]
          [PracticeTask.mk 1 1 60 0 0 NOT_STARTED PyFloat.zero]
          [] [] [] [] [].

(** * Properties *)

(** ** Streak tracker *)

Section Streak.

Variable today : Z.

Lemma update_streak_last (user : User.t) :
  User.last_practice_date (update_streak today user) = Some today.
Proof. reflexivity. Qed.

Lemma update_streak_same_day (user : User.t) :
  User.last_practice_date user = Some today ->
  update_streak today user = user.
Proof.
  intros H. unfold update_streak. rewrite H, Z.eqb_refl.
  destruct user; simpl in *. now subst.
Qed.

Lemma update_streak_frame (user : User.t) :
  User.id (update_streak today user) = User.id user
  /\ User.ensemble_id (update_streak today user) = User.ensemble_id user
  /\ User.total_points (update_streak today user) = User.total_points user
  /\ User.level (update_streak today user) = User.level user.
Proof.
  unfold update_streak.
  destruct (User.last_practice_date user) as [last|]; simpl; auto.
  destruct (last =? today); simpl; auto.
  destruct (last =? today - 1); simpl; auto.
Qed.

End Streak.

(** C3: [update_streak] follows the priority rule (no last date: 1; last date
    today: unchanged; last date yesterday: one more; any other date, earlier
    or later: 1), always leaves [last_practice_date = today], and a second
    application on the same day changes nothing. *)
Theorem update_streak_rule (today : Z) (user : User.t) :
  let user' := update_streak today user in
  (User.last_practice_date user = None -> User.streak_count user' = 1)
  /\ (User.last_practice_date user = Some today ->
      User.streak_count user' = User.streak_count user)
  /\ (User.last_practice_date user = Some (today - 1) ->
      User.streak_count user' = User.streak_count user + 1)
  /\ (forall d, User.last_practice_date user = Some d ->
                d <> today -> d <> today - 1 -> User.streak_count user' = 1)
  /\ User.last_practice_date user' = Some today
  /\ update_streak today user' = user'.
Proof.
  cbv zeta. repeat split.
  - intros H. unfold update_streak. now rewrite H.
  - intros H. now rewrite update_streak_same_day.
  - intros H. unfold update_streak. rewrite H.
    replace (today - 1 =? today) with false by (symmetry; apply Z.eqb_neq; lia).
    now rewrite Z.eqb_refl.
  - intros d H Hd Hy. unfold update_streak. rewrite H.
    apply Z.eqb_neq in Hd, Hy. now rewrite Hd, Hy.
  - apply update_streak_same_day, update_streak_last.
Qed.

(** ** What a computation leaves alone *)

Definition preserves {A B} (f : Store -> B) (m : M A) : Prop :=
  forall db, f (fst (m db)) = f db.

Lemma preserves_ret {A B} (f : Store -> B) (a : A) : preserves f (ret a).
Proof. now intros db. Qed.

Lemma preserves_raise {A B} (f : Store -> B) (e : exn) : preserves f (@raise A e).
Proof. now intros db. Qed.

Lemma preserves_gets {A B} (f : Store -> B) (g : Store -> A) : preserves f (gets g).
Proof. now intros db. Qed.

Lemma preserves_lift {A B} (f : Store -> B) (r : result A) : preserves f (lift r).
Proof. now intros db. Qed.

Lemma preserves_bind {A B C} (f : Store -> C) (m : M A) (k : A -> M B) :
  preserves f m -> (forall a, preserves f (k a)) -> preserves f (bind m k).
Proof.
  intros Hm Hk db. unfold bind. specialize (Hm db).
  destruct (m db) as [db1 [a|e]]; simpl in *.
  - now rewrite Hk.
  - exact Hm.
Qed.

Lemma preserves_for_each {A C} (f : Store -> C) (l : list A) (body : A -> M unit) :
  (forall a, preserves f (body a)) -> preserves f (for_each l body).
Proof.
  intros Hb. induction l as [|x l IH]; simpl.
  - apply preserves_ret.
  - apply preserves_bind; auto.
Qed.

Lemma preserves_if {A C} (f : Store -> C) (c : bool) (m1 m2 : M A) :
  preserves f m1 -> preserves f m2 -> preserves f (if c then m1 else m2).
Proof. now destruct c. Qed.

Ltac head_of t :=
  lazymatch t with
  | ?f _ => head_of f
  | _ => t
  end.

(** Walks a computation and closes [preserves f m] when every store
    update in [m] visibly keeps [f]. *)
Ltac frame :=
  lazymatch goal with
  | |- preserves _ (bind _ _) => apply preserves_bind; [ frame | intro; frame ]
  | |- preserves _ (ret _) => apply preserves_ret
  | |- preserves _ (raise _) => apply preserves_raise
  | |- preserves _ (gets _) => apply preserves_gets
  | |- preserves _ (lift _) => apply preserves_lift
  | |- preserves _ (for_each _ _) => apply preserves_for_each; intro; frame
  | |- preserves _ (modify _) => intros ?; reflexivity
  | |- preserves _ (fun _ => (_, _)) => intros ?; reflexivity
  | |- preserves _ (if _ then _ else _) => apply preserves_if; frame
  | |- preserves _ (match ?x with _ => _ end) => destruct x; frame
  | |- preserves _ ?m => let h := head_of m in unfold h; frame
  end.

Lemma check_and_award_badges_users user session :
  preserves users (check_and_award_badges user session).
Proof. frame. Qed.

Lemma link_task_users db_session task_data :
  preserves users (link_task db_session task_data).
Proof. frame. Qed.

Lemma unlink_task_users st : preserves users (unlink_task st).
Proof. frame. Qed.

(** ** Rows and primary keys *)

Section Rows.

Context {A : Type} (key : A -> Z).

Lemma find_key i rows x :
  find (fun r => key r =? i) rows = Some x -> key x = i.
Proof.
  intros H. apply find_some in H. now apply Z.eqb_eq.
Qed.

Lemma find_replace_same x i rows r :
  key x = i ->
  find (fun r => key r =? i) rows = Some r ->
  find (fun r => key r =? i) (replace_row key x rows) = Some x.
Proof.
  intros <-. induction rows as [|y rows IH]; simpl; [discriminate|].
  destruct (key y =? key x) eqn:E.
  - intros _. now rewrite Z.eqb_refl.
  - rewrite E. exact IH.
Qed.

Lemma find_replace_other x i rows :
  key x <> i ->
  find (fun r => key r =? i) (replace_row key x rows)
  = find (fun r => key r =? i) rows.
Proof.
  intros Hne. induction rows as [|y rows IH]; simpl; [reflexivity|].
  destruct (key y =? key x) eqn:E.
  - apply Z.eqb_eq in E.
    replace (key x =? i) with false by (symmetry; apply Z.eqb_neq; lia).
    replace (key y =? i) with false by (symmetry; apply Z.eqb_neq; lia).
    exact IH.
  - destruct (key y =? i); [reflexivity|exact IH].
Qed.

Lemma find_replace_none x i rows :
  find (fun r => key r =? i) rows = None ->
  find (fun r => key r =? i) (replace_row key x rows) = None.
Proof.
  induction rows as [|y rows IH]; simpl; [reflexivity|].
  destruct (key y =? i) eqn:E; [discriminate|].
  intros H. destruct (key y =? key x) eqn:E'.
  - apply Z.eqb_eq in E'. rewrite <- E', E. auto.
  - rewrite E. auto.
Qed.

Lemma replace_twice x y rows :
  key x = key y ->
  replace_row key y (replace_row key x rows) = replace_row key y rows.
Proof.
  intros E. unfold replace_row. rewrite map_map. apply map_ext. intros r.
  rewrite <- E. destruct (key r =? key x) eqn:H.
  - now rewrite Z.eqb_refl.
  - now rewrite H.
Qed.

Lemma replace_keys x rows : map key (replace_row key x rows) = map key rows.
Proof.
  unfold replace_row. rewrite map_map. apply map_ext. intros r.
  destruct (key r =? key x) eqn:E; [|reflexivity].
  apply Z.eqb_eq in E. congruence.
Qed.

End Rows.

(** ** Running a computation step by step *)

Lemma run_bind {A B} (m : M A) (k : A -> M B) db :
  bind m k db
  = match m db with
    | (db', Ok a) => k a db'
    | (db', Raise e) => (db', Raise e)
    end.
Proof. reflexivity. Qed.

Definition with_users (db : Store) (rows : list User.t) : Store :=
  mkStore rows (tasks db) (sessions db) (session_tasks db) (badges db)
          (new_session_tasks db) (new_badges db).

Definition with_tasks (db : Store) (rows : list PracticeTask.t) : Store :=
  mkStore (users db) rows (sessions db) (session_tasks db) (badges db)
          (new_session_tasks db) (new_badges db).

Definition with_sessions (db : Store) (rows : list PracticeSession.t) : Store :=
  mkStore (users db) (tasks db) rows (session_tasks db) (badges db)
          (new_session_tasks db) (new_badges db).

Lemma run_assign_session s db :
  assign_session s db = (with_sessions db (replace_session s (sessions db)), Ok s).
Proof. reflexivity. Qed.

Lemma run_assign_task k db :
  assign_task k db = (with_tasks db (replace_task k (tasks db)), Ok k).
Proof. reflexivity. Qed.

Lemma run_put_task k db :
  put_task k db = (with_tasks db (replace_task k (tasks db)), Ok tt).
Proof. reflexivity. Qed.

Lemma run_put_user u db :
  put_user u db = (with_users db (replace_user u (users db)), Ok tt).
Proof. reflexivity. Qed.

Lemma run_get_practice_session i db :
  get_practice_session i db
  = (db, Ok (find (fun s => PracticeSession.id s =? i) (sessions db))).
Proof. reflexivity. Qed.

Lemma run_get_task i db :
  get_task i db = (db, Ok (find (fun k => PracticeTask.id k =? i) (tasks db))).
Proof. reflexivity. Qed.

Lemma run_ret {A} (a : A) db : ret a db = (db, Ok a).
Proof. reflexivity. Qed.

Lemma run_commit db : commit db = (committed db, Ok tt).
Proof. reflexivity. Qed.

Lemma run_assign_user u db :
  assign_user u db = (with_users db (replace_user u (users db)), Ok u).
Proof. reflexivity. Qed.

Lemma run_get_user i db :
  get_user i db = (db, Ok (find (fun u => User.id u =? i) (users db))).
Proof. reflexivity. Qed.

Lemma run_lift {A} (r : result A) db : lift r db = (db, r).
Proof. reflexivity. Qed.

Lemma preserves_run {A B} (f : Store -> B) (m : M A) db :
  preserves f m -> f (fst (m db)) = f db.
Proof. intros H. apply H. Qed.

(** ** The users and sessions tables after each operation *)

(** A user object after [total_points += diff] and the level update. *)
Definition repointed (user : User.t) (diff : Z) : User.t :=
  update_user_level (User.set_total_points user (User.total_points user + diff)).

(** The user object of [create_practice_session] once the streak is
    updated, the points are awarded and the level is resolved. *)
Definition rewarded (today : Z) (user : User.t) (points : Z) : User.t :=
  repointed (update_streak today user) points.

(** The session row [create_practice_session] stores. *)
Definition stored_session (db : Store) (session : PracticeSessionCreate.t) (points : Z)
  : PracticeSession.t :=
  PracticeSession.set_id
    (PracticeSession.set_points_earned (mk_session session) points)
    (next_id (map PracticeSession.id (sessions db))).

Lemma rewarded_id today user points : User.id (rewarded today user points) = User.id user.
Proof.
  unfold rewarded, repointed. cbn [User.id update_user_level User.set_total_points User.set_level].
  apply update_streak_frame.
Qed.

Lemma create_practice_session_tables today session db :
  let r := create_practice_session today session db in
  match find (fun u => User.id u =? PracticeSessionCreate.user_id session) (users db) with
  | None => r = (db, Raise (ValueError "User not found"))
  | Some user =>
      match calculate_points (mk_session session) (update_streak today user) with
      | Raise e =>
          r = (with_users db (replace_user (update_streak today user) (users db)), Raise e)
      | Ok points =>
          users (fst r) = replace_user (rewarded today user points) (users db)
          /\ sessions (fst r) = sessions db ++ [stored_session db session points]
      end
  end.
Proof.
  cbv zeta. unfold create_practice_session.
  rewrite run_bind, run_get_user.
  destruct (find _ (users db)) as [user|] eqn:Hu; [|reflexivity].
  rewrite run_bind, run_assign_user, run_bind, run_lift.
  destruct (calculate_points _ _) as [points|e]; [|reflexivity].
  rewrite run_bind, run_assign_user, run_bind, run_assign_user.
  pose proof (update_streak_frame today user) as (Hs & _).
  split.
  - rewrite preserves_run by frame.
    cbn [users with_users].
    unfold replace_user; rewrite !replace_twice; [reflexivity|idtac..];
      cbn [User.id update_user_level User.set_total_points User.set_level]; congruence.
  - rewrite run_bind. unfold add_session at 1. cbv beta zeta.
    rewrite preserves_run by frame. reflexivity.
Qed.

Lemma apply_update_frame upd s :
  PracticeSession.id (apply_update upd s) = PracticeSession.id s
  /\ PracticeSession.user_id (apply_update upd s) = PracticeSession.user_id s
  /\ PracticeSession.duration_minutes (apply_update upd s)
     = PracticeSession.duration_minutes s
  /\ PracticeSession.points_earned (apply_update upd s) = PracticeSession.points_earned s
  /\ PracticeSession.start_time (apply_update upd s) = PracticeSession.start_time s.
Proof.
  unfold apply_update.
  destruct upd as [[f|] [p|] [e|] [n|]]; cbn; auto.
Qed.

Lemma update_practice_session_tables session_id upd db :
  let r := update_practice_session session_id upd db in
  match find (fun s => PracticeSession.id s =? session_id) (sessions db) with
  | None => r = (db, Ok None)
  | Some s =>
      let s1 := apply_update upd s in
      let db1 := with_sessions db (replace_session s1 (sessions db)) in
      if focus_changed upd (PracticeSession.focus_rating s) then
        match find (fun u => User.id u =? PracticeSession.user_id s) (users db) with
        | None => r = (db1, Raise AttributeError)
        | Some user =>
            match calculate_points s1 user with
            | Raise e => r = (db1, Raise e)
            | Ok new_points =>
                let s2 := PracticeSession.set_points_earned s1 new_points in
                let diff := new_points - PracticeSession.points_earned s in
                r = (committed
                       (with_users
                          (with_sessions db (replace_session s2 (sessions db)))
                          (replace_user (repointed user diff) (users db))),
                     Ok (Some s2))
            end
        end
      else r = (committed db1, Ok (Some s1))
  end.
Proof.
  cbv zeta. unfold update_practice_session.
  rewrite run_bind, run_get_practice_session.
  destruct (find _ (sessions db)) as [s|] eqn:Hs; [|reflexivity].
  pose proof (apply_update_frame upd s) as (Hid & Hu & _ & Hp & _).
  rewrite run_bind, run_assign_session, run_bind.
  destruct (focus_changed upd (PracticeSession.focus_rating s)); [|reflexivity].
  rewrite run_bind, run_get_user. cbn [users with_sessions]. rewrite Hu.
  destruct (find _ (users db)) as [user|] eqn:Hf; [|reflexivity].
  rewrite run_bind, run_lift.
  destruct (calculate_points _ user) as [new_points|e]; [|reflexivity].
  rewrite run_bind, run_assign_session, run_bind, run_assign_user, run_bind,
    run_assign_user, run_ret, run_bind, run_commit, run_ret.
  cbn [users sessions with_users with_sessions].
  unfold replace_session, replace_user.
  rewrite (replace_twice PracticeSession.id) by (cbn; congruence).
  rewrite (replace_twice User.id) by reflexivity.
  rewrite Hp. reflexivity.
Qed.

(** ** Deleting a session *)

(** A user object after the points of a deleted session are taken back. *)
Definition refunded (user : User.t) (points : Z) : User.t :=
  update_user_level
    (User.set_total_points user (Z.max 0 (User.total_points user - points))).

(** A task object after [minutes] and [count] links are taken back. *)
Definition reduced (task : PracticeTask.t) (minutes count : Z) : PracticeTask.t :=
  PracticeTask.set_practice_count
    (PracticeTask.set_total_time_practiced task
       (Z.max 0 (PracticeTask.total_time_practiced task - minutes)))
    (Z.max 0 (PracticeTask.practice_count task - count)).

Definition links_to (task_id : Z) (l : list SessionTask.t) : list SessionTask.t :=
  filter (fun st => SessionTask.task_id st =? task_id) l.

Definition link_minutes (task_id : Z) (l : list SessionTask.t) : Z :=
  sum_Z (map SessionTask.minutes_spent (links_to task_id l)).

Definition link_count (task_id : Z) (l : list SessionTask.t) : Z :=
  Z.of_nat (List.length (links_to task_id l)).

Lemma run_unlink_task st db task :
  find (fun k => PracticeTask.id k =? SessionTask.task_id st) (tasks db) = Some task ->
  unlink_task st db
  = (with_tasks db (replace_task (reduced task (SessionTask.minutes_spent st) 1) (tasks db)),
     Ok tt).
Proof.
  intros H. unfold unlink_task.
  rewrite run_bind, run_get_task, H, run_bind, run_assign_task, run_put_task.
  cbn [tasks with_tasks]. unfold replace_task.
  rewrite (replace_twice PracticeTask.id) by reflexivity.
  reflexivity.
Qed.

(** The store after the user step of [delete_practice_session]. *)
Definition refund_step (db : Store) (s : PracticeSession.t) : Store :=
  match find (fun u => User.id u =? PracticeSession.user_id s) (users db) with
  | Some user =>
      with_users db
        (replace_user (refunded user (PracticeSession.points_earned s)) (users db))
  | None => db
  end.

Definition without_session (session_id : Z) (rows : list PracticeSession.t)
  : list PracticeSession.t :=
  filter (fun s => negb (PracticeSession.id s =? session_id)) rows.

(** The loop of [delete_practice_session] writes tasks only; it stops with
    AttributeError at a link whose task is gone ([st.task] is [None]). *)
Lemma unlink_loop_frame l : forall db,
  exists rows r,
    for_each l unlink_task db = (with_tasks db rows, r)
    /\ (r = Ok tt \/ r = Raise AttributeError)
    /\ ((forall st, In st l ->
           find (fun k => PracticeTask.id k =? SessionTask.task_id st) (tasks db) <> None) ->
        r = Ok tt).
Proof.
  induction l as [|st l IH]; intros db.
  - exists (tasks db), (Ok tt). destruct db; auto.
  - cbn [for_each]. rewrite run_bind.
    destruct (find (fun k => PracticeTask.id k =? SessionTask.task_id st) (tasks db))
      as [k0|] eqn:Hk0.
    + rewrite (run_unlink_task _ _ _ Hk0).
      pose proof (find_key _ _ _ _ Hk0) as Hid0.
      set (db1 := with_tasks db
                    (replace_task (reduced k0 (SessionTask.minutes_spent st) 1) (tasks db))).
      destruct (IH db1) as (rows & r & Hrun & Hr & Hok).
      exists rows, r. split; [exact Hrun|]. split; [exact Hr|].
      intros Hex. apply Hok. intros st' Hin. unfold db1. cbn [tasks with_tasks].
      specialize (Hex st' (or_intror Hin)).
      destruct (Z.eq_dec (SessionTask.task_id st) (SessionTask.task_id st')) as [E|E].
      * unfold replace_task. rewrite <- E.
        erewrite find_replace_same; [discriminate|cbn; exact Hid0|exact Hk0].
      * unfold replace_task. rewrite find_replace_other; [exact Hex|cbn; lia].
    + exists (tasks db), (Raise AttributeError).
      unfold unlink_task. rewrite run_bind, run_get_task, Hk0.
      split; [destruct db; reflexivity|]. split; [now right|].
      intros Hex. exfalso. eapply Hex; [now left|exact Hk0].
Qed.

(** [delete_practice_session] step by step: no such session; a session
    without links; a session with links. *)
Lemma delete_practice_session_run session_id db :
  delete_practice_session session_id db
  = match find (fun s => PracticeSession.id s =? session_id) (sessions db) with
    | None => (db, Ok false)
    | Some s =>
        match session_links db session_id with
        | [] =>
            (committed (with_sessions (refund_step db s)
                                      (without_session session_id (sessions db))),
             Ok true)
        | st :: links =>
            match for_each (st :: links) unlink_task (refund_step db s) with
            | (_, Ok _) => (rolled_back db, Raise IntegrityError)
            | (db1, Raise e) => (db1, Raise e)
            end
        end
    end.
Proof.
  unfold delete_practice_session.
  rewrite run_bind, run_get_practice_session.
  destruct (find _ (sessions db)) as [s|] eqn:Hs; [|reflexivity].
  pose proof (find_key _ _ _ _ Hs) as Hid.
  assert (Htail : forall db1,
    sessions db1 = sessions db -> session_tasks db1 = session_tasks db ->
    (links <- gets (fun db => session_links db (PracticeSession.id s)) ;;
     for_each links unlink_task ;;
     delete_session db s links ;;
     ret true) db1
    = match session_links db session_id with
      | [] => (committed (with_sessions db1 (without_session session_id (sessions db))),
               Ok true)
      | st :: links =>
          match for_each (st :: links) unlink_task db1 with
          | (_, Ok _) => (rolled_back db, Raise IntegrityError)
          | (db2, Raise e) => (db2, Raise e)
          end
      end).
  { intros db1 Hss Hst.
    rewrite run_bind. unfold gets at 1. cbv beta iota.
    assert (El : session_links db1 (PracticeSession.id s) = session_links db session_id)
      by (unfold session_links; now rewrite Hst, Hid).
    rewrite El. destruct (session_links db session_id) as [|st links].
    - cbn [for_each]. rewrite run_bind, run_ret, run_bind.
      unfold delete_session. rewrite run_ret.
      unfold without_session, with_sessions. now rewrite Hid, Hss.
    - rewrite run_bind.
      destruct (for_each (st :: links) unlink_task db1) as [db2 [[]|e]]; reflexivity. }
  rewrite run_bind, run_get_user. unfold refund_step.
  destruct (find _ (users db)) as [user|].
  - rewrite run_bind, run_bind, run_assign_user, run_put_user.
    cbn [users with_users]. unfold replace_user.
    rewrite (replace_twice User.id) by reflexivity.
    now apply Htail.
  - rewrite run_bind, run_ret. now apply Htail.
Qed.

(** A call that returns: the session was not there, or it had no link. *)
Lemma delete_practice_session_ok session_id db db' a :
  delete_practice_session session_id db = (db', Ok a) ->
  match find (fun s => PracticeSession.id s =? session_id) (sessions db) with
  | None => db' = db /\ a = false
  | Some s =>
      session_links db session_id = []
      /\ a = true
      /\ db' = committed (with_sessions (refund_step db s)
                                        (without_session session_id (sessions db)))
  end.
Proof.
  rewrite delete_practice_session_run.
  destruct (find _ (sessions db)) as [s|]; [|now intros [= <- <-]].
  destruct (session_links db session_id) as [|st links]; [now intros [= <- <-]|].
  destruct (for_each _ unlink_task _) as [db2 [[]|e]]; discriminate.
Qed.

(** A session with links: the call raises, whatever the tasks are. *)
Lemma delete_practice_session_linked session_id db s :
  find (fun s => PracticeSession.id s =? session_id) (sessions db) = Some s ->
  session_links db session_id <> [] ->
  exists db' e,
    delete_practice_session session_id db = (db', Raise e)
    /\ (e = IntegrityError \/ e = AttributeError)
    /\ ((forall st, In st (session_links db session_id) ->
           find (fun k => PracticeTask.id k =? SessionTask.task_id st) (tasks db) <> None) ->
        db' = rolled_back db /\ e = IntegrityError).
Proof.
  intros Hs Hl. rewrite delete_practice_session_run, Hs.
  destruct (session_links db session_id) as [|st links] eqn:El; [congruence|]. clear Hl.
  destruct (unlink_loop_frame (st :: links) (refund_step db s)) as (rows & r & -> & Hr & Hok).
  assert (Ht : tasks (refund_step db s) = tasks db)
    by (unfold refund_step; destruct (find _ (users db)); reflexivity).
  rewrite Ht in Hok.
  destruct Hr as [-> | ->].
  - exists (rolled_back db), IntegrityError. auto.
  - eexists _, AttributeError. split; [reflexivity|]. split; [now right|].
    intros Hex. specialize (Hok Hex). discriminate.
Qed.

Lemma delete_practice_session_users session_id db db' a :
  delete_practice_session session_id db = (db', Ok a) ->
  users db'
  = match find (fun s => PracticeSession.id s =? session_id) (sessions db) with
    | None => users db
    | Some s => users (refund_step db s)
    end.
Proof.
  intros H. apply delete_practice_session_ok in H.
  destruct (find _ (sessions db)) as [s|].
  - destruct H as (_ & _ & ->). reflexivity.
  - destruct H as (-> & _). reflexivity.
Qed.

(** ** Level resolver *)

Lemma update_user_level_spec user :
  User.level (update_user_level user) = User.total_points (update_user_level user) / 100 + 1.
Proof. reflexivity. Qed.

(** The three operations that assign [total_points]. *)
Inductive operation : Type :=
| Create (today : Z) (session : PracticeSessionCreate.t)
| Update (session_id : Z) (session_update : PracticeSessionUpdate.t)
| Delete (session_id : Z).

Definition forget {A} (r : Store * result A) : Store * result unit :=
  (fst r, result_map (fun _ => tt) (snd r)).

Definition run_operation (op : operation) (db : Store) : Store * result unit :=
  match op with
  | Create today session => forget (create_practice_session today session db)
  | Update session_id session_update =>
      forget (update_practice_session session_id session_update db)
  | Delete session_id => forget (delete_practice_session session_id db)
  end.

(** The user whose points the operation is about: the user of the new
    session, of the session whose focus rating changes, of the deleted
    session. *)
Definition point_user (op : operation) (db : Store) : option Z :=
  match op with
  | Create _ session => Some (PracticeSessionCreate.user_id session)
  | Update session_id session_update =>
      match find (fun s => PracticeSession.id s =? session_id) (sessions db) with
      | Some s =>
          if focus_changed session_update (PracticeSession.focus_rating s)
          then Some (PracticeSession.user_id s)
          else None
      | None => None
      end
  | Delete session_id =>
      match find (fun s => PracticeSession.id s =? session_id) (sessions db) with
      | Some s => Some (PracticeSession.user_id s)
      | None => None
      end
  end.

Lemma forget_ok {A} (r : Store * result A) db' :
  forget r = (db', Ok tt) -> fst r = db' /\ exists a, snd r = Ok a.
Proof.
  destruct r as [d [a|e]]; unfold forget; cbn; intros H; inversion H; eauto.
Qed.

(** C1: after [create_practice_session], after [update_practice_session]
    with a changed focus rating and after [delete_practice_session], the
    user concerned has [level = total_points // 100 + 1]. *)
Theorem level_after_point_mutation op db db' user_id user' :
  point_user op db = Some user_id ->
  run_operation op db = (db', Ok tt) ->
  find (fun u => User.id u =? user_id) (users db') = Some user' ->
  User.level user' = User.total_points user' / 100 + 1.
Proof.
  destruct op as [today session|session_id upd|session_id]; cbn [point_user run_operation].
  - intros [= <-] Hrun Hfind. apply forget_ok in Hrun as (<- & a & Hok).
    pose proof (create_practice_session_tables today session db) as C. cbv zeta in C.
    destruct (find _ (users db)) as [user|] eqn:Hu.
    + destruct (calculate_points _ _) as [points|e].
      * destruct C as (Cu & _). rewrite Cu in Hfind.
        unfold replace_user in Hfind.
        erewrite find_replace_same in Hfind;
          [|rewrite rewarded_id; exact (find_key _ _ _ _ Hu)|exact Hu].
        injection Hfind as <-. reflexivity.
      * rewrite C in Hok. discriminate.
    + rewrite C in Hok. discriminate.
  - pose proof (update_practice_session_tables session_id upd db) as C. cbv zeta in C.
    destruct (find _ (sessions db)) as [s|]; [|discriminate].
    destruct (focus_changed upd (PracticeSession.focus_rating s)); [|discriminate].
    intros [= <-] Hrun Hfind. apply forget_ok in Hrun as (<- & a & Hok).
    destruct (find _ (users db)) as [user|] eqn:Hu;
      [|rewrite C in Hok; discriminate].
    destruct (calculate_points _ user) as [new_points|e];
      [|rewrite C in Hok; discriminate].
    rewrite C in Hfind. cbn [fst users committed with_users] in Hfind.
    unfold replace_user in Hfind.
    erewrite find_replace_same in Hfind;
      [|exact (find_key _ _ _ _ Hu)|exact Hu].
    injection Hfind as <-. reflexivity.
  - destruct (find _ (sessions db)) as [s|] eqn:Hs; [|discriminate].
    intros [= <-] Hrun Hfind. apply forget_ok in Hrun as (<- & a & Hok).
    rewrite (delete_practice_session_users session_id db _ a), Hs in Hfind
      by (rewrite <- Hok; apply surjective_pairing).
    unfold refund_step in Hfind.
    destruct (find _ (users db)) as [user|] eqn:Hu; [|congruence].
    cbn [users with_users] in Hfind. unfold replace_user in Hfind.
    erewrite find_replace_same in Hfind;
      [|exact (find_key _ _ _ _ Hu)|exact Hu].
    injection Hfind as <-. reflexivity.
Qed.

(** C6: a session with per-task links is never deleted, and nothing of it
    is reversed.  The flush of the delete writes NULL to the [session_id] of
    the links, which the column does not admit, so [delete_practice_session]
    never returns for such a session: it raises IntegrityError at the commit
    (AttributeError before that, if the task of a link is gone).  When the
    tasks of the links exist, the commit is rolled back: the user keeps the
    points and the level, the tasks keep their time and practice count, the
    session and its links stay, and so do the badges. *)
Theorem delete_practice_session_linked_fails session_id db s :
  find (fun s => PracticeSession.id s =? session_id) (sessions db) = Some s ->
  session_links db session_id <> [] ->
  (forall db' a, delete_practice_session session_id db <> (db', Ok a))
  /\ ((forall st, In st (session_links db session_id) ->
         find (fun k => PracticeTask.id k =? SessionTask.task_id st) (tasks db) <> None) ->
      exists db',
        delete_practice_session session_id db = (db', Raise IntegrityError)
        /\ users db' = users db
        /\ tasks db' = tasks db
        /\ sessions db' = sessions db
        /\ session_tasks db' = session_tasks db
        /\ badges db' = badges db).
Proof.
  intros Hs Hl.
  destruct (delete_practice_session_linked session_id db s Hs Hl)
    as (db1 & e & Hrun & _ & Hex).
  split.
  - intros db' a. rewrite Hrun. discriminate.
  - intros Htasks. destruct (Hex Htasks) as (-> & ->).
    exists (rolled_back db). split; [exact Hrun|]. repeat split.
Qed.

(** C5: with an unknown [user_id], [create_practice_session] raises the
    user-not-found error and hands back the store it was given: no streak,
    point or level change, no session or link row, no badge. *)
Theorem create_practice_session_unknown_user today session db :
  find (fun u => User.id u =? PracticeSessionCreate.user_id session) (users db) = None ->
  create_practice_session today session db
  = (db, Raise (ValueError "User not found")).
Proof.
  intros H. pose proof (create_practice_session_tables today session db) as C.
  cbv zeta in C. now rewrite H in C.
Qed.

(** ** Badge evaluator *)

(** The catalog with its triggers, in evaluation order. *)
Definition badge_triggers (db : Store) (user : User.t) (session : PracticeSession.t)
  : list (string * bool) :=
  [ ("first_session"%string, session_count db (User.id user) =? 1);
    ("streak_3"%string, 3 <=? User.streak_count user);
    ("streak_7"%string, 7 <=? User.streak_count user);
    ("streak_30"%string, 30 <=? User.streak_count user);
    ("marathon"%string, 60 <=? PracticeSession.duration_minutes session);
    ("perfect_focus"%string, focus_is (PracticeSession.focus_rating session) 5);
    ("early_bird"%string, DateTime.hour (PracticeSession.start_time session) <? 8);
    ("night_owl"%string, 22 <=? DateTime.hour (PracticeSession.start_time session)) ].

(** The badges a trigger table grants to a user who holds [held]. *)
Definition grants (held : string -> bool) (user_id : Z) (rules : list (string * bool))
  : list Badge.t :=
  map (fun r => Badge.mk user_id (fst r))
      (filter (fun r => snd r && negb (held (fst r))) rules).

Definition newly_granted (db : Store) (user : User.t) (session : PracticeSession.t)
  : list Badge.t :=
  grants (has_badge db (User.id user)) (User.id user) (badge_triggers db user session).

Definition with_new_badges (db : Store) (l : list Badge.t) : Store :=
  mkStore (users db) (tasks db) (sessions db) (session_tasks db) (badges db)
          (new_session_tasks db) l.

(** The chain of [award_badge] calls over a trigger table. *)
Fixpoint award_all {A} (rules : list (string * bool)) (user : User.t)
         (new_badges : list Badge.t) (k : list Badge.t -> M A) : M A :=
  match rules with
  | [] => k new_badges
  | r :: rules' =>
      bind (award_if (snd r) user (fst r) new_badges)
           (fun new_badges => award_all rules' user new_badges k)
  end.

Lemma check_and_award_badges_chain user session db :
  check_and_award_badges user session db
  = award_all (badge_triggers db user session) user []
              (fun new_badges => commit ;; ret new_badges) db.
Proof. reflexivity. Qed.

Lemma run_award_all {A} rules user (k : list Badge.t -> M A) : forall acc db,
  award_all rules user acc k db
  = k (acc ++ grants (has_badge db (User.id user)) (User.id user) rules)
      (with_new_badges db
         (new_badges db ++ grants (has_badge db (User.id user)) (User.id user) rules)).
Proof.
  induction rules as [|[t c] rules IH]; intros acc db; cbn [award_all].
  - unfold grants. cbn. rewrite !app_nil_r. destruct db; reflexivity.
  - rewrite run_bind. unfold award_if, grants. cbn [fst snd filter map].
    destruct c; cbn [andb].
    + unfold award_badge. rewrite run_bind. unfold gets at 1. cbv beta iota.
      destruct (has_badge db (User.id user) t) eqn:Hh; cbn [negb].
      * rewrite run_ret. apply IH.
      * rewrite run_bind. unfold add_badge, modify. cbv beta iota. rewrite run_ret.
        rewrite IH. unfold grants, has_badge. cbn [badges new_badges with_new_badges].
        rewrite <- !app_assoc. reflexivity.
    + rewrite run_ret. apply IH.
Qed.

Lemma check_and_award_badges_run user session db :
  check_and_award_badges user session db
  = (committed (with_new_badges db (new_badges db ++ newly_granted db user session)),
     Ok (newly_granted db user session)).
Proof.
  rewrite check_and_award_badges_chain, run_award_all. reflexivity.
Qed.

Lemma has_badge_In db user_id badge_type :
  has_badge db user_id badge_type = true <-> In (Badge.mk user_id badge_type) (badges db).
Proof.
  unfold has_badge. rewrite existsb_exists. split.
  - intros ([u t] & Hin & H). cbn in H. apply andb_true_iff in H as (H1 & H2).
    apply Z.eqb_eq in H1. apply String.eqb_eq in H2. now subst.
  - intros H. eexists. split; [exact H|]. cbn.
    now rewrite Z.eqb_refl, String.eqb_refl.
Qed.

Lemma grants_In held user_id rules b :
  In b (grants held user_id rules)
  <-> exists t, b = Badge.mk user_id t /\ held t = false /\ In (t, true) rules.
Proof.
  unfold grants. rewrite in_map_iff. split.
  - intros ([t c] & <- & H). apply filter_In in H as (Hin & H). cbn in *.
    apply andb_true_iff in H as (-> & H). apply negb_true_iff in H. eauto.
  - intros (t & -> & Hh & Hin). exists (t, true). split; [reflexivity|].
    apply filter_In. split; [exact Hin|]. cbn. now rewrite Hh.
Qed.





(** ** Leaderboard aggregator *)

Section SortReverse.

Context {A : Type} (key : A -> Z).

Definition descending (a b : A) : Prop := key b <= key a.

Lemma insert_desc_perm x l : Permutation (insert_desc key x l) (x :: l).
Proof.
  induction l as [|y l IH]; cbn [insert_desc]; [reflexivity|].
  destruct (key x <? key y); [|reflexivity].
  rewrite IH. apply perm_swap.
Qed.

Lemma sort_reverse_perm l : Permutation (sort_reverse key l) l.
Proof.
  induction l as [|x l IH]; cbn; [constructor|].
  fold (sort_reverse key l). rewrite insert_desc_perm. now constructor.
Qed.

Lemma insert_desc_sorted x l :
  StronglySorted descending l -> StronglySorted descending (insert_desc key x l).
Proof.
  induction l as [|y l IH]; cbn [insert_desc]; intros Hs.
  - repeat constructor.
  - inversion Hs as [|? ? Hl Hall]; subst.
    destruct (key x <? key y) eqn:E.
    + apply Z.ltb_lt in E. constructor; [now apply IH|].
      rewrite Forall_forall in *. intros z Hz.
      apply (Permutation_in _ (insert_desc_perm x l)) in Hz.
      destruct Hz as [<-|Hz]; [unfold descending; lia|now apply Hall].
    + apply Z.ltb_ge in E. constructor; [exact Hs|].
      constructor; [exact E|].
      rewrite Forall_forall in *. intros z Hz. specialize (Hall z Hz).
      unfold descending in *. lia.
Qed.

Lemma sort_reverse_sorted l : StronglySorted descending (sort_reverse key l).
Proof.
  induction l as [|x l IH]; cbn; [constructor|].
  now apply insert_desc_sorted.
Qed.

(** Stability: the elements of one key keep their order. *)
Lemma insert_desc_filter m x l :
  filter (fun a => key a =? m) (insert_desc key x l)
  = filter (fun a => key a =? m) (x :: l).
Proof.
  induction l as [|y l IH]; cbn [insert_desc]; [reflexivity|].
  destruct (key x <? key y) eqn:E; [|reflexivity].
  apply Z.ltb_lt in E. cbn [filter] in *. rewrite IH.
  destruct (key x =? m) eqn:Ex, (key y =? m) eqn:Ey; try reflexivity.
  apply Z.eqb_eq in Ex, Ey. lia.
Qed.

Lemma sort_reverse_stable m l :
  filter (fun a => key a =? m) (sort_reverse key l) = filter (fun a => key a =? m) l.
Proof.
  induction l as [|x l IH]; [reflexivity|].
  cbn [sort_reverse fold_right]. fold (sort_reverse key l).
  rewrite insert_desc_filter. cbn [filter]. now rewrite IH.
Qed.

End SortReverse.

(** A board entry without its rank. *)
Definition entry_of (e : LeaderboardEntry.t) : Entry.t :=
  Entry.mk (LeaderboardEntry.user e) (LeaderboardEntry.weekly_minutes e)
           (LeaderboardEntry.weekly_points e).

Lemma rank_entries_entry_of l : forall i, map entry_of (rank_entries i l) = l.
Proof.
  induction l as [|[u m p] l IH]; intros i; cbn; [reflexivity|].
  now rewrite IH.
Qed.

Lemma rank_entries_rank l : forall i,
  map LeaderboardEntry.rank (rank_entries i l)
  = map (fun k => i + Z.of_nat k) (seq 1 (List.length l)).
Proof.
  induction l as [|e l IH]; intros i; cbn [rank_entries map List.length seq];
    [reflexivity|].
  f_equal; try lia. rewrite IH, <- (seq_shift (List.length l) 1), map_map.
  apply map_ext. intros k. lia.
Qed.

Lemma or_0_scalar_sum l : or_0 (scalar_sum l) = sum_Z l.
Proof.
  destruct l as [|x l]; [reflexivity|].
  unfold or_0, scalar_sum, truthy, rating_value.
  destruct (sum_Z (x :: l) =? 0) eqn:E; cbn [negb]; [|reflexivity].
  apply Z.eqb_eq in E. congruence.
Qed.

Lemma sum_Z_nonneg l : (forall x, In x l -> 0 <= x) -> 0 <= sum_Z l.
Proof.
  induction l as [|x l IH]; intros H; cbn; [lia|].
  pose proof (H x (or_introl eq_refl)).
  pose proof (IH (fun y Hy => H y (or_intror Hy))). unfold sum_Z in *. lia.
Qed.

Lemma StronglySorted_map_inv {A B} (f : A -> B) (R : B -> B -> Prop) l :
  StronglySorted R (map f l) -> StronglySorted (fun a b => R (f a) (f b)) l.
Proof.
  induction l as [|x l IH]; cbn [map]; intros H; [constructor|].
  inversion H as [|? ? Hl Hall]; subst. constructor; [now apply IH|].
  rewrite Forall_forall in *. intros y Hy. apply Hall. now apply in_map.
Qed.

Lemma StronglySorted_after {A} (R : A -> A -> Prop) before x after :
  StronglySorted R (before ++ x :: after) -> Forall (R x) after.
Proof.
  induction before as [|y before IH]; cbn [app]; intros H;
    inversion H; subst; auto.
Qed.

Lemma week_window today :
  let week_start := today - weekday today in
  weekday week_start = 0 /\ week_start <= today <= week_start + 6.
Proof.
  unfold weekday. cbv zeta.
  pose proof (Z.mod_pos_bound (today - 1) 7 ltac:(lia)) as Hb.
  pose proof (Z.div_mod (today - 1) 7 ltac:(lia)) as Hd.
  split; [|lia].
  replace (today - (today - 1) mod 7 - 1) with ((today - 1) / 7 * 7) by lia.
  apply Z.mod_mul. lia.
Qed.

(** The calendar week of a day: weeks run from Monday to Sunday and day
    ordinal 1 (1 January of year 1) is a Monday, so the days [7 k + 1] to
    [7 k + 7] make up week [k]. *)
Definition week_of (d : Z) : Z := (d - 1) / 7.

(** A session of the user that is dated in the calendar week of [today]. *)
Definition this_week (today user_id : Z) (s : PracticeSession.t) : bool :=
  (PracticeSession.user_id s =? user_id)
  && (week_of (DateTime.date (PracticeSession.start_time s)) =? week_of today).

(** The filter of the two queries selects the sessions of this week. *)
Lemma in_week_this_week today user_id s :
  in_week (today - weekday today) (today - weekday today + 6) user_id s
  = this_week today user_id s.
Proof.
  unfold in_week, this_week, week_of, weekday.
  set (d := DateTime.date (PracticeSession.start_time s)).
  rewrite <- andb_assoc. f_equal.
  pose proof (Z.mod_pos_bound (today - 1) 7 ltac:(lia)) as Hb.
  pose proof (Z.div_mod (today - 1) 7 ltac:(lia)) as Hd.
  pose proof (Z.mod_pos_bound (d - 1) 7 ltac:(lia)) as Hb'.
  pose proof (Z.div_mod (d - 1) 7 ltac:(lia)) as Hd'.
  destruct ((d - 1) / 7 =? (today - 1) / 7) eqn:E.
  - apply Z.eqb_eq in E. apply andb_true_iff. split; apply Z.leb_le; lia.
  - apply Z.eqb_neq in E. apply andb_false_iff.
    destruct (Z.lt_ge_cases ((d - 1) / 7) ((today - 1) / 7)).
    + left. apply Z.leb_gt. lia.
    + right. apply Z.leb_gt. lia.
Qed.

(** C7: the board ranks the [N] members of the ensemble [1..N]; it is in
    descending order of weekly minutes, members with equal minutes in the
    order the store lists them; the minutes and points of an entry are the
    sums over the member's sessions dated in the calendar week (Monday to
    Sunday) of [today], and the period the board reports is that week; a
    member without such a session has 0 minutes and 0 points, and nobody
    ranked after them has more than 0 minutes. *)
Theorem weekly_leaderboard_ranking today db ensemble_id :
  let members := get_ensemble_members db ensemble_id in
  let week_start := today - weekday today in
  let week_end := week_start + 6 in
  let week_rows := fun e =>
    filter (this_week today (User.id (LeaderboardEntry.user e))) (sessions db) in
  let leaderboard := get_weekly_leaderboard today db ensemble_id in
  let board := Leaderboard.entries leaderboard in
  map LeaderboardEntry.rank board = map Z.of_nat (seq 1 (List.length members))
  /\ Permutation (map LeaderboardEntry.user board) members
  /\ StronglySorted
       (fun a b => LeaderboardEntry.weekly_minutes b <= LeaderboardEntry.weekly_minutes a)
       board
  /\ (forall m,
        filter (fun e => Entry.weekly_minutes e =? m) (map entry_of board)
        = filter (fun e => Entry.weekly_minutes e =? m)
                 (map (member_entry db week_start week_end) members))
  /\ (forall e, In e board ->
        LeaderboardEntry.weekly_minutes e
        = sum_Z (map PracticeSession.duration_minutes (week_rows e))
        /\ LeaderboardEntry.weekly_points e
           = sum_Z (map PracticeSession.points_earned (week_rows e)))
  /\ (weekday week_start = 0 /\ week_start <= today <= week_end)
  /\ (forall before e after,
        board = before ++ e :: after ->
        week_rows e = [] ->
        LeaderboardEntry.weekly_minutes e = 0
        /\ LeaderboardEntry.weekly_points e = 0
        /\ (forall e', In e' after -> LeaderboardEntry.weekly_minutes e' <= 0)
        /\ ((forall s, In s (sessions db) -> 0 <= PracticeSession.duration_minutes s) ->
            forall e', In e' after -> LeaderboardEntry.weekly_minutes e' = 0))
  /\ (Leaderboard.period_start leaderboard = 7 * week_of today + 1
      /\ Leaderboard.period_end leaderboard = 7 * week_of today + 7
      /\ forall d, Leaderboard.period_start leaderboard <= d
                                <= Leaderboard.period_end leaderboard
                   <-> week_of d = week_of today).
Proof.
  cbv zeta. unfold get_weekly_leaderboard.
  cbn [Leaderboard.entries Leaderboard.period_start Leaderboard.period_end].
  set (members := get_ensemble_members db ensemble_id).
  assert (Hfil : forall user_id,
            filter (in_week (today - weekday today) (today - weekday today + 6) user_id)
                   (sessions db)
            = filter (this_week today user_id) (sessions db))
    by (intros user_id; apply filter_ext; intros s; apply in_week_this_week).
  assert (Hperiod : today - weekday today = 7 * week_of today + 1).
  { unfold weekday, week_of.
    pose proof (Z.div_mod (today - 1) 7 ltac:(lia)). lia. }
  set (ws := today - weekday today) in *.
  set (entries0 := map (member_entry db ws (ws + 6)) members).
  set (sorted := sort_reverse Entry.weekly_minutes entries0).
  pose proof (sort_reverse_perm Entry.weekly_minutes entries0) as Hperm. fold sorted in Hperm.
  pose proof (sort_reverse_sorted Entry.weekly_minutes entries0) as Hsorted. fold sorted in Hsorted.
  assert (Hboard : StronglySorted
            (fun a b => LeaderboardEntry.weekly_minutes b <= LeaderboardEntry.weekly_minutes a)
            (rank_entries 0 sorted)).
  { apply (StronglySorted_map_inv entry_of (descending Entry.weekly_minutes)).
    now rewrite rank_entries_entry_of. }
  assert (Hsums : forall e, In e (rank_entries 0 sorted) ->
            LeaderboardEntry.weekly_minutes e
            = sum_Z (map PracticeSession.duration_minutes
                (filter (this_week today (User.id (LeaderboardEntry.user e))) (sessions db)))
            /\ LeaderboardEntry.weekly_points e
               = sum_Z (map PracticeSession.points_earned
                   (filter (this_week today (User.id (LeaderboardEntry.user e))) (sessions db)))).
  { intros e He. apply (in_map entry_of) in He. rewrite rank_entries_entry_of in He.
    apply (Permutation_in _ Hperm) in He. unfold entries0 in He.
    apply in_map_iff in He as (member & E & _).
    unfold member_entry, entry_of in E. injection E as Eu Em Ep.
    rewrite !or_0_scalar_sum, !Hfil in *. rewrite <- Eu. now split. }
  repeat split.
  - rewrite rank_entries_rank. cbn [Z.add].
    rewrite (Permutation_length Hperm). unfold entries0. rewrite length_map.
    apply map_ext. intros k. lia.
  - replace (map LeaderboardEntry.user (rank_entries 0 sorted))
      with (map Entry.user (map entry_of (rank_entries 0 sorted)))
      by (rewrite map_map; reflexivity).
    rewrite rank_entries_entry_of, Hperm. unfold entries0. rewrite map_map.
    cbn [member_entry Entry.user]. now rewrite map_id.
  - exact Hboard.
  - intros m. rewrite rank_entries_entry_of. apply sort_reverse_stable.
  - now apply Hsums.
  - now apply Hsums.
  - apply week_window.
  - apply (week_window today).
  - apply (week_window today).
  - destruct (Hsums e) as (Hm & _); [rewrite H; apply in_elt|]. now rewrite Hm, H0.
  - destruct (Hsums e) as (_ & Hp); [rewrite H; apply in_elt|]. now rewrite Hp, H0.
  - intros e' He'. rewrite H in Hboard. apply StronglySorted_after in Hboard.
    rewrite Forall_forall in Hboard. specialize (Hboard e' He').
    destruct (Hsums e) as (Hm & _); [rewrite H; apply in_elt|].
    rewrite H0 in Hm. cbn in Hm. lia.
  - intros Hdur e' He'.
    assert (Hle : LeaderboardEntry.weekly_minutes e' <= 0).
    { rewrite H in Hboard. apply StronglySorted_after in Hboard.
      rewrite Forall_forall in Hboard. specialize (Hboard e' He').
      destruct (Hsums e) as (Hm & _); [rewrite H; apply in_elt|].
      rewrite H0 in Hm. cbn in Hm. lia. }
    destruct (Hsums e') as (Hm' & _);
      [rewrite H; apply in_or_app; right; now right|].
    assert (0 <= LeaderboardEntry.weekly_minutes e'); [|lia].
    rewrite Hm'. apply sum_Z_nonneg. intros x Hx.
    apply in_map_iff in Hx as (s0 & <- & Hs0). apply filter_In in Hs0 as (Hs0 & _).
    now apply Hdur.
  - exact Hperiod.
  - lia.
  - rewrite ?Hperiod; intros; unfold week_of in *;
    pose proof (Z.mod_pos_bound (d - 1) 7 ltac:(lia));
    pose proof (Z.div_mod (d - 1) 7 ltac:(lia)); lia.
  - rewrite ?Hperiod; intros; unfold week_of in *;
    pose proof (Z.mod_pos_bound (d - 1) 7 ltac:(lia));
    pose proof (Z.div_mod (d - 1) 7 ltac:(lia)); lia.
  - rewrite ?Hperiod; intros; unfold week_of in *;
    pose proof (Z.mod_pos_bound (d - 1) 7 ltac:(lia));
    pose proof (Z.div_mod (d - 1) 7 ltac:(lia)); lia.
Qed.

(** ** Points calculator *)

(** The formula of the specification, in exact rational arithmetic. *)
Definition exact_multiplier (streak_count : Z) : Q :=
  if 30 <=? streak_count then 2
  else if 7 <=? streak_count then 3 # 2
  else if 3 <=? streak_count then 6 # 5
  else 1.

Definition exact_bonus (focus_rating : option Z) : Q :=
  match focus_rating with
  | Some f => if 4 <=? f then 1 # 5 else 0
  | None => 0
  end.

Definition exact_points (duration_minutes : Z) (focus_rating : option Z) (streak_count : Z)
  : Z :=
  Qfloor (inject_Z duration_minutes * exact_multiplier streak_count
          * (1 + exact_bonus focus_rating)).

(** [int(base_points * multiplier * y)] with [y = 1 + quality_bonus]. *)
Definition points_with (base_points : Z) (multiplier : num) (y : result num) : result Z :=
  result_bind (num_mul (Int base_points) multiplier) (fun x =>
  result_bind y (fun y =>
  result_bind (num_mul x y) num_int)).

Lemma calculate_points_with session user :
  calculate_points session user
  = points_with (PracticeSession.duration_minutes session)
                (streak_multiplier (User.streak_count user))
                (num_add (Int 1) (quality_bonus (PracticeSession.focus_rating session))).
Proof. reflexivity. Qed.

Lemma streak_multiplier_cases streak_count :
  exists c, In c [0; 3; 7; 30]
            /\ streak_multiplier streak_count = streak_multiplier c
            /\ exact_multiplier streak_count = exact_multiplier c.
Proof.
  unfold streak_multiplier, exact_multiplier.
  destruct (30 <=? streak_count) eqn:E30; [exists 30; cbn; auto 10|].
  destruct (7 <=? streak_count) eqn:E7; [exists 7; cbn; auto 10|].
  destruct (3 <=? streak_count) eqn:E3; [exists 3; cbn; auto 10|].
  exists 0; cbn; auto 10.
Qed.

Lemma quality_bonus_cases focus_rating :
  exists f, In f [None; Some 4]
            /\ quality_bonus focus_rating = quality_bonus f
            /\ exact_bonus focus_rating = exact_bonus f.
Proof.
  unfold quality_bonus, exact_bonus, truthy, rating_value.
  destruct focus_rating as [f|]; [|exists None; cbn; auto].
  destruct (4 <=? f) eqn:E4.
  - exists (Some 4). apply Z.leb_le in E4.
    replace (f =? 0) with false by (symmetry; apply Z.eqb_neq; lia). cbn. auto.
  - exists None. rewrite andb_false_r. cbn. auto.
Qed.

(** The float computation of [calculate_points] leaves the exact formula:
    a duration above [2^53] is rounded when it becomes a float. *)
Lemma calculate_points_inexact :
  calculate_points
    (PracticeSession.mk 1 1 (DateTime.mk 1 9) (2 ^ 53 + 1) None None None None 0)
    (User.mk 1 None 0 0 1 None)
  <> Ok (exact_points (2 ^ 53 + 1) None 0).
Proof. vm_compute. discriminate. Qed.

(** Below [2^53] the duration itself is exact as a float, but the two
    rounded products can reach the next integer: with streak 3 and focus 4
    the exact value ends in [.96] and the floats give one point more. *)
Lemma calculate_points_rounds_up :
  calculate_points
    (PracticeSession.mk 1 1 (DateTime.mk 1 9) 398065729532859 (Some 4) None None None 0)
    (User.mk 1 None 3 0 1 None)
  = Ok (exact_points 398065729532859 (Some 4) 3 + 1).
Proof. vm_compute. reflexivity. Qed.

(** 40 minutes, focus 5, streak 3: [int(40 * 1.2 * 1.2) = 57]. *)
Lemma calculate_points_scenario :
  calculate_points
    (PracticeSession.mk 1 1 (DateTime.mk 1 9) 40 (Some 5) None None None 0)
    (User.mk 1 None 3 0 1 None)
  = Ok 57.
Proof. vm_compute. reflexivity. Qed.

(** ** Binary64 rounding: sizes and signs *)

Section Binary64.

Lemma digits2_pos_bounds p :
  2 ^ (Z.pos (digits2_pos p) - 1) <= Z.pos p < 2 ^ Z.pos (digits2_pos p).
Proof.
  induction p as [p IH|p IH|]; cbn [digits2_pos].
  - rewrite Pos2Z.inj_succ. replace (Z.succ (Z.pos (digits2_pos p)) - 1)
      with (Z.succ (Z.pos (digits2_pos p) - 1)) by lia.
    rewrite !Z.pow_succ_r by lia. lia.
  - rewrite Pos2Z.inj_succ. replace (Z.succ (Z.pos (digits2_pos p)) - 1)
      with (Z.succ (Z.pos (digits2_pos p) - 1)) by lia.
    rewrite !Z.pow_succ_r by lia. lia.
  - cbn. lia.
Qed.

Lemma Zdigits2_nonneg m : 0 <= Zdigits2 m.
Proof. destruct m; cbn; lia. Qed.

Lemma Zdigits2_bounds m :
  0 < m -> 2 ^ (Zdigits2 m - 1) <= m < 2 ^ Zdigits2 m.
Proof.
  destruct m as [|p|p]; try lia. intros _. apply digits2_pos_bounds.
Qed.

Lemma Zdigits2_le m k : 0 <= k -> 0 <= m < 2 ^ k -> Zdigits2 m <= k.
Proof.
  intros Hk Hm. destruct (Z.eq_dec m 0) as [->|Hne]; [cbn; lia|].
  pose proof (Zdigits2_bounds m ltac:(lia)) as (Hlo & _).
  pose proof (Zdigits2_nonneg m).
  destruct (Z_lt_le_dec k (Zdigits2 m)) as [Hlt|]; [|lia].
  assert (2 ^ k <= 2 ^ (Zdigits2 m - 1)) by (apply Z.pow_le_mono_r; lia). lia.
Qed.

Lemma Zdigits2_gt m k : 0 <= k -> 2 ^ k <= m -> k < Zdigits2 m.
Proof.
  intros Hk Hm.
  assert (0 < 2 ^ k) by (apply Z.pow_pos_nonneg; lia).
  pose proof (Zdigits2_bounds m ltac:(lia)) as (_ & Hhi).
  pose proof (Zdigits2_nonneg m).
  destruct (Z_lt_le_dec k (Zdigits2 m)) as [|Hle]; [lia|].
  assert (2 ^ Zdigits2 m <= 2 ^ k) by (apply Z.pow_le_mono_r; lia). lia.
Qed.

(** The mantissa after [shr_1] steps is the quotient by a power of two. *)
Lemma shr_1_m r : 0 <= shr_m r -> shr_m (shr_1 r) = shr_m r / 2.
Proof.
  destruct r as [m rb sb]. cbn [shr_m]. intros Hm.
  destruct m as [|[p|p|]|p]; cbn [shr_1 shr_m]; try lia; try reflexivity.
  - rewrite Pos2Z.inj_xI. apply Z.div_unique with 1; lia.
  - rewrite Pos2Z.inj_xO. apply Z.div_unique with 0; lia.
Qed.

Lemma pow2_xO p : 2 ^ Z.pos p~0 = 2 ^ Z.pos p * 2 ^ Z.pos p.
Proof. rewrite <- Z.pow_add_r by lia. f_equal. lia. Qed.

Lemma pow2_xI p : 2 ^ Z.pos p~1 = 2 * (2 ^ Z.pos p * 2 ^ Z.pos p).
Proof.
  replace (Z.pos p~1) with (Z.succ (Z.pos p + Z.pos p)) by lia.
  rewrite Z.pow_succ_r, Z.pow_add_r by lia. reflexivity.
Qed.

Lemma iter_pos_shr_m p : forall r,
  0 <= shr_m r -> shr_m (iter_pos shr_1 p r) = shr_m r / 2 ^ Z.pos p.
Proof.
  induction p as [p IH|p IH|]; intros r Hr; cbn [iter_pos].
  - assert (Hpow : 0 < 2 ^ Z.pos p) by (apply Z.pow_pos_nonneg; lia).
    assert (H1 : 0 <= shr_m (shr_1 r)) by (rewrite shr_1_m by lia; apply Z.div_pos; lia).
    assert (H2 : 0 <= shr_m (iter_pos shr_1 p (shr_1 r)))
      by (rewrite IH by lia; apply Z.div_pos; lia).
    rewrite IH, IH, shr_1_m by lia.
    rewrite !Z.div_div by lia. now rewrite pow2_xI.
  - assert (Hpow : 0 < 2 ^ Z.pos p) by (apply Z.pow_pos_nonneg; lia).
    assert (H2 : 0 <= shr_m (iter_pos shr_1 p r))
      by (rewrite IH by lia; apply Z.div_pos; lia).
    rewrite IH, IH by lia.
    rewrite !Z.div_div by lia. now rewrite pow2_xO.
  - now rewrite shr_1_m.
Qed.

Lemma shr_record_of_loc_m m l : shr_m (shr_record_of_loc m l) = m.
Proof. destruct l as [|[]]; reflexivity. Qed.

Lemma round_nearest_even_bounds m l :
  m <= round_nearest_even m l <= m + 1.
Proof.
  destruct l as [|[]]; cbn [round_nearest_even]; try lia.
  destruct (Z.even m); lia.
Qed.

(** [shr_fexp]: the mantissa is divided by a power of two (or kept), and the
    exponent becomes the larger of [e] and [fexp] of the magnitude. *)
Lemma shr_fexp_spec m e l :
  0 <= m ->
  let n := fexp PyFloat.prec PyFloat.emax (Zdigits2 m + e) - e in
  let r := shr_fexp PyFloat.prec PyFloat.emax m e l in
  snd r = Z.max e (e + n)
  /\ shr_m (fst r) = (if 0 <? n then m / 2 ^ n else m).
Proof.
  intros Hm. cbv zeta. unfold shr_fexp, shr.
  destruct (fexp PyFloat.prec PyFloat.emax (Zdigits2 m + e) - e) as [|p|p] eqn:En;
    cbn [fst snd].
  - rewrite shr_record_of_loc_m. split; [lia|reflexivity].
  - rewrite iter_pos_shr_m, shr_record_of_loc_m by (rewrite shr_record_of_loc_m; lia).
    split; [lia|reflexivity].
  - rewrite shr_record_of_loc_m. split; [lia|reflexivity].
Qed.

Lemma shr_fexp_m_bounds m e l :
  0 <= m ->
  0 <= shr_m (fst (shr_fexp PyFloat.prec PyFloat.emax m e l)) <= m.
Proof.
  intros Hm. destruct (shr_fexp_spec m e l Hm) as (_ & ->).
  destruct (0 <? _) eqn:E; [|lia].
  apply Z.ltb_lt in E.
  assert (0 < 2 ^ (fexp PyFloat.prec PyFloat.emax (Zdigits2 m + e) - e))
    by (apply Z.pow_pos_nonneg; lia).
  split; [apply Z.div_pos; lia|].
  apply Z.div_le_upper_bound; [lia|]. nia.
Qed.

(** The magnitude [digits + exponent] does not grow in [shr_fexp], unless
    the exponent itself is what is left. *)
Lemma shr_fexp_magnitude m e l :
  0 <= m ->
  let r := shr_fexp PyFloat.prec PyFloat.emax m e l in
  Zdigits2 (shr_m (fst r)) + snd r <= Z.max (Zdigits2 m + e) (snd r).
Proof.
  intros Hm. cbv zeta. destruct (shr_fexp_spec m e l Hm) as (He & Hmm).
  rewrite Hmm. set (n := fexp PyFloat.prec PyFloat.emax (Zdigits2 m + e) - e) in *.
  destruct (0 <? n) eqn:E; [|lia].
  apply Z.ltb_lt in E. rewrite He.
  destruct (Z.eq_dec m 0) as [->|Hne]; [rewrite Z.div_0_l by lia; cbn; lia|].
  pose proof (Zdigits2_bounds m ltac:(lia)) as (_ & Hhi).
  pose proof (Zdigits2_nonneg m) as Hd.
  destruct (Z_lt_le_dec (Zdigits2 m) n) as [Hlt|Hge].
  - assert (m / 2 ^ n = 0) as ->; [|cbn; lia].
    apply Z.div_small. split; [lia|].
    assert (2 ^ Zdigits2 m <= 2 ^ n) by (apply Z.pow_le_mono_r; lia). lia.
  - assert (Zdigits2 (m / 2 ^ n) <= Zdigits2 m - n); [|lia].
    apply Zdigits2_le; [lia|].
    assert (0 < 2 ^ n) by (apply Z.pow_pos_nonneg; lia).
    split; [apply Z.div_pos; lia|].
    apply Z.div_lt_upper_bound; [lia|].
    rewrite <- Z.pow_add_r by lia. now replace (n + (Zdigits2 m - n)) with (Zdigits2 m) by lia.
Qed.

Lemma Zdigits2_succ m : 0 <= m -> Zdigits2 (m + 1) <= Zdigits2 m + 1.
Proof.
  intros Hm. destruct (Z.eq_dec m 0) as [->|Hne]; [cbn; lia|].
  pose proof (Zdigits2_bounds m ltac:(lia)) as (_ & Hhi).
  pose proof (Zdigits2_nonneg m).
  apply Zdigits2_le; [lia|]. rewrite Z.pow_add_r by lia. lia.
Qed.

Lemma Zdigits2_mono a b : 0 <= a <= b -> Zdigits2 a <= Zdigits2 b.
Proof.
  intros H. destruct (Z.eq_dec b 0) as [->|Hne].
  - replace a with 0 by lia. lia.
  - pose proof (Zdigits2_bounds b ltac:(lia)) as (_ & Hhi).
    apply Zdigits2_le; [apply Zdigits2_nonneg|lia].
Qed.

(** A rounded non-negative mantissa keeps the sign it is given. *)
Lemma binary_round_aux_sign s m e l :
  0 <= m ->
  match binary_round_aux PyFloat.prec PyFloat.emax s m e l with
  | S754_zero s' | S754_infinity s' | S754_finite s' _ _ => s' = s
  | S754_nan => False
  end.
Proof.
  intros Hm. unfold binary_round_aux.
  pose proof (shr_fexp_m_bounds m e l Hm) as H1.
  destruct (shr_fexp PyFloat.prec PyFloat.emax m e l) as [mrs' e'].
  cbn [fst] in H1.
  pose proof (round_nearest_even_bounds (shr_m mrs') (loc_of_shr_record mrs')) as H2.
  pose proof (shr_fexp_m_bounds (round_nearest_even (shr_m mrs') (loc_of_shr_record mrs'))
                e' loc_Exact ltac:(lia)) as H3.
  destruct (shr_fexp PyFloat.prec PyFloat.emax _ e' loc_Exact) as [mrs'' e''].
  cbn [fst] in H3.
  destruct (shr_m mrs'') as [|p|p]; [reflexivity| |lia].
  destruct (e'' <=? PyFloat.emax - PyFloat.prec); reflexivity.
Qed.

(** No overflow while the magnitude stays below the largest binade. *)
Lemma binary_round_aux_finite s m e l :
  0 <= m -> e <= 971 -> Zdigits2 m + e <= 1022 ->
  match binary_round_aux PyFloat.prec PyFloat.emax s m e l with
  | S754_infinity _ => False
  | _ => True
  end.
Proof.
  intros Hm He Hmag. unfold binary_round_aux.
  pose proof (shr_fexp_m_bounds m e l Hm) as H1.
  pose proof (shr_fexp_magnitude m e l Hm) as M1.
  pose proof (shr_fexp_spec m e l Hm) as (E1 & _).
  destruct (shr_fexp PyFloat.prec PyFloat.emax m e l) as [mrs' e'].
  cbn [fst snd] in *.
  set (m1 := round_nearest_even (shr_m mrs') (loc_of_shr_record mrs')).
  pose proof (round_nearest_even_bounds (shr_m mrs') (loc_of_shr_record mrs')) as H2.
  fold m1 in H2.
  assert (Hm1 : 0 <= m1) by lia.
  pose proof (shr_fexp_spec m1 e' loc_Exact Hm1) as (E2 & _).
  assert (D1 : Zdigits2 m1 <= Zdigits2 (shr_m mrs') + 1).
  { etransitivity; [apply (Zdigits2_mono m1 (shr_m mrs' + 1)); lia|].
    apply Zdigits2_succ. lia. }
  destruct (shr_fexp PyFloat.prec PyFloat.emax m1 e' loc_Exact) as [mrs'' e''].
  cbn [fst snd] in *.
  destruct (shr_m mrs''); [exact I| |exact I].
  destruct (e'' <=? PyFloat.emax - PyFloat.prec) eqn:Ee; [exact I|].
  apply Z.leb_gt in Ee.
  unfold fexp, emin, PyFloat.prec, PyFloat.emax in *.
  pose proof (Zdigits2_nonneg m). pose proof (Zdigits2_nonneg m1).
  lia.
Qed.

(** Neither negative nor NaN. *)
Definition nonneg (x : PyFloat.float) : Prop :=
  match x with
  | S754_zero false | S754_infinity false | S754_finite false _ _ => True
  | _ => False
  end.

Lemma SFdiv_core_binary_shape a b :
  let '(q, e, l) :=
    SFdiv_core_binary PyFloat.prec PyFloat.emax (Z.pos a) 0 (Z.pos b) 0 in
  0 <= q /\ e <= 0
  /\ Zdigits2 q + e <= Z.max 0 (Zdigits2 (Z.pos a) - Zdigits2 (Z.pos b) + 1).
Proof.
  unfold SFdiv_core_binary.
  set (d1 := Zdigits2 (Z.pos a)). set (d2 := Zdigits2 (Z.pos b)).
  set (e := Z.min (fexp PyFloat.prec PyFloat.emax (d1 + 0 - (d2 + 0))) (0 - 0)).
  assert (He : e <= 0) by (unfold e; lia).
  set (m' := match 0 - 0 - e with
             | 0 => Z.pos a
             | Z.pos _ => Z.shiftl (Z.pos a) (0 - 0 - e)
             | Z.neg _ => 0
             end).
  assert (Hm' : m' = Z.pos a * 2 ^ (- e)).
  { unfold m'. replace (0 - 0 - e) with (- e) by lia.
    destruct (- e) as [|p|p] eqn:E; [lia| |lia].
    rewrite Z.shiftl_mul_pow2 by lia. reflexivity. }
  pose proof (Z.div_eucl_eq m' (Z.pos b) ltac:(lia)) as Hdiv.
  pose proof (Z.mod_pos_bound m' (Z.pos b) ltac:(lia)) as Hmod.
  unfold Z.modulo in Hmod.
  destruct (Z.div_eucl m' (Z.pos b)) as [q r].
  assert (Hp : 0 < 2 ^ (- e)) by (apply Z.pow_pos_nonneg; lia).
  assert (Hq : 0 <= q) by nia.
  split; [exact Hq|]. split; [exact He|].
  pose proof (Zdigits2_bounds (Z.pos a) ltac:(lia)) as (_ & Ha).
  pose proof (Zdigits2_bounds (Z.pos b) ltac:(lia)) as (Hb & _).
  fold d1 in Ha. fold d2 in Hb.
  assert (Hd1 : 0 < d1) by (unfold d1; cbn; lia).
  assert (Hd2 : 0 < d2) by (unfold d2; cbn; lia).
  assert (Hpb : 0 < 2 ^ (d2 - 1)) by (apply Z.pow_pos_nonneg; lia).
  destruct (Z_lt_le_dec (d1 - e - d2 + 1) 0) as [Hneg|Hpos].
  - (* the quotient vanishes *)
    assert (q = 0) as ->; [|cbn; lia].
    assert (m' < Z.pos b); [|nia].
    rewrite Hm'.
    assert (2 ^ d1 * 2 ^ (- e) <= 2 ^ (d2 - 1)).
    { rewrite <- Z.pow_add_r by lia. apply Z.pow_le_mono_r; lia. }
    nia.
  - assert (Zdigits2 q <= d1 - e - d2 + 1); [|lia].
    apply Zdigits2_le; [lia|]. split; [exact Hq|].
    assert (E : 2 ^ (d1 - e - d2 + 1) * 2 ^ (d2 - 1) = 2 ^ d1 * 2 ^ (- e)).
    { rewrite <- !Z.pow_add_r by lia. f_equal. lia. }
    nia.
Qed.

Lemma int_truediv_nonneg a b :
  0 <= a -> 0 < b -> a < 2 ^ 1000 * b ->
  exists q, PyFloat.int_truediv a b = Ok q /\ nonneg q.
Proof.
  intros Ha Hb Hab. unfold PyFloat.int_truediv.
  replace (b =? 0) with false by (symmetry; apply Z.eqb_neq; lia).
  destruct (a =? 0) eqn:Ea.
  - exists (S754_zero (b <? 0)). split; [reflexivity|].
    replace (b <? 0) with false by (symmetry; apply Z.ltb_ge; lia). exact I.
  - apply Z.eqb_neq in Ea.
    destruct a as [|a|a]; try lia. destruct b as [|b|b]; try lia.
    cbn [PyFloat.raw SFdiv xorb].
    pose proof (SFdiv_core_binary_shape a b) as Hshape.
    destruct (SFdiv_core_binary PyFloat.prec PyFloat.emax (Z.pos a) 0 (Z.pos b) 0)
      as [[q e] l].
    destruct Hshape as (Hq & He & Hmag).
    assert (Hd : Zdigits2 (Z.pos a) - Zdigits2 (Z.pos b) <= 1000).
    { pose proof (Zdigits2_bounds (Z.pos a) ltac:(lia)) as (Hlo & _).
      pose proof (Zdigits2_bounds (Z.pos b) ltac:(lia)) as (_ & Hhi).
      pose proof (Zdigits2_nonneg (Z.pos b)).
      destruct (Z_lt_le_dec 1000 (Zdigits2 (Z.pos a) - Zdigits2 (Z.pos b))) as [Hgt|]; [|lia].
      assert (2 ^ (1000 + Zdigits2 (Z.pos b)) <= 2 ^ (Zdigits2 (Z.pos a) - 1))
        by (apply Z.pow_le_mono_r; lia).
      rewrite Z.pow_add_r in * by lia.
      assert (0 < 2 ^ 1000) by (apply Z.pow_pos_nonneg; lia). nia. }
    pose proof (binary_round_aux_sign false q e l Hq) as Hsign.
    pose proof (binary_round_aux_finite false q e l Hq ltac:(lia) ltac:(lia)) as Hfin.
    destruct (binary_round_aux PyFloat.prec PyFloat.emax false q e l) as [s'|s'| |s' m' e'];
      try contradiction; subst; eexists; split; try reflexivity; exact I.
Qed.

Lemma mul_nonneg x m e :
  nonneg x -> nonneg (PyFloat.mul x (S754_finite false m e)).
Proof.
  destruct x as [[]|[]| |[] mx ex]; cbn; try contradiction; intros _; try exact I.
  pose proof (binary_round_aux_sign false (Z.pos (mx * m)) (ex + e) loc_Exact ltac:(lia)) as H.
  destruct (binary_round_aux _ _ _ _ _ _) as [s'|s'| |s' m' e']; try contradiction;
    now subst.
Qed.

Lemma SFcompare_finite_antisym m1 e1 m2 e2 c :
  SFcompare (S754_finite false m1 e1) (S754_finite false m2 e2) = Some c ->
  SFcompare (S754_finite false m2 e2) (S754_finite false m1 e1) = Some (CompOpp c).
Proof.
  cbn. intros [= <-]. f_equal. rewrite (Z.compare_antisym e1 e2).
  destruct (e1 ?= e2); cbn; try reflexivity.
  rewrite (Pos.compare_cont_antisym m1 m2 Eq). cbn.
  now destruct (Pos.compare_cont Eq m1 m2).
Qed.

(** [min(x, 100.0)] of a non-negative [x] lies between 0 and 100. *)
Lemma min_hundred_range x :
  nonneg x ->
  let r := PyFloat.min x (PyFloat.literal 100 1) in
  PyFloat.leb PyFloat.zero r = true /\ PyFloat.leb r (PyFloat.literal 100 1) = true.
Proof.
  intros Hx. cbv zeta. unfold PyFloat.min, PyFloat.leb.
  set (h := PyFloat.literal 100 1).
  assert (Hh : h = S754_finite false 7036874417766400 (-46)) by (vm_compute; reflexivity).
  destruct (SFltb h x) eqn:Hlt.
  - rewrite Hh. split; reflexivity.
  - rewrite Hh in *. destruct x as [[]|[]| |[] mx ex]; try contradiction.
    + split; reflexivity.
    + discriminate.
    + split; [reflexivity|].
      unfold SFltb, SFleb in *.
      destruct (SFcompare (S754_finite false 7036874417766400 (-46))
                          (S754_finite false mx ex)) as [c|] eqn:Ec; [|discriminate].
      rewrite (SFcompare_finite_antisym _ _ _ _ _ Ec).
      destruct c; try reflexivity; discriminate.
Qed.

End Binary64.

(** ** Binary64 rounding: the products of [calculate_points] *)

Lemma iter_pos_nat {A} (f : A -> A) p : forall x,
  iter_pos f p x = Nat.iter (Pos.to_nat p) f x.
Proof.
  induction p as [p IH|p IH|]; intros x; cbn [iter_pos].
  - rewrite !IH, Pos2Nat.inj_xI.
    replace (S (2 * Pos.to_nat p)) with (Pos.to_nat p + (Pos.to_nat p + 1))%nat by lia.
    now rewrite !Nat.iter_add.
  - rewrite !IH, Pos2Nat.inj_xO.
    replace (2 * Pos.to_nat p)%nat with (Pos.to_nat p + Pos.to_nat p)%nat by lia.
    now rewrite Nat.iter_add.
  - reflexivity.
Qed.

Lemma shr_1_record q r s :
  0 <= q -> shr_1 (Build_shr_record q r s) = Build_shr_record (q / 2) (Z.odd q) (r || s).
Proof.
  intros Hq. destruct q as [|[p|p|]|p]; cbn [shr_1]; try lia; f_equal; try reflexivity.
  - rewrite Pos2Z.inj_xI. apply Z.div_unique with 1; lia.
  - rewrite Pos2Z.inj_xO. apply Z.div_unique with 0; lia.
Qed.

(* the record after j+1 steps *)
Lemma shr_steps m : 0 <= m -> forall j,
  Nat.iter (S j) shr_1 (Build_shr_record m false false)
  = Build_shr_record (m / 2 ^ Z.of_nat (S j))
                     (Z.testbit m (Z.of_nat j))
                     (negb (m mod 2 ^ Z.of_nat j =? 0)).
Proof.
  intros Hm. induction j as [|j IH].
  - cbn [Nat.iter]. rewrite shr_1_record by lia.
    change (2 ^ Z.of_nat 1) with 2. change (2 ^ Z.of_nat 0) with 1.
    rewrite Z.mod_1_r. cbn [negb Z.eqb orb]. now rewrite Z.bit0_odd.
  - rewrite Nat.iter_succ, IH. clear IH.
    set (J := Z.of_nat j).
    assert (HJ : 0 <= J) by lia.
    assert (Hp : 0 < 2 ^ J) by (apply Z.pow_pos_nonneg; lia).
    replace (Z.of_nat (S j)) with (J + 1) by lia.
    replace (Z.of_nat (S (S j))) with (J + 1 + 1) by lia.
    assert (HpJ : 2 ^ (J + 1) = 2 ^ J * 2) by (rewrite Z.pow_add_r by lia; lia).
    assert (Hq : 0 <= m / 2 ^ (J + 1)) by (apply Z.div_pos; lia).
    rewrite shr_1_record by exact Hq. f_equal.
    + rewrite (Z.pow_add_r 2 (J + 1) 1), Z.div_div by lia. reflexivity.
    + rewrite Z.testbit_odd, Z.shiftr_div_pow2 by lia. reflexivity.
    + rewrite HpJ, Z.rem_mul_r by lia.
      pose proof (Z.mod_pos_bound m (2 ^ J) Hp) as Hb.
      pose proof (Z.mod_pos_bound (m / 2 ^ J) 2 ltac:(lia)) as Hb2.
      pose proof (Z.testbit_true m J HJ) as Hbit.
      destruct (Z.testbit m J).
      * replace ((m / 2 ^ J) mod 2) with 1 by (symmetry; now apply Hbit).
        cbn [orb]. symmetry. apply negb_true_iff, Z.eqb_neq. lia.
      * assert ((m / 2 ^ J) mod 2 <> 1) by (intros E; apply Hbit in E; discriminate).
        cbn [orb]. replace ((m / 2 ^ J) mod 2) with 0 by lia.
        now rewrite Z.mul_0_r, Z.add_0_r.
Qed.

Lemma iter_pos_shr m p :
  0 <= m ->
  iter_pos shr_1 p (Build_shr_record m false false)
  = Build_shr_record (m / 2 ^ Z.pos p)
                     (Z.testbit m (Z.pos p - 1))
                     (negb (m mod 2 ^ (Z.pos p - 1) =? 0)).
Proof.
  intros Hm. rewrite iter_pos_nat.
  destruct (Pos.to_nat p) as [|j] eqn:E; [lia|].
  rewrite shr_steps by exact Hm.
  replace (Z.of_nat (S j)) with (Z.pos p) by lia.
  replace (Z.of_nat j) with (Z.pos p - 1) by lia. reflexivity.
Qed.

(** Round to nearest, ties to even, dropping [k] bits. *)
Definition rne (n k : Z) : Z :=
  let q := n / 2 ^ k in
  let r := n mod 2 ^ k in
  let h := 2 ^ (k - 1) in
  if r <? h then q else if h <? r then q + 1 else if Z.even q then q else q + 1.

Lemma round_nearest_even_rne n k :
  0 <= n -> 1 <= k ->
  round_nearest_even (n / 2 ^ k)
    (loc_of_shr_record
       (Build_shr_record (n / 2 ^ k) (Z.testbit n (k - 1))
                         (negb (n mod 2 ^ (k - 1) =? 0))))
  = rne n k.
Proof.
  intros Hn Hk. unfold rne.
  assert (Hh : 0 < 2 ^ (k - 1)) by (apply Z.pow_pos_nonneg; lia).
  assert (Hp : 2 ^ k = 2 ^ (k - 1) * 2).
  { replace k with (k - 1 + 1) at 1 by lia. rewrite Z.pow_add_r by lia. lia. }
  assert (Hr : n mod 2 ^ k = n mod 2 ^ (k - 1) + 2 ^ (k - 1) * ((n / 2 ^ (k - 1)) mod 2)).
  { rewrite Hp. apply Z.rem_mul_r; lia. }
  cbv zeta. rewrite Hr. clear Hr.
  pose proof (Z.mod_pos_bound n (2 ^ (k - 1)) Hh) as Hlow.
  pose proof (Z.mod_pos_bound (n / 2 ^ (k - 1)) 2 ltac:(lia)) as Hb2.
  pose proof (Z.testbit_true n (k - 1) ltac:(lia)) as Hbit.
  set (q := n / 2 ^ k). set (h := 2 ^ (k - 1)) in *.
  set (low := n mod h) in *.
  destruct (Z.testbit n (k - 1)).
  - replace ((n / h) mod 2) with 1 by (symmetry; now apply Hbit).
    replace (low + h * 1 <? h) with false by (symmetry; apply Z.ltb_ge; lia).
    destruct (low =? 0) eqn:El; cbn [negb loc_of_shr_record round_nearest_even].
    + apply Z.eqb_eq in El.
      replace (h <? low + h * 1) with false by (symmetry; apply Z.ltb_ge; lia).
      reflexivity.
    + apply Z.eqb_neq in El.
      replace (h <? low + h * 1) with true by (symmetry; apply Z.ltb_lt; lia).
      reflexivity.
  - assert ((n / h) mod 2 <> 1) by (intros E; apply Hbit in E; discriminate).
    replace ((n / h) mod 2) with 0 by lia.
    replace (low + h * 0 <? h) with true by (symmetry; apply Z.ltb_lt; lia).
    destruct (low =? 0); reflexivity.
Qed.

Lemma Zdigits2_unique n D : 0 < D -> 2 ^ (D - 1) <= n < 2 ^ D -> Zdigits2 n = D.
Proof.
  intros HD Hn.
  pose proof (Zdigits2_le n D ltac:(lia)) as H1.
  pose proof (Zdigits2_gt n (D - 1) ltac:(lia) ltac:(lia)) as H2.
  assert (0 < 2 ^ (D - 1)) by (apply Z.pow_pos_nonneg; lia).
  lia.
Qed.

Lemma rne_bounds n k :
  0 <= n -> 1 <= k -> n / 2 ^ k <= rne n k <= n / 2 ^ k + 1.
Proof.
  intros. unfold rne.
  destruct (_ <? _); [lia|]. destruct (_ <? _); [lia|]. destruct (Z.even _); lia.
Qed.

(** Rounding a mantissa of [53 + k] digits, [k >= 1], in the normal range. *)
Lemma binary_round_aux_rne n e k :
  1 <= k -> 2 ^ (k + 52) <= n < 2 ^ (k + 53) ->
  -1074 <= e + k -> e + k + 1 <= 971 ->
  binary_round_aux PyFloat.prec PyFloat.emax false n e loc_Exact
  = if rne n k =? 2 ^ 53
    then S754_finite false (Z.to_pos (2 ^ 52)) (e + k + 1)
    else S754_finite false (Z.to_pos (rne n k)) (e + k).
Proof.
  intros Hk Hn He1 He2.
  assert (Hpos : 0 < 2 ^ (k + 52)) by (apply Z.pow_pos_nonneg; lia).
  assert (HD : Zdigits2 n = k + 53).
  { apply Zdigits2_unique; [lia|]. now replace (k + 53 - 1) with (k + 52) by lia. }
  unfold binary_round_aux, shr_fexp at 1. rewrite HD.
  unfold fexp at 1, emin, PyFloat.prec, PyFloat.emax.
  replace (Z.max (k + 53 + e - 53) (3 - 1024 - 53) - e) with k by lia.
  unfold shr. destruct k as [|p|p] eqn:Ek; try lia.
  cbn [shr_record_of_loc]. rewrite iter_pos_shr by lia.
  cbn [shr_m]. rewrite <- Ek in *. rewrite round_nearest_even_rne by lia.
  pose proof (rne_bounds n k ltac:(lia) Hk) as Hr.
  assert (Hq : 2 ^ 52 <= n / 2 ^ k < 2 ^ 53).
  { assert (0 < 2 ^ k) by (apply Z.pow_pos_nonneg; lia).
    rewrite !Z.pow_add_r in Hn by lia. split.
    - apply Z.div_le_lower_bound; lia.
    - apply Z.div_lt_upper_bound; lia. }
  unfold shr_fexp.
  destruct (rne n k =? 2 ^ 53) eqn:E53.
  - apply Z.eqb_eq in E53. rewrite E53.
    change (Zdigits2 (2 ^ 53)) with 54.
    unfold fexp, emin, PyFloat.prec, PyFloat.emax.
    replace (Z.max (54 + (e + k) - 53) (3 - 1024 - 53) - (e + k)) with 1 by lia.
    cbn [shr shr_record_of_loc iter_pos]. rewrite shr_1_record by lia.
    cbn [shr_m]. change (2 ^ 53 / 2) with (2 ^ 52).
    change (2 ^ 52) with 4503599627370496 at 1.
    replace (e + k + 1 <=? 1024 - 53) with true by (symmetry; apply Z.leb_le; lia).
    reflexivity.
  - apply Z.eqb_neq in E53.
    assert (HD1 : Zdigits2 (rne n k) = 53) by (apply Zdigits2_unique; cbn; lia).
    rewrite HD1. unfold fexp, emin, PyFloat.prec, PyFloat.emax.
    replace (Z.max (53 + (e + k) - 53) (3 - 1024 - 53) - (e + k)) with 0 by lia.
    cbn [shr shr_record_of_loc shr_m].
    destruct (rne n k) as [|r|r] eqn:Er; try lia.
    replace (e + k <=? 1024 - 53) with true by (symmetry; apply Z.leb_le; lia).
    reflexivity.
Qed.

(** A mantissa of exactly 53 digits is kept. *)
Lemma binary_round_aux_exact n e :
  2 ^ 52 <= n < 2 ^ 53 -> -1074 <= e <= 971 ->
  binary_round_aux PyFloat.prec PyFloat.emax false n e loc_Exact
  = S754_finite false (Z.to_pos n) e.
Proof.
  intros Hn He.
  assert (HD : Zdigits2 n = 53) by (apply Zdigits2_unique; cbn; lia).
  unfold binary_round_aux, shr_fexp. rewrite HD.
  unfold fexp, emin, PyFloat.prec, PyFloat.emax.
  replace (Z.max (53 + e - 53) (3 - 1024 - 53) - e) with 0 by lia.
  cbn [shr shr_record_of_loc shr_m loc_of_shr_record shr_r shr_s round_nearest_even].
  cbn [shr_record_of_loc shr_m]. rewrite HD.
  replace (Z.max (53 + e - 53) (3 - 1024 - 53) - e) with 0 by lia.
  cbn [shr shr_record_of_loc shr_m].
  assert (0 < 2 ^ 52) by (cbn; lia).
  destruct n as [|p|p]; try lia.
  replace (e <=? 1024 - 53) with true by (symmetry; apply Z.leb_le; lia).
  reflexivity.
Qed.

(** Rounding a positive integer to 53 significant bits. *)
Definition R53 (n : Z) : Z :=
  let k := Zdigits2 n - 53 in
  if k <=? 0 then n else rne n k * 2 ^ k.

Lemma Zdigits2_shift n t : 0 < n -> 0 <= t -> Zdigits2 (n * 2 ^ t) = Zdigits2 n + t.
Proof.
  intros Hn Ht. pose proof (Zdigits2_bounds n Hn) as Hb.
  pose proof (Zdigits2_nonneg n).
  assert (0 < Zdigits2 n).
  { destruct (Z.eq_dec (Zdigits2 n) 0) as [E|]; [|lia]. rewrite E in Hb. cbn in Hb. lia. }
  assert (0 < 2 ^ t) by (apply Z.pow_pos_nonneg; lia).
  apply Zdigits2_unique; [lia|].
  replace (Zdigits2 n + t - 1) with (Zdigits2 n - 1 + t) by lia.
  rewrite !Z.pow_add_r by lia. nia.
Qed.

Lemma rne_scale n k t :
  0 <= n -> 1 <= k -> 0 <= t -> rne (n * 2 ^ t) (k + t) = rne n k.
Proof.
  intros Hn Hk Ht. unfold rne.
  assert (H2t : 0 < 2 ^ t) by (apply Z.pow_pos_nonneg; lia).
  assert (H2k : 0 < 2 ^ k) by (apply Z.pow_pos_nonneg; lia).
  assert (H2h : 0 < 2 ^ (k - 1)) by (apply Z.pow_pos_nonneg; lia).
  rewrite (Z.pow_add_r 2 k t) by lia.
  replace (k + t - 1) with (k - 1 + t) by lia. rewrite (Z.pow_add_r 2 (k - 1) t) by lia.
  rewrite Z.div_mul_cancel_r by lia.
  rewrite Z.mul_mod_distr_r by lia.
  cbv zeta.
  set (r := n mod 2 ^ k). set (h := 2 ^ (k - 1)). set (q := n / 2 ^ k).
  replace (r * 2 ^ t <? h * 2 ^ t) with (r <? h)
    by (destruct (Z.ltb_spec r h), (Z.ltb_spec (r * 2 ^ t) (h * 2 ^ t)); auto; nia).
  replace (h * 2 ^ t <? r * 2 ^ t) with (h <? r)
    by (destruct (Z.ltb_spec h r), (Z.ltb_spec (h * 2 ^ t) (r * 2 ^ t)); auto; nia).
  reflexivity.
Qed.

Lemma rne_exact q k : 0 <= q -> 1 <= k -> rne (q * 2 ^ k) k = q.
Proof.
  intros Hq Hk. unfold rne.
  assert (H2k : 0 < 2 ^ k) by (apply Z.pow_pos_nonneg; lia).
  assert (H2h : 0 < 2 ^ (k - 1)) by (apply Z.pow_pos_nonneg; lia).
  rewrite Z.div_mul, Z.mod_mul by lia. cbv zeta.
  replace (0 <? 2 ^ (k - 1)) with true by (symmetry; apply Z.ltb_lt; lia).
  reflexivity.
Qed.

Lemma R53_scale n t : 0 < n -> 0 <= t -> R53 (n * 2 ^ t) = R53 n * 2 ^ t.
Proof.
  intros Hn Ht. unfold R53. rewrite Zdigits2_shift by lia. cbv zeta.
  destruct (Z.leb_spec (Zdigits2 n - 53) 0) as [Hk|Hk].
  - destruct (Z.leb_spec (Zdigits2 n + t - 53) 0) as [Hk'|Hk']; [reflexivity|].
    set (k := Zdigits2 n + t - 53) in *.
    replace (n * 2 ^ t) with (n * 2 ^ (t - k) * 2 ^ k).
    + rewrite rne_exact; [reflexivity| |lia].
      assert (0 < 2 ^ (t - k)) by (apply Z.pow_pos_nonneg; lia). nia.
    + rewrite <- Z.mul_assoc, <- Z.pow_add_r by lia. f_equal. f_equal. lia.
  - replace (Zdigits2 n + t - 53 <=? 0) with false by (symmetry; apply Z.leb_gt; lia).
    replace (Zdigits2 n + t - 53) with (Zdigits2 n - 53 + t) by lia.
    rewrite rne_scale by lia. rewrite Z.pow_add_r by lia. lia.
Qed.

Lemma iter_xO_pow mx d : Z.pos (Pos.iter xO mx d) = Z.pos mx * 2 ^ Z.pos d.
Proof.
  induction d as [|d IH] using Pos.peano_ind.
  - cbn. lia.
  - rewrite Pos.iter_succ, Pos2Z.inj_xO, IH, Pos2Z.inj_succ, Z.pow_succ_r by lia. lia.
Qed.

Lemma of_int_canonical d :
  0 < d < 2 ^ 53 ->
  PyFloat.of_int d
  = Ok (S754_finite false (Z.to_pos (d * 2 ^ (53 - Zdigits2 d))) (Zdigits2 d - 53)).
Proof.
  intros Hd. unfold PyFloat.of_int, binary_normalize, binary_round.
  destruct d as [|p|p] eqn:Ed; try lia. rewrite <- Ed in *.
  change (Z.pos (digits2_pos p)) with (Zdigits2 (Z.pos p)). rewrite <- Ed.
  pose proof (Zdigits2_le d 53 ltac:(lia) ltac:(lia)) as Hj.
  pose proof (Zdigits2_gt d 0 ltac:(lia) ltac:(cbn; lia)) as Hj0.
  pose proof (Zdigits2_bounds d ltac:(lia)) as Hb.
  unfold shl_align, fexp, emin, PyFloat.prec, PyFloat.emax.
  replace (Z.max (Zdigits2 d + 0 - 53) (3 - 1024 - 53) - 0) with (Zdigits2 d - 53) by lia.
  destruct (Zdigits2 d - 53) as [|s|s] eqn:Es; try lia.
  - replace (Z.max (Zdigits2 d + 0 - 53) (3 - 1024 - 53)) with 0 by lia.
    replace (53 - Zdigits2 d) with 0 by lia. rewrite Z.mul_1_r.
    replace (Zdigits2 d) with 53 in Hb by lia.
    rewrite <- Ed. fold PyFloat.prec PyFloat.emax.
    change (3 - PyFloat.emax - PyFloat.prec) with (-1074).
    change (53 - 1) with 52 in Hb.
    rewrite binary_round_aux_exact by lia. reflexivity.
  - replace (Z.max (Zdigits2 d + 0 - 53) (3 - 1024 - 53)) with (Z.neg s) by lia.
    rewrite iter_xO_pow. rewrite <- Ed.
    replace (53 - Zdigits2 d) with (Z.pos s) by lia.
    assert (Hm : 2 ^ 52 <= d * 2 ^ Z.pos s < 2 ^ 53).
    { assert (E2 : 2 ^ 52 = 2 ^ (Zdigits2 d - 1) * 2 ^ Z.pos s).
      { rewrite <- Z.pow_add_r by lia. f_equal. lia. }
      assert (E3 : 2 ^ 53 = 2 ^ Zdigits2 d * 2 ^ Z.pos s).
      { rewrite <- Z.pow_add_r by lia. f_equal. lia. }
      rewrite E2, E3.
      assert (0 < 2 ^ Z.pos s) by (apply Z.pow_pos_nonneg; lia). nia. }
    fold PyFloat.prec PyFloat.emax.
    rewrite binary_round_aux_exact by lia. reflexivity.
Qed.

(** [fval f V S lo hi]: the float [f] is positive, normal, with exponent
    between [lo] and [hi], and its value is [V / 2^S]. *)
Definition fval (f : PyFloat.float) (V S lo hi : Z) : Prop :=
  exists m e,
    f = S754_finite false m e /\ 2 ^ 52 <= Z.pos m < 2 ^ 53 /\ lo <= e <= hi
    /\ 0 <= e + S /\ Z.pos m * 2 ^ (e + S) = V.

Lemma R53_product m1 m2 :
  2 ^ 52 <= m1 < 2 ^ 53 -> 2 ^ 52 <= m2 < 2 ^ 53 ->
  forall e, -1074 <= e + 52 -> e + 54 <= 971 ->
  exists m k,
    binary_round_aux PyFloat.prec PyFloat.emax false (m1 * m2) e loc_Exact
    = S754_finite false (Z.to_pos m) (e + k)
    /\ 2 ^ 52 <= m < 2 ^ 53 /\ 52 <= k <= 54 /\ m * 2 ^ k = R53 (m1 * m2).
Proof.
  intros H1 H2 e Hlo Hhi.
  assert (Hn : 2 ^ 104 <= m1 * m2 < 2 ^ 106).
  { change (2 ^ 104) with (2 ^ 52 * 2 ^ 52). change (2 ^ 106) with (2 ^ 53 * 2 ^ 53).
    assert (0 < 2 ^ 52) by (cbn; lia). nia. }
  set (n := m1 * m2) in *.
  assert (Hk : exists k, 52 <= k <= 53 /\ 2 ^ (k + 52) <= n < 2 ^ (k + 53)).
  { destruct (Z_lt_le_dec n (2 ^ 105)); [exists 52|exists 53];
      (split; [lia|]); cbn [Z.add Pos.add Pos.succ]; lia. }
  destruct Hk as (k & Hk & Hnk).
  assert (HD : Zdigits2 n = k + 53).
  { apply Zdigits2_unique; [lia|]. now replace (k + 53 - 1) with (k + 52) by lia. }
  rewrite (binary_round_aux_rne n e k) by lia.
  assert (Hq : 2 ^ 52 <= n / 2 ^ k < 2 ^ 53).
  { assert (0 < 2 ^ k) by (apply Z.pow_pos_nonneg; lia).
    rewrite !Z.pow_add_r in Hnk by lia. split.
    - apply Z.div_le_lower_bound; lia.
    - apply Z.div_lt_upper_bound; lia. }
  pose proof (rne_bounds n k ltac:(lia) ltac:(lia)) as Hr.
  assert (HR : R53 n = rne n k * 2 ^ k).
  { unfold R53. rewrite HD. replace (k + 53 - 53) with k by lia.
    replace (k <=? 0) with false by (symmetry; apply Z.leb_gt; lia). reflexivity. }
  destruct (rne n k =? 2 ^ 53) eqn:E.
  - apply Z.eqb_eq in E. exists (2 ^ 52), (k + 1).
    rewrite Z.add_assoc. split; [reflexivity|]. split; [cbn; lia|]. split; [lia|].
    rewrite HR, E, Z.pow_add_r by lia. change (2 ^ 53) with (2 ^ 52 * 2 ^ 1). lia.
  - apply Z.eqb_neq in E. exists (rne n k), k.
    split; [reflexivity|]. split; [lia|]. split; [lia|]. now rewrite HR.
Qed.

Lemma mul_fval x y V1 S1 l1 h1 V2 S2 l2 h2 :
  fval x V1 S1 l1 h1 -> fval y V2 S2 l2 h2 ->
  -1074 <= l1 + l2 + 52 -> h1 + h2 + 54 <= 971 ->
  fval (PyFloat.mul x y) (R53 (V1 * V2)) (S1 + S2) (l1 + l2 + 52) (h1 + h2 + 54).
Proof.
  intros (m1 & e1 & -> & Hm1 & He1 & Hs1 & <-) (m2 & e2 & -> & Hm2 & He2 & Hs2 & <-) Hlo Hhi.
  unfold PyFloat.mul, SFmul. cbn [xorb]. rewrite Pos2Z.inj_mul.
  destruct (R53_product _ _ Hm1 Hm2 (e1 + e2) ltac:(lia) ltac:(lia))
    as (m & k & -> & Hm & Hk & HR).
  exists (Z.to_pos m), (e1 + e2 + k).
  assert (0 < 2 ^ 52) by (cbn; lia).
  rewrite Z2Pos.id by lia.
  split; [reflexivity|]. split; [lia|]. split; [lia|]. split; [lia|].
  replace (Z.pos m1 * 2 ^ (e1 + S1) * (Z.pos m2 * 2 ^ (e2 + S2)))
    with (Z.pos m1 * Z.pos m2 * 2 ^ (e1 + S1 + (e2 + S2)))
    by (rewrite (Z.pow_add_r 2 (e1 + S1)) by lia; ring).
  rewrite R53_scale by lia. rewrite <- HR, <- Z.mul_assoc, <- Z.pow_add_r by lia.
  f_equal. f_equal. lia.
Qed.

Lemma of_int_fval d :
  0 < d < 2 ^ 46 ->
  exists f, PyFloat.of_int d = Ok f /\ fval f (d * 2 ^ 53) 53 (-52) (-7).
Proof.
  intros Hd.
  assert (2 ^ 46 < 2 ^ 53) by (cbn; lia).
  rewrite of_int_canonical by lia. eexists. split; [reflexivity|].
  pose proof (Zdigits2_le d 46 ltac:(lia) ltac:(lia)) as Hj.
  pose proof (Zdigits2_gt d 0 ltac:(lia) ltac:(cbn; lia)) as Hj0.
  pose proof (Zdigits2_bounds d ltac:(lia)) as Hb.
  set (j := Zdigits2 d) in *.
  assert (Hs : 0 < 2 ^ (53 - j)) by (apply Z.pow_pos_nonneg; lia).
  assert (E2 : 2 ^ 52 = 2 ^ (j - 1) * 2 ^ (53 - j)).
  { rewrite <- Z.pow_add_r by lia. f_equal. lia. }
  assert (E3 : 2 ^ 53 = 2 ^ j * 2 ^ (53 - j)).
  { rewrite <- Z.pow_add_r by lia. f_equal. lia. }
  exists (Z.to_pos (d * 2 ^ (53 - j))), (j - 53).
  rewrite Z2Pos.id by nia.
  split; [reflexivity|]. split; [rewrite E2, E3; nia|]. split; [lia|]. split; [lia|].
  rewrite <- Z.mul_assoc, <- Z.pow_add_r by lia. f_equal. f_equal. lia.
Qed.

Lemma to_int_fval f V S lo hi :
  fval f V S lo hi -> hi <= 0 -> PyFloat.to_int f = Ok (V / 2 ^ S).
Proof.
  intros (m & e & -> & Hm & He & Hs & <-) Hhi. unfold PyFloat.to_int. cbv zeta.
  f_equal. rewrite Z.shiftl_div_pow2 by lia.
  replace S with (e + S + - e) at 2 by lia. rewrite (Z.pow_add_r 2 (e + S)) by lia.
  assert (0 < 2 ^ (e + S)) by (apply Z.pow_pos_nonneg; lia).
  assert (0 < 2 ^ (- e)) by (apply Z.pow_pos_nonneg; lia).
  rewrite (Z.mul_comm (2 ^ (e + S))), Z.div_mul_cancel_r by lia. reflexivity.
Qed.

(** What [R53] returns: a multiple [q * 2^k] of the spacing at [n], at most
    half a spacing away from [n]. *)
Lemma R53_spec n :
  0 < n ->
  exists k q,
    0 <= k /\ R53 n = q * 2 ^ k /\ 2 * Z.abs (R53 n - n) <= 2 ^ k
    /\ 2 ^ 52 <= q * 2 ^ Z.max 0 (53 - Zdigits2 n) <= 2 ^ 53
    /\ ((k = 0 /\ n < 2 ^ 53) \/ (1 <= k /\ 2 ^ (k + 52) <= n < 2 ^ (k + 53))).
Proof.
  intros Hn. pose proof (Zdigits2_bounds n Hn) as Hb.
  pose proof (Zdigits2_gt n 0 ltac:(lia) ltac:(cbn; lia)) as Hj0.
  unfold R53. cbv zeta.
  destruct (Z.leb_spec (Zdigits2 n - 53) 0) as [Hk|Hk].
  - exists 0, n. rewrite Z.sub_diag, Z.pow_0_r, Z.mul_1_r. change (Z.abs 0) with 0.
    split; [lia|]. split; [reflexivity|]. split; [lia|]. split.
    + rewrite Z.max_r by lia.
      assert (E2 : 2 ^ 52 = 2 ^ (Zdigits2 n - 1) * 2 ^ (53 - Zdigits2 n)).
      { rewrite <- Z.pow_add_r by lia. f_equal. lia. }
      assert (E3 : 2 ^ 53 = 2 ^ Zdigits2 n * 2 ^ (53 - Zdigits2 n)).
      { rewrite <- Z.pow_add_r by lia. f_equal. lia. }
      assert (0 < 2 ^ (53 - Zdigits2 n)) by (apply Z.pow_pos_nonneg; lia).
      rewrite E2, E3. nia.
    + left. split; [reflexivity|].
      assert (2 ^ Zdigits2 n <= 2 ^ 53) by (apply Z.pow_le_mono_r; lia). lia.
  - set (k := Zdigits2 n - 53) in *.
    replace (Zdigits2 n) with (k + 53) in Hb by lia.
    replace (k + 53 - 1) with (k + 52) in Hb by lia.
    assert (H2k : 0 < 2 ^ k) by (apply Z.pow_pos_nonneg; lia).
    assert (Hh : 2 ^ k = 2 * 2 ^ (k - 1)).
    { rewrite <- Z.pow_succ_r by lia. f_equal. lia. }
    assert (Hq : 2 ^ 52 <= n / 2 ^ k < 2 ^ 53).
    { rewrite !Z.pow_add_r in Hb by lia. split.
      - apply Z.div_le_lower_bound; lia.
      - apply Z.div_lt_upper_bound; lia. }
    pose proof (rne_bounds n k ltac:(lia) ltac:(lia)) as Hr.
    exists k, (rne n k). split; [lia|]. split; [reflexivity|].
    rewrite Z.max_l, Z.pow_0_r, Z.mul_1_r by lia.
    split; [|split; [lia|right; lia]].
    pose proof (Z.div_mod n (2 ^ k) ltac:(lia)) as Hdm.
    pose proof (Z.mod_pos_bound n (2 ^ k) H2k) as Hm.
    unfold rne in *. cbv zeta in *.
    destruct (Z.ltb_spec (n mod 2 ^ k) (2 ^ (k - 1))); [nia|].
    destruct (Z.ltb_spec (2 ^ (k - 1)) (n mod 2 ^ k)); [nia|].
    destruct (Z.even (n / 2 ^ k)); nia.
Qed.

Lemma multiple_unique H q N : 0 < H -> (N - 1) * H < q * H < (N + 1) * H -> q = N.
Proof.
  intros HH (H1 & H2).
  apply Z.mul_lt_mono_pos_r in H1, H2; lia.
Qed.

Lemma multiple_ge H q N x : 0 < H -> N * H <= x -> 2 * Z.abs (q * H - x) <= H -> N * H <= q * H.
Proof.
  intros HH H1 H2. apply Z.mul_le_mono_nonneg_r; [lia|].
  assert (H3 : (N - 1) * H < q * H) by lia.
  apply Z.mul_lt_mono_pos_r in H3; lia.
Qed.

Lemma multiple_le H q N x : 0 < H -> x <= N * H -> 2 * Z.abs (q * H - x) <= H -> q * H <= N * H.
Proof.
  intros HH H1 H2. apply Z.mul_le_mono_nonneg_r; [lia|].
  assert (H3 : q * H < (N + 1) * H) by lia.
  apply Z.mul_lt_mono_pos_r in H3; lia.
Qed.

Lemma R53_small n : 0 < n < 2 ^ 53 -> R53 n = n.
Proof.
  intros Hn. unfold R53. cbv zeta.
  pose proof (Zdigits2_le n 53 ltac:(lia) ltac:(lia)).
  replace (Zdigits2 n - 53 <=? 0) with true by (symmetry; apply Z.leb_le; lia).
  reflexivity.
Qed.

Lemma R53_idempotent n : 0 < n -> R53 (R53 n) = R53 n.
Proof.
  intros Hn. destruct (R53_spec n Hn) as (k & q & Hk & HR & _ & Hq & Hc).
  destruct Hc as [(-> & Hlt)|(Hk1 & Hb)].
  - rewrite R53_small at 1; rewrite R53_small; try lia; reflexivity.
  - assert (Hd : Zdigits2 n = k + 53).
    { apply Zdigits2_unique; [lia|]. now replace (k + 53 - 1) with (k + 52) by lia. }
    rewrite Hd, Z.max_l, Z.pow_0_r, Z.mul_1_r in Hq by lia.
    rewrite HR. assert (0 < 2 ^ 52) by (cbn; lia).
    rewrite R53_scale by lia. f_equal.
    destruct (Z.eq_dec q (2 ^ 53)) as [->|Hne]; [reflexivity|].
    apply R53_small. lia.
Qed.

Lemma pow2_lt_inv a b : 0 <= b -> 2 ^ a < 2 ^ b -> a < b.
Proof. intros Hb H. apply (Z.pow_lt_mono_r_iff 2); [lia|lia|exact H]. Qed.

(** When [n] lies in the window [[c * 2^T, (c+1) * 2^T - 2^B]] and the
    spacing at [n] is at most [2^B], rounding stays in [[c * 2^T, (c+1) * 2^T)]. *)
Lemma R53_between n c T B :
  0 <= B -> B < T -> 0 < n < 2 ^ (B + 53) ->
  c * 2 ^ T <= n -> n + 2 ^ B <= (c + 1) * 2 ^ T ->
  R53 n / 2 ^ T = c.
Proof.
  intros HB HT Hn Hlo Hhi.
  destruct (R53_spec n ltac:(lia)) as (k & q & Hk & HR & Hnear & _ & Hc).
  assert (HkB : k <= B).
  { destruct Hc as [(-> & _)|(Hk1 & Hb)]; [lia|].
    assert (k + 52 < B + 53) by (apply pow2_lt_inv; lia). lia. }
  assert (H2k : 0 < 2 ^ k) by (apply Z.pow_pos_nonneg; lia).
  assert (H2B : 2 ^ k <= 2 ^ B) by (apply Z.pow_le_mono_r; lia).
  assert (H2T : 0 < 2 ^ T) by (apply Z.pow_pos_nonneg; lia).
  assert (ET : 2 ^ T = 2 ^ (T - k) * 2 ^ k).
  { rewrite <- Z.pow_add_r by lia. f_equal. lia. }
  rewrite HR in Hnear |- *.
  assert (Hge : c * 2 ^ T <= q * 2 ^ k).
  { rewrite ET, Z.mul_assoc. apply (multiple_ge _ _ _ n); [lia| |lia].
    rewrite <- Z.mul_assoc, <- ET. exact Hlo. }
  symmetry. apply (Z.div_unique _ _ _ (q * 2 ^ k - c * 2 ^ T)); lia.
Qed.

(** The mantissa of the binary64 nearest to 1.2, with exponent -52. *)
Definition M12 : Z := 5404319552844595.

(** [a * 1.2] for a multiple of five is exact. *)
Lemma R53_fifth b : 0 < b < 2 ^ 51 -> R53 (5 * b * M12) = 6 * b * 2 ^ 52.
Proof.
  intros Hb.
  assert (En : 5 * b * M12 = 6 * b * 2 ^ 52 - b) by (unfold M12; lia).
  rewrite En. set (n := 6 * b * 2 ^ 52 - b) in *.
  assert (P51 : 2 ^ 51 = 2251799813685248) by reflexivity.
  assert (P52 : 2 ^ 52 = 4503599627370496) by reflexivity.
  assert (P53 : 2 ^ 53 = 9007199254740992) by reflexivity.
  destruct (R53_spec n ltac:(lia)) as (k & q & Hk & HR & Hnear & _ & Hc).
  destruct Hc as [(-> & Hlt)|(Hk1 & Hlo & Hhi)]; [lia|].
  rewrite !Z.pow_add_r in Hlo, Hhi by lia.
  assert (H2k : 0 < 2 ^ k) by (apply Z.pow_pos_nonneg; lia).
  assert (Hk54 : k < 54).
  { apply pow2_lt_inv; [lia|]. change (2 ^ 54) with 18014398509481984. nia. }
  assert (E53 : 2 ^ 53 = 2 ^ (53 - k) * 2 ^ k).
  { rewrite <- Z.pow_add_r by lia. f_equal. lia. }
  rewrite HR in *.
  assert (Hq : q = 3 * b * 2 ^ (53 - k)).
  { apply (multiple_unique (2 ^ k)); [lia|].
    replace ((3 * b * 2 ^ (53 - k) - 1) * 2 ^ k) with (3 * b * 2 ^ 53 - 2 ^ k)
      by (rewrite E53; ring).
    replace ((3 * b * 2 ^ (53 - k) + 1) * 2 ^ k) with (3 * b * 2 ^ 53 + 2 ^ k)
      by (rewrite E53; ring).
    subst n. lia. }
  rewrite Hq, <- Z.mul_assoc, <- E53. lia.
Qed.

(** One multiplication by 1.2 followed by truncation gives [floor (6a / 5)]. *)
Lemma R53_six_fifths a : 0 < a < 2 ^ 49 -> R53 (a * M12) / 2 ^ 52 = 6 * a / 5.
Proof.
  intros Ha.
  assert (P49 : 2 ^ 49 = 562949953421312) by reflexivity.
  assert (P52 : 2 ^ 52 = 4503599627370496) by reflexivity.
  pose proof (Z.div_mod a 5 ltac:(lia)) as Da.
  pose proof (Z.mod_pos_bound a 5 ltac:(lia)) as Ma.
  pose proof (Z.div_mod (6 * a) 5 ltac:(lia)) as Dc.
  pose proof (Z.mod_pos_bound (6 * a) 5 ltac:(lia)) as Mc.
  destruct (Z.eq_dec (a mod 5) 0) as [E|E].
  - replace a with (5 * (a / 5)) at 1 by lia.
    rewrite R53_fifth by (change (2 ^ 51) with 2251799813685248; lia).
    rewrite Z.div_mul by lia. lia.
  - assert ((6 * a) mod 5 <> 0) by lia.
    apply (R53_between _ _ 52 49); try lia.
    + change (2 ^ (49 + 53)) with 5070602400912917605986812821504. unfold M12. lia.
    + rewrite P52. unfold M12. lia.
    + rewrite P49, P52. unfold M12. lia.
Qed.

(** Two multiplications by 1.2 followed by truncation give [floor (36d / 25)]. *)
Lemma R53_36_25 d :
  0 < d < 2 ^ 46 -> R53 (R53 (d * M12) * M12) / 2 ^ 104 = 36 * d / 25.
Proof.
  intros Hd.
  assert (P46 : 2 ^ 46 = 70368744177664) by reflexivity.
  assert (P52 : 2 ^ 52 = 4503599627370496) by reflexivity.
  pose proof (Z.div_mod d 5 ltac:(lia)) as Da.
  pose proof (Z.mod_pos_bound d 5 ltac:(lia)) as Ma.
  pose proof (Z.div_mod (36 * d) 25 ltac:(lia)) as Dc.
  pose proof (Z.mod_pos_bound (36 * d) 25 ltac:(lia)) as Mc.
  destruct (Z.eq_dec (d mod 5) 0) as [E|E].
  - replace d with (5 * (d / 5)) at 1 by lia.
    rewrite R53_fifth by (change (2 ^ 51) with 2251799813685248; lia).
    replace (6 * (d / 5) * 2 ^ 52 * M12) with (6 * (d / 5) * M12 * 2 ^ 52) by ring.
    rewrite R53_scale by (unfold M12; lia).
    change (2 ^ 104) with (2 ^ 52 * 2 ^ 52). rewrite Z.div_mul_cancel_r by lia.
    rewrite R53_six_fifths by (change (2 ^ 49) with 562949953421312; lia).
    pose proof (Z.div_mod (6 * (6 * (d / 5))) 5 ltac:(lia)).
    pose proof (Z.mod_pos_bound (6 * (6 * (d / 5))) 5 ltac:(lia)). lia.
  - assert ((36 * d) mod 25 <> 0).
    { intros E0. rewrite E0 in Dc. lia. }
    destruct (R53_spec (d * M12) ltac:(unfold M12; lia))
      as (k & q & Hk & HR & Hnear & _ & Hc).
    assert (H2k : 2 ^ k <= 2 ^ 46).
    { apply Z.pow_le_mono_r; [lia|]. destruct Hc as [(-> & _)|(Hk1 & Hlo & Hhi)]; [lia|].
      assert (k + 52 < 99); [|lia]. apply pow2_lt_inv; [lia|].
      change (2 ^ 99) with 633825300114114700748351602688. unfold M12 in *. lia. }
    change (2 ^ 46) with 70368744177664 in H2k.
    set (R1 := R53 (d * M12)) in *. clearbody R1.
    apply (R53_between _ _ 104 98); try lia.
    + change (2 ^ (98 + 53)) with 2854495385411919762116571938898990272765493248.
      unfold M12 in *. lia.
    + change (2 ^ 104) with 20282409603651670423947251286016. unfold M12 in *. lia.
    + change (2 ^ 104) with 20282409603651670423947251286016.
      change (2 ^ 98) with 316912650057057350374175801344. unfold M12 in *. lia.
Qed.

Lemma R53_pos n : 0 < n -> 0 < R53 n.
Proof.
  intros Hn. destruct (R53_spec n Hn) as (k & q & Hk & -> & _ & Hq & _).
  assert (0 < 2 ^ 52) by (cbn; lia).
  assert (0 < 2 ^ k) by (apply Z.pow_pos_nonneg; lia).
  assert (0 < 2 ^ Z.max 0 (53 - Zdigits2 n)) by (apply Z.pow_pos_nonneg; lia).
  nia.
Qed.

Lemma R53_unscale d V1 V2 :
  0 < d -> 0 < V1 -> 0 < V2 ->
  R53 (R53 (d * 2 ^ 53 * V1) * V2) / 2 ^ 157 = R53 (R53 (d * V1) * V2) / 2 ^ 104.
Proof.
  intros Hd H1 H2.
  replace (d * 2 ^ 53 * V1) with (d * V1 * 2 ^ 53) by ring.
  rewrite R53_scale by nia.
  pose proof (R53_pos (d * V1) ltac:(nia)) as HR.
  replace (R53 (d * V1) * 2 ^ 53 * V2) with (R53 (d * V1) * V2 * 2 ^ 53) by ring.
  rewrite R53_scale by nia.
  change (2 ^ 157) with (2 ^ 104 * 2 ^ 53).
  apply Z.div_mul_cancel_r; cbn; lia.
Qed.

(** The two float products of [calculate_points] and the final [int(..)],
    on the values of the operands. *)
Lemma points_with_fval d f1 f2 V1 V2 :
  0 < d < 2 ^ 46 ->
  fval f1 V1 52 (-52) (-51) -> fval f2 V2 52 (-52) (-52) ->
  points_with d (Float f1) (Ok (Float f2)) = Ok (R53 (R53 (d * V1) * V2) / 2 ^ 104).
Proof.
  intros Hd H1 H2.
  destruct (of_int_fval d Hd) as (fd & Efd & Hfd).
  unfold points_with, num_mul, PyFloat.int_mul. rewrite Efd.
  cbn [result_map result_bind num_int].
  pose proof (mul_fval _ _ _ _ _ _ _ _ _ _ Hfd H1 ltac:(lia) ltac:(lia)) as Hx.
  pose proof (mul_fval _ _ _ _ _ _ _ _ _ _ Hx H2 ltac:(lia) ltac:(lia)) as Hy.
  rewrite (to_int_fval _ _ _ _ _ Hy) by lia.
  change (53 + 52 + 52) with 157. f_equal.
  destruct H1 as (m1 & e1 & _ & Hm1 & _ & Hs1 & <-), H2 as (m2 & e2 & _ & Hm2 & _ & Hs2 & <-).
  assert (0 < 2 ^ (e1 + 52)) by (apply Z.pow_pos_nonneg; lia).
  assert (0 < 2 ^ (e2 + 52)) by (apply Z.pow_pos_nonneg; lia).
  apply R53_unscale; nia.
Qed.

(** [x * 1] converts the [int] to the float [1.0]. *)
Lemma points_with_one d f1 :
  points_with d (Float f1) (Ok (Int 1))
  = points_with d (Float f1) (Ok (Float (S754_finite false 4503599627370496 (-52)))).
Proof.
  unfold points_with, num_mul at 1 3. destruct (PyFloat.int_mul d f1); reflexivity.
Qed.

Lemma fval_literal m e :
  2 ^ 52 <= Z.pos m < 2 ^ 53 -> -52 <= e <= -51 ->
  fval (S754_finite false m e) (Z.pos m * 2 ^ (e + 52)) 52 (-52) e.
Proof. intros Hm He. exists m, e. repeat split; lia. Qed.

(** The exact formula at the four multipliers and the two bonuses. *)
Lemma exact_points_values d :
  exact_points d None 0 = d /\ exact_points d None 3 = 6 * d / 5
  /\ exact_points d None 7 = 3 * d / 2 /\ exact_points d None 30 = 2 * d
  /\ exact_points d (Some 4) 0 = 6 * d / 5 /\ exact_points d (Some 4) 3 = 36 * d / 25
  /\ exact_points d (Some 4) 7 = 18 * d / 10 /\ exact_points d (Some 4) 30 = 12 * d / 5.
Proof.
  unfold exact_points, Qfloor. cbn -[Z.mul Z.div]. rewrite !Z.div_1_r.
  repeat split; try lia; f_equal; lia.
Qed.

(** The float operands of the eight cases. *)
Lemma float_operands :
  streak_multiplier 0 = Float (S754_finite false 4503599627370496 (-52))
  /\ streak_multiplier 3 = Float (S754_finite false 5404319552844595 (-52))
  /\ streak_multiplier 7 = Float (S754_finite false 6755399441055744 (-52))
  /\ streak_multiplier 30 = Float (S754_finite false 4503599627370496 (-51))
  /\ num_add (Int 1) (quality_bonus None) = Ok (Int 1)
  /\ num_add (Int 1) (quality_bonus (Some 4))
     = Ok (Float (S754_finite false 5404319552844595 (-52))).
Proof. vm_compute. repeat split; reflexivity. Qed.

Lemma R53_pow2 a t : 0 < a < 2 ^ 53 -> 0 <= t -> R53 (a * 2 ^ t) = a * 2 ^ t.
Proof. intros Ha Ht. rewrite R53_scale, R53_small by lia. reflexivity. Qed.

(** A last factor [1.0] changes nothing. *)
Lemma R53_times_one X : 0 < X -> R53 (R53 X * 2 ^ 52) / 2 ^ 104 = R53 X / 2 ^ 52.
Proof.
  intros HX. pose proof (R53_pos X HX).
  rewrite R53_scale, R53_idempotent by lia.
  change (2 ^ 104) with (2 ^ 52 * 2 ^ 52). apply Z.div_mul_cancel_r; cbn; lia.
Qed.

(** A first factor [a * 2^t] is exact, and the power of two moves out. *)
Lemma R53_pow2_first a t :
  0 < a < 2 ^ 53 -> 0 <= t <= 104 ->
  R53 (R53 (a * 2 ^ t) * M12) / 2 ^ 104 = R53 (a * M12) / 2 ^ (104 - t).
Proof.
  intros Ha Ht. rewrite R53_pow2 by lia.
  replace (a * 2 ^ t * M12) with (a * M12 * 2 ^ t) by ring.
  rewrite R53_scale by (unfold M12; lia).
  replace (2 ^ 104) with (2 ^ (104 - t) * 2 ^ t)
    by (rewrite <- Z.pow_add_r by lia; f_equal; lia).
  assert (0 < 2 ^ t) by (apply Z.pow_pos_nonneg; lia).
  assert (0 < 2 ^ (104 - t)) by (apply Z.pow_pos_nonneg; lia).
  apply Z.div_mul_cancel_r; lia.
Qed.

(** The rounded products of the eight cases, truncated. *)
Lemma rounded_values d :
  0 < d < 2 ^ 46 ->
  R53 (R53 (d * 2 ^ 52) * 2 ^ 52) / 2 ^ 104 = d
  /\ R53 (R53 (d * M12) * 2 ^ 52) / 2 ^ 104 = 6 * d / 5
  /\ R53 (R53 (d * (3 * 2 ^ 51)) * 2 ^ 52) / 2 ^ 104 = 3 * d / 2
  /\ R53 (R53 (d * 2 ^ 53) * 2 ^ 52) / 2 ^ 104 = 2 * d
  /\ R53 (R53 (d * 2 ^ 52) * M12) / 2 ^ 104 = 6 * d / 5
  /\ R53 (R53 (d * M12) * M12) / 2 ^ 104 = 36 * d / 25
  /\ R53 (R53 (d * (3 * 2 ^ 51)) * M12) / 2 ^ 104 = 18 * d / 10
  /\ R53 (R53 (d * 2 ^ 53) * M12) / 2 ^ 104 = 12 * d / 5.
Proof.
  intros Hd.
  assert (P46 : 2 ^ 46 = 70368744177664) by reflexivity.
  assert (P49 : 2 ^ 49 = 562949953421312) by reflexivity.
  assert (P53 : 2 ^ 53 = 9007199254740992) by reflexivity.
  assert (P51 : 0 < 2 ^ 51) by (cbn; lia).
  assert (P52 : 0 < 2 ^ 52) by (cbn; lia).
  replace (d * (3 * 2 ^ 51)) with (3 * d * 2 ^ 51) by ring.
  replace (d * 2 ^ 53) with (2 * d * 2 ^ 52) by (change (2 ^ 53) with (2 * 2 ^ 52); ring).
  repeat split.
  - rewrite R53_times_one, R53_pow2 by lia. apply Z.div_mul. lia.
  - rewrite R53_times_one by (unfold M12; lia). apply R53_six_fifths. lia.
  - rewrite R53_times_one, R53_pow2 by lia.
    change (2 ^ 52) with (2 * 2 ^ 51). apply Z.div_mul_cancel_r; lia.
  - rewrite R53_times_one, R53_pow2 by lia. apply Z.div_mul. lia.
  - rewrite R53_pow2_first by lia. apply R53_six_fifths. lia.
  - apply R53_36_25. lia.
  - rewrite R53_pow2_first by lia. change (2 ^ (104 - 51)) with (2 ^ 52 * 2).
    rewrite <- Z.div_div, R53_six_fifths, Z.div_div by lia. f_equal. lia.
  - rewrite R53_pow2_first, R53_six_fifths by lia. f_equal. lia.
Qed.

Ltac operand :=
  eexists _, _; split; [reflexivity|];
  split; [cbn; lia|]; split; [lia|]; split; [lia|]; reflexivity.

(** C2 (amended): for a duration from 1 up to [2^46] minutes, any optional
    focus rating and any streak count, [calculate_points] returns the floor
    of [duration * multiplier * (1 + bonus)] taken exactly. *)
Theorem calculate_points_exact session user :
  1 <= PracticeSession.duration_minutes session < 2 ^ 46 ->
  calculate_points session user
  = Ok (exact_points (PracticeSession.duration_minutes session)
                     (PracticeSession.focus_rating session)
                     (User.streak_count user)).
Proof.
  intros Hd. rewrite calculate_points_with.
  destruct (streak_multiplier_cases (User.streak_count user)) as (c & Hc & Em & Ex).
  destruct (quality_bonus_cases (PracticeSession.focus_rating session))
    as (f & Hf & Eb & Ey).
  unfold exact_points. rewrite Em, Ex, Eb, Ey. fold (exact_points (PracticeSession.duration_minutes session) f c).
  set (d := PracticeSession.duration_minutes session) in *.
  destruct float_operands as (F0 & F3 & F7 & F30 & B0 & B4).
  destruct (exact_points_values d) as (X1 & X2 & X3 & X4 & X5 & X6 & X7 & X8).
  destruct (rounded_values d ltac:(lia)) as (R1 & R2 & R3 & R4 & R5 & R6 & R7 & R8).
  cbn [In] in Hc, Hf.
  destruct Hc as [<-|[<-|[<-|[<-|[]]]]], Hf as [<-|[<-|[]]].
  - rewrite F0, B0, points_with_one, X1.
    rewrite (points_with_fval d _ _ (2 ^ 52) (2 ^ 52)) by first [lia|operand].
    now rewrite R1.
  - rewrite F0, B4, X5.
    rewrite (points_with_fval d _ _ (2 ^ 52) (M12)) by first [lia|operand].
    now rewrite R5.
  - rewrite F3, B0, points_with_one, X2.
    rewrite (points_with_fval d _ _ (M12) (2 ^ 52)) by first [lia|operand].
    now rewrite R2.
  - rewrite F3, B4, X6.
    rewrite (points_with_fval d _ _ (M12) (M12)) by first [lia|operand].
    now rewrite R6.
  - rewrite F7, B0, points_with_one, X3.
    rewrite (points_with_fval d _ _ (3 * 2 ^ 51) (2 ^ 52)) by first [lia|operand].
    now rewrite R3.
  - rewrite F7, B4, X7.
    rewrite (points_with_fval d _ _ (3 * 2 ^ 51) (M12)) by first [lia|operand].
    now rewrite R7.
  - rewrite F30, B0, points_with_one, X4.
    rewrite (points_with_fval d _ _ (2 ^ 53) (2 ^ 52)) by first [lia|operand].
    now rewrite R4.
  - rewrite F30, B4, X8.
    rewrite (points_with_fval d _ _ (2 ^ 53) (M12)) by first [lia|operand].
    now rewrite R8.
Qed.

(** ** Readiness scorer *)

Definition is_present (r : option Z) : bool :=
  match r with
  | Some _ => true
  | None => false
  end.

(** A rating of the data model: absent, or from 1 to 5. *)
Definition rating_ok (r : option Z) : Prop :=
  match r with
  | Some v => 1 <= v <= 5
  | None => True
  end.

Definition ratings_ok (s : PracticeSession.t) : Prop :=
  rating_ok (PracticeSession.focus_rating s)
  /\ rating_ok (PracticeSession.progress_rating s)
  /\ rating_ok (PracticeSession.energy_rating s).

(** Two points per level of each rating that is present. *)
Definition rating_points (s : PracticeSession.t) : Z :=
  2 * rating_value (PracticeSession.focus_rating s)
  + 2 * rating_value (PracticeSession.progress_rating s)
  + 2 * rating_value (PracticeSession.energy_rating s).

Definition is_rated (s : PracticeSession.t) : bool :=
  is_present (PracticeSession.focus_rating s)
  || is_present (PracticeSession.progress_rating s)
  || is_present (PracticeSession.energy_rating s).

Definition link_session (db : Store) (st : SessionTask.t) : option PracticeSession.t :=
  find (fun s => PracticeSession.id s =? SessionTask.session_id st) (sessions db).

(** [R]: the rating points over the links. *)
Definition rating_total (db : Store) (links : list SessionTask.t) : Z :=
  sum_Z (map (fun st => match link_session db st with
                        | Some s => rating_points s
                        | None => 0
                        end) links).

(** [N]: the links whose session has a rating. *)
Definition rated_links (db : Store) (links : list SessionTask.t) : Z :=
  Z.of_nat (List.length
              (filter (fun st => match link_session db st with
                                 | Some s => is_rated s
                                 | None => false
                                 end) links)).

Lemma truthy_rating_ok r : rating_ok r -> truthy r = is_present r.
Proof.
  destruct r as [v|]; cbn; [|reflexivity]. intros H.
  replace (v =? 0) with false by (symmetry; apply Z.eqb_neq; lia). reflexivity.
Qed.

Lemma rating_points_bounds s :
  ratings_ok s ->
  0 <= rating_points s <= (if is_rated s then 30 else 0).
Proof.
  unfold ratings_ok, rating_points, is_rated, rating_ok.
  destruct (PracticeSession.focus_rating s), (PracticeSession.progress_rating s),
    (PracticeSession.energy_rating s); cbn [rating_value is_present orb]; lia.
Qed.

Lemma readiness_round_spec db acc st s :
  link_session db st = Some s -> ratings_ok s ->
  readiness_round db acc st
  = Ok (fst acc + rating_points s, snd acc + (if is_rated s then 1 else 0)).
Proof.
  intros Hs (Hf & Hp & He). unfold readiness_round. unfold link_session in Hs.
  rewrite Hs. destruct acc as [c n].
  rewrite !truthy_rating_ok by assumption.
  unfold rating_points, is_rated. cbn [fst snd].
  destruct (PracticeSession.focus_rating s), (PracticeSession.progress_rating s),
    (PracticeSession.energy_rating s); cbn [rating_value is_present orb];
    f_equal; f_equal; lia.
Qed.

Lemma readiness_loop_spec db links : forall c n,
  (forall st, In st links -> exists s, link_session db st = Some s /\ ratings_ok s) ->
  readiness_loop db (c, n) links
  = Ok (c + rating_total db links, n + rated_links db links)
  /\ 0 <= rating_total db links <= 30 * rated_links db links.
Proof.
  unfold rating_total, rated_links.
  induction links as [|st links IH]; intros c n H.
  - cbn. split; [f_equal; f_equal; lia|lia].
  - destruct (H st (or_introl eq_refl)) as (s & Hs & Hok).
    cbn [readiness_loop]. rewrite (readiness_round_spec _ _ _ _ Hs Hok).
    cbn [result_bind fst snd].
    destruct (IH (c + rating_points s) (n + (if is_rated s then 1 else 0))
                 (fun x Hx => H x (or_intror Hx))) as (-> & Hb).
    pose proof (rating_points_bounds s Hok) as Hr.
    cbn [map filter sum_Z fold_right]. rewrite Hs. unfold sum_Z in *.
    destruct (is_rated s); cbn [List.length]; split; try (f_equal; f_equal; lia); lia.
Qed.

(** C4 (amended): for a task whose practiced time is non-negative and fits
    a 64-bit column and whose links lead to stored sessions with ratings
    from 1 to 5 or absent, [calculate_task_readiness] returns a float
    between 0 and 100; it is 0.0 when [estimated_minutes <= 0], and otherwise
    it is
    [min((total_time_practiced + R) / (estimated_minutes + 30 * N) * 100, 100.0)]
    where [R] and [N] range over the rows of [session_tasks] that carry the
    id of the task: [R] is the sum of their sessions' rating points, [N] the
    number of them whose session has a rating. *)
Theorem calculate_task_readiness_range db task :
  let links := links_to (PracticeTask.id task) (session_tasks db) in
  (forall st, In st links -> exists s, link_session db st = Some s /\ ratings_ok s) ->
  0 <= PracticeTask.total_time_practiced task < 2 ^ 63 ->
  exists r,
    calculate_task_readiness db task = Ok r
    /\ PyFloat.leb PyFloat.zero r = true
    /\ PyFloat.leb r (PyFloat.literal 100 1) = true
    /\ (PracticeTask.estimated_minutes task <= 0 -> r = PyFloat.zero)
    /\ (0 < PracticeTask.estimated_minutes task ->
        exists q,
          PyFloat.int_truediv
            (PracticeTask.total_time_practiced task + rating_total db links)
            (PracticeTask.estimated_minutes task + 30 * rated_links db links)
          = Ok q
          /\ r = PyFloat.min (PyFloat.mul q (PyFloat.literal 100 1))
                             (PyFloat.literal 100 1)).
Proof.
  cbv zeta. intros Hlinks Http. unfold calculate_task_readiness.
  destruct (PracticeTask.estimated_minutes task <=? 0) eqn:Eest.
  - apply Z.leb_le in Eest. exists PyFloat.zero.
    repeat split; try reflexivity. lia.
  - apply Z.leb_gt in Eest.
    change (task_links db (PracticeTask.id task))
      with (links_to (PracticeTask.id task) (session_tasks db)).
    destruct (readiness_loop_spec db _ 0 0 Hlinks) as (Hloop & HR).
    rewrite Hloop. cbn [result_bind]. rewrite !Z.add_0_l.
    set (R := rating_total db (links_to (PracticeTask.id task) (session_tasks db))) in *.
    set (N := rated_links db (links_to (PracticeTask.id task) (session_tasks db))) in *.
    assert (HN : 0 <= N) by (unfold N, rated_links; lia).
    replace (PracticeTask.estimated_minutes task + N * 30 <=? 0) with false
      by (symmetry; apply Z.leb_gt; lia).
    replace (N * 30) with (30 * N) by lia.
    destruct (int_truediv_nonneg (PracticeTask.total_time_practiced task + R)
                (PracticeTask.estimated_minutes task + 30 * N))
      as (q & Hq & Hnn); [lia|lia| |].
    { assert (0 < 2 ^ 1000) by (apply Z.pow_pos_nonneg; lia).
      assert (2 ^ 63 <= 2 ^ 1000) by (apply Z.pow_le_mono_r; lia). nia. }
    rewrite Hq. cbn [result_bind].
    assert (H100 : PyFloat.of_int 100 = Ok (PyFloat.literal 100 1))
      by (vm_compute; reflexivity).
    unfold PyFloat.mul_int. rewrite H100. cbn [result_bind].
    assert (Hh : PyFloat.literal 100 1 = S754_finite false 7036874417766400 (-46))
      by (vm_compute; reflexivity).
    pose proof (mul_nonneg q 7036874417766400 (-46) Hnn) as Hm. rewrite <- Hh in Hm.
    destruct (min_hundred_range _ Hm) as (Hlo & Hhi).
    eexists. split; [reflexivity|]. split; [exact Hlo|]. split; [exact Hhi|].
    split; [lia|]. intros _. exists q. split; reflexivity.
Qed.

(** Nothing checks the minutes of a link or the ratings of a session. *)

(** Thirty minutes logged with [minutes_spent = -30] for task 1. *)
Definition ill_timed : PracticeSessionCreate.t :=
  PracticeSessionCreate.mk 1 (DateTime.mk 100 9) 30 None None None None
                           [SessionTaskCreate.mk 1 (-30)].

(** When [newcomer] logs [ill_timed], the task has -30 practiced minutes
    and its readiness, -50.0, is below 0. *)
Lemma calculate_task_readiness_negative :
  exists db s task r,
    create_practice_session 100 ill_timed newcomer = (db, Ok s)
    /\ tasks db = [task]
    /\ calculate_task_readiness db task = Ok r
    /\ PyFloat.leb PyFloat.zero r = false.
Proof.
  do 4 eexists. split; [vm_compute; reflexivity|].
  split; [reflexivity|]. split; [vm_compute; reflexivity|].
  vm_compute. reflexivity.
Qed.

(** Thirty minutes on task 1 with a focus rating of 0. *)
Definition unfocused : PracticeSessionCreate.t :=
  PracticeSessionCreate.mk 1 (DateTime.mk 100 9) 30 None (Some 0) None None
                           [SessionTaskCreate.mk 1 30].

(** A rating of 0 is present but falsy: the loop skips it, so the session
    is not counted in [N], and the score is 30 / 60 * 100, not
    30 / (60 + 30) * 100. *)
Lemma calculate_task_readiness_zero_rating :
  exists db s task q,
    create_practice_session 100 unfocused newcomer = (db, Ok s)
    /\ tasks db = [task]
    /\ rated_links db (links_to (PracticeTask.id task) (session_tasks db)) = 1
    /\ calculate_task_readiness db task = Ok (PyFloat.literal 50 1)
    /\ PyFloat.int_truediv 30 (60 + 30 * 1) = Ok q
    /\ PyFloat.min (PyFloat.mul q (PyFloat.literal 100 1)) (PyFloat.literal 100 1)
       <> PyFloat.literal 50 1.
Proof.
  do 4 eexists. split; [vm_compute; reflexivity|].
  split; [reflexivity|]. repeat split; try (vm_compute; reflexivity).
  vm_compute. discriminate.
Qed.

(** Scenario 2 of the specification: 30 estimated minutes, 30 practiced,
    one linked session rated 5/5/5 give a readiness of 100. *)
Lemma calculate_task_readiness_scenario :
  calculate_task_readiness
    (mkStore [] []
       [PracticeSession.mk 1 1 (DateTime.mk 1 9) 30 (Some 5) (Some 5) (Some 5) None 30]
       [SessionTask.mk 1 1 30] [] [] [])
    (PracticeTask.mk 1 1 30 30 1 IN_PROGRESS PyFloat.zero)
  = Ok (PyFloat.literal 100 1).
Proof. vm_compute. reflexivity. Qed.

(** ** Stored readiness and session changes *)

(** A task practiced 30 of its 60 minutes in one unrated session; its stored
    readiness is 50.0. *)
Definition rated_later : Store :=
  mkStore [User.mk 1 None 1 30 1 (Some 100)]
          [PracticeTask.mk 1 1 60 30 1 IN_PROGRESS (PyFloat.literal 50 1)]
          [PracticeSession.mk 1 1 (DateTime.mk 100 9) 30 None None None None 30]
          [SessionTask.mk 1 1 30] [] [] [].

(** The session gets the ratings 5/5/5. *)
Definition all_fives : PracticeSessionUpdate.t :=
  PracticeSessionUpdate.mk (Some (Some 5)) (Some (Some 5)) (Some (Some 5)) None.

Lemma update_practice_session_tasks session_id session_update :
  preserves tasks (update_practice_session session_id session_update).
Proof. frame. Qed.

(** C9: the stored [readiness_score] is not kept fresh.
    [update_practice_session] never writes a task: in [rated_later] the task
    keeps the 50.0 it had when its session gets the ratings 5/5/5, although
    the engine now computes another score for it.
    [create_practice_session] computes the score inside its loop, while the
    link of the new session still waits for the commit: when [newcomer] logs
    [morning_session], the score stored for the task is 50.0, and the engine
    computes another one for it once the call has returned. *)
Theorem readiness_not_recomputed :
  (forall session_id session_update db,
     tasks (fst (update_practice_session session_id session_update db)) = tasks db)
  /\ (let db := fst (update_practice_session 1 all_fives rated_later) in
      exists task,
        tasks db = [task]
        /\ calculate_task_readiness rated_later task
           = Ok (PracticeTask.readiness_score task)
        /\ calculate_task_readiness db task <> Ok (PracticeTask.readiness_score task))
  /\ (let db := fst (create_practice_session 100 (morning_session 1) newcomer) in
      exists task,
        tasks db = [task]
        /\ PracticeTask.readiness_score task = PyFloat.literal 50 1
        /\ calculate_task_readiness db task <> Ok (PracticeTask.readiness_score task)).
Proof.
  split; [|split].
  - intros. apply update_practice_session_tasks.
  - eexists. split; [vm_compute; reflexivity|].
    split; [vm_compute; reflexivity|vm_compute; discriminate].
  - eexists. split; [vm_compute; reflexivity|].
    split; [vm_compute; reflexivity|vm_compute; discriminate].
Qed.

(** ** Non-negative points *)

(** A session whose duration is -100 minutes; no schema rejects it. *)
Definition backwards : PracticeSessionCreate.t :=
  PracticeSessionCreate.mk 1 (DateTime.mk 100 9) (-100) None None None None [].

(** A new account that logs [backwards] is at -100 points and level 0. *)
Lemma create_practice_session_negative_points :
  users newcomer = [User.mk 1 None 0 0 1 None]
  /\ sessions newcomer = []
  /\ exists db' s,
       create_practice_session 100 backwards newcomer = (db', Ok s)
       /\ users db' = [User.mk 1 None 1 (-100) 0 (Some 100)].
Proof.
  split; [reflexivity|]. split; [reflexivity|].
  do 2 eexists. split; vm_compute; reflexivity.
Qed.

(** *** Points are never negative for a non-negative duration *)

Lemma of_int_nonneg d x : 0 <= d -> PyFloat.of_int d = Ok x -> nonneg x.
Proof.
  intros Hd. unfold PyFloat.of_int, binary_normalize.
  destruct d as [|p|p]; [intros [= <-]; exact I| |lia].
  unfold binary_round.
  destruct (shl_align p 0 _) as [mz ez].
  pose proof (binary_round_aux_sign false (Z.pos mz) ez loc_Exact ltac:(lia)) as H.
  destruct (binary_round_aux _ _ _ _ _ _) as [s'|s'| |s' m' e']; try contradiction;
    subst; intros [= <-]; exact I.
Qed.

Lemma to_int_nonneg x n : nonneg x -> PyFloat.to_int x = Ok n -> 0 <= n.
Proof.
  destruct x as [[]|[]| |[] m e]; cbn [nonneg PyFloat.to_int]; try contradiction;
    intros _; try discriminate; intros [= <-]; [lia|].
  apply Z.shiftl_nonneg. lia.
Qed.

Lemma streak_multiplier_finite streak_count :
  exists m e, streak_multiplier streak_count = Float (S754_finite false m e).
Proof.
  unfold streak_multiplier.
  destruct (30 <=? streak_count); [do 2 eexists; vm_compute; reflexivity|].
  destruct (7 <=? streak_count); [do 2 eexists; vm_compute; reflexivity|].
  destruct (3 <=? streak_count); do 2 eexists; vm_compute; reflexivity.
Qed.

Lemma one_plus_bonus_finite focus_rating :
  exists m e, num_add (Int 1) (quality_bonus focus_rating) = Ok (Int 1)
              \/ num_add (Int 1) (quality_bonus focus_rating)
                 = Ok (Float (S754_finite false m e)).
Proof.
  unfold quality_bonus.
  destruct (truthy focus_rating && (4 <=? rating_value focus_rating)).
  - do 2 eexists. right. vm_compute. reflexivity.
  - exists 1%positive, 0. left. reflexivity.
Qed.

Lemma calculate_points_nonneg session user points :
  0 <= PracticeSession.duration_minutes session ->
  calculate_points session user = Ok points ->
  0 <= points.
Proof.
  intros Hd. rewrite calculate_points_with. unfold points_with.
  destruct (streak_multiplier_finite (User.streak_count user)) as (m & e & ->).
  destruct (one_plus_bonus_finite (PracticeSession.focus_rating session))
    as (m2 & e2 & [-> | ->]); cbn [num_mul result_bind result_map];
    unfold PyFloat.int_mul;
    destruct (PyFloat.of_int (PracticeSession.duration_minutes session)) as [fx|err] eqn:Ef;
    cbn [result_map result_bind]; try discriminate;
    pose proof (of_int_nonneg _ _ Hd Ef) as Hfx;
    pose proof (mul_nonneg _ m e Hfx) as Hx.
  - unfold PyFloat.mul_int.
    replace (PyFloat.of_int 1) with (@Ok PyFloat.float (S754_finite false 4503599627370496 (-52)))
      by (vm_compute; reflexivity).
    cbn [result_map result_bind num_int]. apply to_int_nonneg. now apply mul_nonneg.
  - cbn [num_int]. apply to_int_nonneg. now apply mul_nonneg.
Qed.

(** *** Sums over a table *)

Section TableSums.

Context {A : Type} (key : A -> Z) (f : A -> Z).

Lemma sum_Z_app l1 l2 : sum_Z (l1 ++ l2) = sum_Z l1 + sum_Z l2.
Proof.
  unfold sum_Z. induction l1 as [|x l1 IH]; cbn [app fold_right]; lia.
Qed.

Lemma replace_row_absent x rows :
  (forall r, In r rows -> key r <> key x) -> replace_row key x rows = rows.
Proof.
  intros H. unfold replace_row. rewrite <- (map_id rows) at 2.
  apply map_ext_in. intros r Hr.
  replace (key r =? key x) with false; [reflexivity|].
  symmetry. apply Z.eqb_neq. now apply H.
Qed.

Lemma NoDup_keys_head y rows r :
  NoDup (map key (y :: rows)) -> In r rows -> key r <> key y.
Proof.
  cbn [map]. intros H Hr E. inversion H as [|? ? Hnin _]; subst.
  apply Hnin. rewrite <- E. now apply in_map.
Qed.

Lemma sum_replace x old rows :
  NoDup (map key rows) -> In old rows -> key old = key x ->
  sum_Z (map f (replace_row key x rows)) = sum_Z (map f rows) - f old + f x.
Proof.
  induction rows as [|y rows IH]; intros Hnd Hin Hk; [contradiction|].
  cbn [replace_row map]. fold (replace_row key x rows).
  destruct Hin as [->|Hin].
  - rewrite Hk, Z.eqb_refl. rewrite replace_row_absent.
    + unfold sum_Z. cbn [fold_right]. lia.
    + intros r Hr. rewrite <- Hk. eapply NoDup_keys_head; eassumption.
  - pose proof (NoDup_keys_head _ _ _ Hnd Hin) as Hne.
    replace (key y =? key x) with false
      by (symmetry; apply Z.eqb_neq; congruence).
    inversion Hnd; subst. unfold sum_Z in *. cbn [fold_right].
    rewrite IH by assumption. lia.
Qed.

Lemma sum_remove old rows :
  NoDup (map key rows) -> In old rows ->
  sum_Z (map f (filter (fun r => negb (key r =? key old)) rows))
  = sum_Z (map f rows) - f old.
Proof.
  induction rows as [|y rows IH]; intros Hnd Hin; [contradiction|].
  cbn [filter]. destruct Hin as [->|Hin].
  - rewrite Z.eqb_refl. cbn [negb].
    assert (E : filter (fun r => negb (key r =? key old)) rows = rows).
    { apply forallb_filter_id. apply forallb_forall. intros r Hr.
      apply negb_true_iff, Z.eqb_neq. eapply NoDup_keys_head; eassumption. }
    rewrite E. unfold sum_Z. cbn [map fold_right]. lia.
  - pose proof (NoDup_keys_head _ _ _ Hnd Hin) as Hne.
    replace (key y =? key old) with false
      by (symmetry; apply Z.eqb_neq; congruence).
    cbn [negb map]. inversion Hnd; subst. unfold sum_Z in *. cbn [fold_right].
    rewrite IH by assumption. lia.
Qed.

Lemma filter_keys i rows :
  map key (filter (fun r => negb (key r =? i)) rows)
  = filter (fun j => negb (j =? i)) (map key rows).
Proof.
  induction rows as [|y rows IH]; [reflexivity|].
  cbn [filter map]. destruct (negb (key y =? i)); cbn [map]; now rewrite IH.
Qed.

End TableSums.

Lemma next_id_fresh ids i : In i ids -> i < next_id ids.
Proof.
  unfold next_id. induction ids as [|j ids IH]; [contradiction|].
  cbn [fold_right]. intros [->|H]; [lia|]. specialize (IH H). lia.
Qed.

(** *** The invariant behind non-negative points *)

Definition points_for (user_id : Z) (s : PracticeSession.t) : Z :=
  if PracticeSession.user_id s =? user_id then PracticeSession.points_earned s else 0.

(** The points of the sessions a user has in the store. *)
Definition user_points (db : Store) (user_id : Z) : Z :=
  sum_Z (map (points_for user_id) (sessions db)).

(** Session keys are unique, no session has a negative duration or negative
    points, and every user's [total_points] is the sum over their sessions. *)
Definition consistent (db : Store) : Prop :=
  NoDup (map PracticeSession.id (sessions db))
  /\ (forall s, In s (sessions db) ->
        0 <= PracticeSession.duration_minutes s /\ 0 <= PracticeSession.points_earned s)
  /\ (forall u, In u (users db) -> User.total_points u = user_points db (User.id u)).

Lemma user_points_nonneg db user_id :
  (forall s, In s (sessions db) -> 0 <= PracticeSession.points_earned s) ->
  0 <= user_points db user_id.
Proof.
  intros H. apply sum_Z_nonneg. intros x Hx.
  apply in_map_iff in Hx as (s & <- & Hs). unfold points_for.
  destruct (PracticeSession.user_id s =? user_id); [now apply H|lia].
Qed.

Lemma consistent_nonneg db :
  consistent db ->
  forall u, In u (users db) -> 0 <= User.total_points u.
Proof.
  intros (_ & Hs & Hu) u Hin. rewrite (Hu u Hin).
  apply user_points_nonneg. intros s Hin'. now apply Hs.
Qed.

Lemma create_practice_session_consistent today session db db' a :
  consistent db ->
  0 <= PracticeSessionCreate.duration_minutes session ->
  create_practice_session today session db = (db', Ok a) ->
  consistent db'.
Proof.
  intros (Hnd & Hs & Hu) Hdur Hrun.
  pose proof (create_practice_session_tables today session db) as C. cbv zeta in C.
  rewrite Hrun in C. cbn [fst] in C.
  destruct (find _ (users db)) as [user|] eqn:Hf; [|discriminate].
  pose proof (find_key _ _ _ _ Hf) as Hid. apply find_some in Hf as (Hin & _).
  destruct (calculate_points _ _) as [points|e] eqn:Hp; [|discriminate].
  destruct C as (Cu & Cs).
  assert (Hpts : 0 <= points)
    by (eapply calculate_points_nonneg; [|exact Hp]; exact Hdur).
  assert (Hsum : forall i, user_points db' i
                           = user_points db i
                             + (if PracticeSessionCreate.user_id session =? i
                                then points else 0)).
  { intros i. unfold user_points. rewrite Cs, map_app, sum_Z_app. f_equal.
    unfold sum_Z, points_for, stored_session, mk_session,
      PracticeSession.set_id, PracticeSession.set_points_earned.
    cbn [map fold_right PracticeSession.user_id PracticeSession.points_earned].
    destruct (PracticeSessionCreate.user_id session =? i); lia. }
  assert (Hs' : forall s, In s (sessions db') ->
            0 <= PracticeSession.duration_minutes s /\ 0 <= PracticeSession.points_earned s).
  { intros s. rewrite Cs. intros H. apply in_app_or in H as [H|[<-|[]]]; [now apply Hs|].
    cbn. split; assumption. }
  split; [|split; [exact Hs'|]].
  - rewrite Cs, map_app. apply NoDup_app; [exact Hnd|repeat constructor; intros []|].
    intros i Hi [<-|[]]. cbn in Hi. apply next_id_fresh in Hi. lia.
  - intros u. rewrite Cu. unfold replace_user, replace_row. intros H.
    apply in_map_iff in H as (r & <- & Hr). rewrite rewarded_id.
    destruct (User.id r =? User.id user) eqn:E.
    + rewrite rewarded_id, Hsum, Hid, Z.eqb_refl.
      pose proof (Hu user Hin) as Ht.
      pose proof (update_streak_frame today user) as (_ & _ & Hst & _).
      assert (Htot : User.total_points (rewarded today user points)
                     = user_points db (User.id user) + points)
        by (unfold rewarded, repointed;
            cbn [User.total_points update_user_level User.set_level User.set_total_points];
            rewrite Hst; lia).
      rewrite <- Hid; exact Htot.
    + apply Z.eqb_neq in E. pose proof (Hu r Hr) as Ht.
      rewrite Hsum. replace (PracticeSessionCreate.user_id session =? User.id r) with false
        by (symmetry; apply Z.eqb_neq; congruence).
      lia.
Qed.

Lemma update_practice_session_consistent session_id upd db db' a :
  consistent db ->
  update_practice_session session_id upd db = (db', Ok a) ->
  consistent db'.
Proof.
  intros (Hnd & Hs & Hu) Hrun.
  pose proof (update_practice_session_tables session_id upd db) as C. cbv zeta in C.
  rewrite Hrun in C.
  destruct (find _ (sessions db)) as [s|] eqn:Hf;
    [|injection C as E _; subst; exact (conj Hnd (conj Hs Hu))].
  apply find_some in Hf as (Hin & _).
  pose proof (apply_update_frame upd s) as (Eid & Euid & Edur & Epts & _).
  destruct (Hs s Hin) as (Hsd & Hsp).
  (* the sums after a row with the key, the user and [points] is written *)
  assert (Hsum : forall s2 points,
            PracticeSession.id s2 = PracticeSession.id s ->
            PracticeSession.user_id s2 = PracticeSession.user_id s ->
            PracticeSession.points_earned s2 = points ->
            forall i,
              sum_Z (map (points_for i) (replace_session s2 (sessions db)))
              = user_points db i
                + (if PracticeSession.user_id s =? i
                   then points - PracticeSession.points_earned s else 0)).
  { intros s2 points E1 E2 E3 i. unfold replace_session.
    rewrite (sum_replace PracticeSession.id (points_for i) s2 s) by auto.
    unfold user_points, points_for. rewrite E2, E3.
    destruct (PracticeSession.user_id s =? i); lia. }
  assert (Hrows : forall s2,
            PracticeSession.id s2 = PracticeSession.id s ->
            0 <= PracticeSession.duration_minutes s2 ->
            0 <= PracticeSession.points_earned s2 ->
            forall x, In x (replace_session s2 (sessions db)) ->
              0 <= PracticeSession.duration_minutes x
              /\ 0 <= PracticeSession.points_earned x).
  { intros s2 E1 H1 H2 x Hx. unfold replace_session, replace_row in Hx.
    apply in_map_iff in Hx as (r & <- & Hr).
    destruct (PracticeSession.id r =? PracticeSession.id s2); [now split|now apply Hs]. }
  destruct (focus_changed upd (PracticeSession.focus_rating s)).
  - destruct (find _ (users db)) as [user|] eqn:Hfu; [|discriminate].
    pose proof (find_key _ _ _ _ Hfu) as Hid. apply find_some in Hfu as (Hinu & _).
    destruct (calculate_points _ user) as [new_points|e] eqn:Hp; [|discriminate].
    injection C as -> _.
    assert (Hnp : 0 <= new_points)
      by (eapply calculate_points_nonneg; [|exact Hp]; lia).
    unfold consistent, user_points.
    cbn [users sessions committed with_users with_sessions].
    set (s2 := PracticeSession.set_points_earned (apply_update upd s) new_points).
    assert (Hs' : forall x, In x (replace_session s2 (sessions db)) ->
              0 <= PracticeSession.duration_minutes x
              /\ 0 <= PracticeSession.points_earned x)
      by (apply Hrows; cbn; lia).
    split; [|split; [exact Hs'|]].
    + unfold replace_session. now rewrite replace_keys.
    + intros u Hx. unfold user_points. cbn [sessions].
      rewrite (Hsum s2 new_points) by (cbn; congruence).
      unfold replace_user, replace_row in Hx.
      apply in_map_iff in Hx as (r & <- & Hr).
      change (User.id (repointed user (new_points - PracticeSession.points_earned s)))
        with (User.id user).
      destruct (User.id r =? User.id user) eqn:E.
      * change (User.id (repointed user (new_points - PracticeSession.points_earned s)))
          with (User.id user).
        rewrite Hid, Z.eqb_refl. pose proof (Hu user Hinu) as Ht.
        assert (Htot : User.total_points
                         (repointed user (new_points - PracticeSession.points_earned s))
                       = user_points db (User.id user)
                         + (new_points - PracticeSession.points_earned s))
          by (cbn; lia).
        rewrite <- Hid; exact Htot.
      * apply Z.eqb_neq in E. pose proof (Hu r Hr) as Ht.
        replace (PracticeSession.user_id s =? User.id r) with false
          by (symmetry; apply Z.eqb_neq; congruence).
        lia.
  - injection C as -> _.
    unfold consistent, user_points.
    cbn [users sessions committed with_sessions].
    split; [|split].
    + unfold replace_session. now rewrite replace_keys.
    + apply Hrows; lia.
    + intros u Hx. unfold user_points. cbn [sessions].
      rewrite (Hsum _ (PracticeSession.points_earned s)) by congruence.
      pose proof (Hu u Hx) as Ht.
      destruct (PracticeSession.user_id s =? User.id u); lia.
Qed.

Lemma delete_practice_session_sessions session_id db db' a :
  delete_practice_session session_id db = (db', Ok a) ->
  sessions db' = match find (fun s => PracticeSession.id s =? session_id) (sessions db) with
                 | None => sessions db
                 | Some s => without_session (PracticeSession.id s) (sessions db)
                 end.
Proof.
  intros H. apply delete_practice_session_ok in H.
  destruct (find _ (sessions db)) as [s|] eqn:Hs.
  - destruct H as (_ & _ & ->). now rewrite (find_key _ _ _ _ Hs).
  - destruct H as (-> & _). reflexivity.
Qed.

Lemma delete_practice_session_consistent session_id db db' a :
  consistent db ->
  delete_practice_session session_id db = (db', Ok a) ->
  consistent db'.
Proof.
  intros (Hnd & Hs & Hu) Hrun.
  pose proof (delete_practice_session_sessions _ _ _ _ Hrun) as Cs.
  pose proof (delete_practice_session_users _ _ _ _ Hrun) as Cu.
  destruct (find _ (sessions db)) as [s|] eqn:Hf.
  2:{ unfold consistent, user_points. rewrite Cs, Cu. exact (conj Hnd (conj Hs Hu)). }
  apply find_some in Hf as (Hin & _).
  assert (Hs' : forall x, In x (sessions db') ->
            0 <= PracticeSession.duration_minutes x
            /\ 0 <= PracticeSession.points_earned x).
  { intros x. rewrite Cs. unfold without_session. intros Hx.
    apply filter_In in Hx as (Hx & _). now apply Hs. }
  assert (Hsum : forall i, user_points db' i = user_points db i - points_for i s).
  { intros i. unfold user_points. rewrite Cs. unfold without_session.
    now rewrite (sum_remove PracticeSession.id (points_for i) s). }
  split; [|split; [exact Hs'|]].
  - rewrite Cs. unfold without_session. rewrite filter_keys. now apply NoDup_filter.
  - intros u. rewrite Cu. unfold refund_step.
    destruct (find _ (users db)) as [user|] eqn:Hfu.
    + pose proof (find_key _ _ _ _ Hfu) as Hid. apply find_some in Hfu as (Hinu & _).
      cbn [users with_users]. unfold replace_user, replace_row. intros Hx.
      apply in_map_iff in Hx as (r & <- & Hr).
      change (User.id (refunded user (PracticeSession.points_earned s)))
        with (User.id user).
      destruct (User.id r =? User.id user) eqn:E.
      * change (User.id (refunded user (PracticeSession.points_earned s)))
          with (User.id user).
        pose proof (Hu user Hinu) as Ht.
        pose proof (user_points_nonneg db' (User.id user)
                      (fun x Hx => proj2 (Hs' x Hx))) as Hnn.
        assert (Hpf : points_for (User.id user) s = PracticeSession.points_earned s)
          by (unfold points_for; rewrite Hid, Z.eqb_refl; reflexivity).
        rewrite Hsum, Hpf in Hnn |- *.
        assert (Htot : User.total_points (refunded user (PracticeSession.points_earned s))
                       = user_points db (User.id user) - PracticeSession.points_earned s)
          by (cbn; lia).
        exact Htot.
      * apply Z.eqb_neq in E. pose proof (Hu r Hr) as Ht.
        rewrite Hsum. unfold points_for.
        replace (PracticeSession.user_id s =? User.id r) with false
          by (symmetry; apply Z.eqb_neq; congruence).
        lia.
    + intros Hx. pose proof (Hu u Hx) as Ht.
      rewrite Hsum. unfold points_for.
      pose proof (find_none _ _ Hfu u Hx) as Hne. cbn beta in Hne.
      apply Z.eqb_neq in Hne.
      replace (PracticeSession.user_id s =? User.id u) with false
        by (symmetry; apply Z.eqb_neq; congruence).
      lia.
Qed.

Lemma replace_row_In {A} (key : A -> Z) (x : A) rows r :
  In r (replace_row key x rows) -> r = x \/ In r rows.
Proof.
  unfold replace_row. intros H. apply in_map_iff in H as (y & <- & Hy).
  destruct (key y =? key x); auto.
Qed.

(** A user row after a completed operation is a row of before, or the row
    the operation wrote, which went through [update_user_level]. *)
Lemma users_after_operation op db db' :
  run_operation op db = (db', Ok tt) ->
  forall u, In u (users db') ->
    In u (users db) \/ User.level u = User.total_points u / 100 + 1.
Proof.
  intros Hrun u.
  destruct op as [today session|session_id upd|session_id]; cbn [run_operation] in Hrun;
    apply forget_ok in Hrun as (Hfst & a & Hsnd).
  - pose proof (create_practice_session_tables today session db) as C. cbv zeta in C.
    destruct (find _ (users db)) as [user|]; [|rewrite C in Hsnd; discriminate].
    destruct (calculate_points _ _) as [points|e]; [|rewrite C in Hsnd; discriminate].
    destruct C as (Cu & _). rewrite <- Hfst, Cu. intros H.
    apply replace_row_In in H as [->|H]; [right; reflexivity|now left].
  - pose proof (update_practice_session_tables session_id upd db) as C. cbv zeta in C.
    destruct (find _ (sessions db)) as [s|];
      [|rewrite C in Hfst; cbn [fst] in Hfst; subst; now left].
    destruct (focus_changed upd (PracticeSession.focus_rating s)).
    + destruct (find _ (users db)) as [user|]; [|rewrite C in Hsnd; discriminate].
      destruct (calculate_points _ user) as [new_points|e];
        [|rewrite C in Hsnd; discriminate].
      rewrite C in Hfst. cbn [fst] in Hfst. subst db'.
      cbn [users committed with_users]. intros H.
      apply replace_row_In in H as [->|H]; [right; reflexivity|now left].
    + rewrite C in Hfst. cbn [fst] in Hfst. subst db'. now left.
  - rewrite (delete_practice_session_users session_id db db' a)
      by (rewrite <- Hfst, <- Hsnd; apply surjective_pairing).
    destruct (find _ (sessions db)) as [s|]; [|now left].
    unfold refund_step. destruct (find _ (users db)) as [user|]; [|now left].
    cbn [users with_users]. intros H.
    apply replace_row_In in H as [->|H]; [right; reflexivity|now left].
Qed.

(** C10 (amended): from a store in which every user's [total_points] is
    the sum of the points of their stored sessions, with unique session keys
    and no negative duration or points, each completed operation (a session
    created with a non-negative duration, updated or deleted) leaves such a
    store, and in it every user has non-negative points.  A user row is as
    it was before, or it went through the level resolver and has a level of
    at least 1: so the levels are at least 1 after the operation if they
    were before. *)
Theorem points_stay_nonnegative op db db' :
  consistent db ->
  match op with
  | Create _ session => 0 <= PracticeSessionCreate.duration_minutes session
  | _ => True
  end ->
  run_operation op db = (db', Ok tt) ->
  consistent db'
  /\ (forall u, In u (users db') -> 0 <= User.total_points u)
  /\ (forall u, In u (users db') ->
        In u (users db)
        \/ (User.level u = User.total_points u / 100 + 1 /\ 1 <= User.level u))
  /\ ((forall u, In u (users db) -> 1 <= User.level u) ->
      forall u, In u (users db') -> 1 <= User.level u).
Proof.
  intros Hc Hop Hrun.
  assert (Hc' : consistent db').
  { destruct op as [today session|session_id upd|session_id]; cbn [run_operation] in Hrun;
      apply forget_ok in Hrun as (Hfst & a & Hsnd).
    - eapply create_practice_session_consistent; [exact Hc|exact Hop|].
      rewrite <- Hfst, <- Hsnd. apply surjective_pairing.
    - eapply update_practice_session_consistent; [exact Hc|].
      rewrite <- Hfst, <- Hsnd. apply surjective_pairing.
    - eapply delete_practice_session_consistent; [exact Hc|].
      rewrite <- Hfst, <- Hsnd. apply surjective_pairing. }
  pose proof (consistent_nonneg db' Hc') as Hnn.
  assert (Hrows : forall u, In u (users db') ->
            In u (users db)
            \/ (User.level u = User.total_points u / 100 + 1 /\ 1 <= User.level u)).
  { intros u Hu. destruct (users_after_operation op db db' Hrun u Hu) as [H|H]; [now left|].
    right. split; [exact H|]. rewrite H.
    pose proof (Z.div_pos (User.total_points u) 100 (Hnn u Hu) ltac:(lia)). lia. }
  split; [exact Hc'|]. split; [exact Hnn|]. split; [exact Hrows|].
  intros Hl u Hu. destruct (Hrows u Hu) as [H|(_ & H)]; auto.
Qed.

(** ** The properties at concrete inputs *)

Lemma level_after_point_mutation_witness :
  point_user (Create 100 (morning_session 1)) studio = Some 1
  /\ run_operation (Create 100 (morning_session 1)) studio = (studio_after, Ok tt)
  /\ find (fun u => User.id u =? 1) (users studio_after)
     = Some (User.mk 1 (Some 7) 3 57 1 (Some 100))
  /\ User.level (User.mk 1 (Some 7) 3 57 1 (Some 100))
     = User.total_points (User.mk 1 (Some 7) 3 57 1 (Some 100)) / 100 + 1.
Proof.
  assert (H1 : point_user (Create 100 (morning_session 1)) studio = Some 1)
    by reflexivity.
  assert (H2 : run_operation (Create 100 (morning_session 1)) studio = (studio_after, Ok tt))
    by (vm_compute; reflexivity).
  assert (H3 : find (fun u => User.id u =? 1) (users studio_after)
               = Some (User.mk 1 (Some 7) 3 57 1 (Some 100)))
    by (vm_compute; reflexivity).
  exact (conj H1 (conj H2 (conj H3
           (level_after_point_mutation _ _ _ _ _ H1 H2 H3)))).
Defined.

Lemma calculate_points_exact_witness :
  calculate_points
    (PracticeSession.mk 1 1 (DateTime.mk 100 6) 40 (Some 5) None None None 0)
    (User.mk 1 (Some 7) 3 0 1 (Some 100))
  = Ok (exact_points 40 (Some 5) 3).
Proof.
  apply (calculate_points_exact
           (PracticeSession.mk 1 1 (DateTime.mk 100 6) 40 (Some 5) None None None 0)
           (User.mk 1 (Some 7) 3 0 1 (Some 100))).
  cbn. lia.
Defined.

Lemma create_practice_session_unknown_user_witness :
  create_practice_session 100 (morning_session 3) studio
  = (studio, Raise (ValueError "User not found")).
Proof.
  apply (create_practice_session_unknown_user 100 (morning_session 3) studio).
  reflexivity.
Defined.

Lemma calculate_task_readiness_range_witness :
  exists r,
    calculate_task_readiness studio_after
      (PracticeTask.mk 1 1 60 30 1 IN_PROGRESS (PyFloat.literal 50 1)) = Ok r
    /\ PyFloat.leb PyFloat.zero r = true
    /\ PyFloat.leb r (PyFloat.literal 100 1) = true.
Proof.
  destruct (calculate_task_readiness_range studio_after
              (PracticeTask.mk 1 1 60 30 1 IN_PROGRESS (PyFloat.literal 50 1)))
    as (r & H1 & H2 & H3 & _).
  - intros st [<-|[]]. eexists. split; [reflexivity|].
    unfold ratings_ok, rating_ok. cbn. repeat split; lia.
  - cbn. lia.
  - exists r. auto.
Defined.

Lemma delete_practice_session_linked_fails_witness :
  exists db',
    delete_practice_session 1 studio_after = (db', Raise IntegrityError)
    /\ users db' = users studio_after
    /\ tasks db' = tasks studio_after
    /\ sessions db' = sessions studio_after.
Proof.
  destruct (delete_practice_session_linked_fails 1 studio_after
              (PracticeSession.mk 1 1 (DateTime.mk 100 6) 40 (Some 5) None None None 57))
    as (_ & H).
  - reflexivity.
  - discriminate.
  - destruct H as (db' & Hrun & Hu & Ht & Hs & _).
    + intros st [<-|[]]. discriminate.
    + exists db'. auto.
Defined.



Lemma points_stay_nonnegative_witness :
  consistent newcomer
  /\ consistent (fst (create_practice_session 100 (morning_session 1) newcomer))
  /\ forall u,
       In u (users (fst (create_practice_session 100 (morning_session 1) newcomer))) ->
       0 <= User.total_points u.
Proof.
  assert (H0 : consistent newcomer).
  { split; [constructor|]. split; [intros s []|].
    intros u [<-|[]]; reflexivity. }
  split; [exact H0|].
  destruct (points_stay_nonnegative (Create 100 (morning_session 1)) newcomer
              (fst (create_practice_session 100 (morning_session 1) newcomer)) H0)
    as (H1 & H2 & _).
  - cbn. lia.
  - vm_compute. reflexivity.
  - split; assumption.
Defined.

(** * Further properties of the session operations *)

Lemma committed_committed db : committed (committed db) = committed db.
Proof. unfold committed. cbn. now rewrite !app_nil_r. Qed.

Lemma apply_update_twice upd s : apply_update upd (apply_update upd s) = apply_update upd s.
Proof.
  destruct upd as [[f|] [p|] [e|] [n|]], s; reflexivity.
Qed.

Lemma apply_update_points upd s p :
  apply_update upd (PracticeSession.set_points_earned s p)
  = PracticeSession.set_points_earned (apply_update upd s) p.
Proof.
  destruct upd as [[f|] [p'|] [e|] [n|]], s; reflexivity.
Qed.

Lemma option_Z_eqb_refl a : option_Z_eqb a a = true.
Proof. destruct a; cbn; [apply Z.eqb_refl|reflexivity]. Qed.

Lemma focus_changed_after upd s :
  focus_changed upd (PracticeSession.focus_rating (apply_update upd s)) = false.
Proof.
  unfold focus_changed.
  destruct upd as [[f|] [p|] [e|] [n|]], s; cbn; try reflexivity;
    now rewrite option_Z_eqb_refl.
Qed.

Lemma replace_row_fixed {A} (key : A -> Z) (x : A) rows :
  replace_row key x (replace_row key x rows) = replace_row key x rows.
Proof. now apply replace_twice. Qed.

(** X1: a repeated [update_practice_session] with the same payload changes
    nothing and returns the same session. *)
Theorem update_practice_session_idempotent session_id upd db db1 r :
  update_practice_session session_id upd db = (db1, Ok r) ->
  update_practice_session session_id upd db1 = (db1, Ok r).
Proof.
  intros H1.
  pose proof (update_practice_session_tables session_id upd db) as T. cbv zeta in T.
  destruct (find (fun s => PracticeSession.id s =? session_id) (sessions db)) as [s|] eqn:Es.
  - pose proof (find_key PracticeSession.id _ _ _ Es) as Hid.
    destruct (apply_update_frame upd s) as (Aid & Auid & _ & Apts & _).
    pose proof (update_practice_session_tables session_id upd db1) as T1. cbv zeta in T1.
    destruct (focus_changed upd (PracticeSession.focus_rating s)) eqn:Ef.
    + destruct (find (fun u => User.id u =? PracticeSession.user_id s) (users db)) as [u|];
        [|rewrite T in H1; discriminate].
      destruct (calculate_points (apply_update upd s) u) as [p|e];
        [|rewrite T in H1; discriminate].
      rewrite T in H1. injection H1 as <- <-.
      set (s2 := PracticeSession.set_points_earned (apply_update upd s) p) in *.
      assert (Es2 : find (fun s => PracticeSession.id s =? session_id)
                         (replace_session s2 (sessions db)) = Some s2).
      { apply (find_replace_same PracticeSession.id s2 session_id _ s); [|exact Es].
        subst s2. destruct (apply_update upd s); cbn in *; congruence. }
      cbn [committed sessions with_users with_sessions] in T1. rewrite Es2 in T1.
      assert (Eu : apply_update upd s2 = s2).
      { subst s2. now rewrite apply_update_points, apply_update_twice. }
      assert (Ef2 : focus_changed upd (PracticeSession.focus_rating s2) = false).
      { rewrite <- Eu. apply focus_changed_after. }
      rewrite Ef2, Eu in T1. rewrite T1. f_equal.
      unfold committed, with_sessions, with_users, replace_session. cbn.
      now rewrite replace_row_fixed, !app_nil_r.
    + rewrite T in H1. injection H1 as <- <-.
      set (s1 := apply_update upd s) in *.
      assert (Es1 : find (fun s => PracticeSession.id s =? session_id)
                         (replace_session s1 (sessions db)) = Some s1).
      { apply (find_replace_same PracticeSession.id s1 session_id _ s); [|exact Es].
        congruence. }
      cbn [committed sessions with_users with_sessions] in T1. rewrite Es1 in T1.
      assert (Eu : apply_update upd s1 = s1) by apply apply_update_twice.
      assert (Ef2 : focus_changed upd (PracticeSession.focus_rating s1) = false)
        by apply focus_changed_after.
      rewrite Ef2, Eu in T1. rewrite T1. f_equal.
      unfold committed, with_sessions, replace_session. cbn.
      now rewrite replace_row_fixed, !app_nil_r.
  - rewrite T in H1. injection H1 as <- <-.
    pose proof (update_practice_session_tables session_id upd db) as T1. cbv zeta in T1.
    now rewrite Es in T1.
Qed.

(** X2: [update_practice_session] moves points only when the payload carries a
    focus rating that differs from the stored one: then the session gets the
    recomputed points and the user's total moves by exactly the difference;
    otherwise the users table and the session's points stay as they are. *)
Theorem update_practice_session_point_delta session_id upd db s user :
  find (fun s => PracticeSession.id s =? session_id) (sessions db) = Some s ->
  find (fun u => User.id u =? PracticeSession.user_id s) (users db) = Some user ->
  let r := update_practice_session session_id upd db in
  if focus_changed upd (PracticeSession.focus_rating s) then
    forall new_points,
      calculate_points (apply_update upd s) user = Ok new_points ->
      exists s' user',
        snd r = Ok (Some s')
        /\ PracticeSession.points_earned s' = new_points
        /\ find (fun s => PracticeSession.id s =? session_id) (sessions (fst r)) = Some s'
        /\ find (fun u => User.id u =? PracticeSession.user_id s) (users (fst r)) = Some user'
        /\ User.total_points user'
           = User.total_points user + (new_points - PracticeSession.points_earned s)
        /\ User.streak_count user' = User.streak_count user
  else
    exists s',
      snd r = Ok (Some s')
      /\ PracticeSession.points_earned s' = PracticeSession.points_earned s
      /\ users (fst r) = users db.
Proof.
  intros Es Eu r. subst r.
  pose proof (update_practice_session_tables session_id upd db) as T. cbv zeta in T.
  rewrite Es in T.
  pose proof (find_key PracticeSession.id _ _ _ Es) as Hid.
  pose proof (find_key User.id _ _ _ Eu) as Huid.
  destruct (apply_update_frame upd s) as (Aid & Auid & _ & Apts & _).
  destruct (focus_changed upd (PracticeSession.focus_rating s)).
  - intros new_points Hp. rewrite Eu, Hp in T. rewrite T. cbn [fst snd].
    set (s2 := PracticeSession.set_points_earned (apply_update upd s) new_points).
    exists s2, (repointed user (new_points - PracticeSession.points_earned s)).
    split; [reflexivity|]. split; [reflexivity|]. split.
    { cbn [committed sessions with_users with_sessions].
      apply (find_replace_same PracticeSession.id s2 session_id _ s); [|exact Es].
      subst s2. destruct (apply_update upd s); cbn in *; congruence. }
    split.
    { cbn [committed users with_users with_sessions].
      apply (find_replace_same User.id _ _ _ user); [|exact Eu].
      destruct user; cbn in *; congruence. }
    split; destruct user; reflexivity.
  - rewrite T. cbn [fst snd]. exists (apply_update upd s).
    split; [reflexivity|]. split; [exact Apts|reflexivity].
Qed.

(** X3: once [delete_practice_session] has removed a session, which it does
    only for a session without links, the session can no longer be fetched,
    and deleting it again reports [False] and changes nothing. *)
Theorem delete_practice_session_twice session_id db db' :
  delete_practice_session session_id db = (db', Ok true) ->
  get_practice_session session_id db' = (db', Ok None)
  /\ delete_practice_session session_id db' = (db', Ok false)
  /\ session_links db session_id = [].
Proof.
  intros H.
  assert (Hl : session_links db session_id = []).
  { pose proof (delete_practice_session_ok _ _ _ _ H) as K.
    destruct (find _ (sessions db)); [apply K|]. destruct K as (_ & K). discriminate. }
  pose proof (delete_practice_session_sessions _ _ _ _ H) as Hs.
  assert (Hnone : find (fun s => PracticeSession.id s =? session_id) (sessions db') = None).
  { destruct (find (fun s => PracticeSession.id s =? session_id) (sessions db)) as [s|] eqn:Es.
    - pose proof (find_key PracticeSession.id _ _ _ Es) as Hid.
      rewrite Hs, Hid. unfold without_session.
      destruct (find _ (filter _ _)) as [x|] eqn:Ex; [|reflexivity].
      apply find_some in Ex as (Hin & Hx). apply filter_In in Hin as (_ & Hn).
      rewrite Hx in Hn. discriminate.
    - rewrite delete_practice_session_run, Es in H. discriminate. }
  split; [|split; [|exact Hl]].
  - rewrite run_get_practice_session. now rewrite Hnone.
  - now rewrite delete_practice_session_run, Hnone.
Qed.

(** * A session created: the whole store *)

(** The store once the session row is stored and committed. *)
Definition session_stored (today : Z) (session : PracticeSessionCreate.t) (db : Store)
           (user : User.t) (points : Z) : Store :=
  committed
    (with_sessions
       (with_users db (replace_user (rewarded today user points) (users db)))
       (sessions db ++ [stored_session db session points])).

(** The store once [check_and_award_badges] has run. *)
Definition badged (db : Store) (user : User.t) (session : PracticeSession.t) : Store :=
  committed (with_new_badges db (new_badges db ++ newly_granted db user session)).

Lemma create_practice_session_run today session db user points :
  find (fun u => User.id u =? PracticeSessionCreate.user_id session) (users db) = Some user ->
  calculate_points (mk_session session) (update_streak today user) = Ok points ->
  let s' := stored_session db session points in
  let u' := rewarded today user points in
  let db1 := session_stored today session db user points in
  create_practice_session today session db
  = match (match PracticeSessionCreate.tasks session with
           | [] => (db1, Ok tt)
           | task_list => (for_each task_list (link_task s') ;; commit) db1
           end) with
    | (db2, Ok _) => (badged db2 u' s', Ok s')
    | (db2, Raise e) => (db2, Raise e)
    end.
Proof.
  intros Hu Hp. cbv zeta. unfold create_practice_session.
  rewrite run_bind, run_get_user, Hu.
  rewrite run_bind, run_assign_user, run_bind, run_lift, Hp.
  rewrite run_bind, run_assign_user, run_bind, run_assign_user.
  rewrite run_bind. unfold add_session at 1. cbv beta zeta.
  rewrite run_bind, run_commit.
  pose proof (update_streak_frame today user) as (Hs & _).
  match goal with
  | |- context [committed ?d] =>
      replace (committed d) with (session_stored today session db user points)
  end.
  2:{ unfold session_stored, with_sessions, with_users, replace_user.
      cbn [users tasks sessions session_tasks badges new_session_tasks new_badges].
      rewrite !replace_twice; [reflexivity|idtac..];
        cbn [User.id update_user_level User.set_total_points User.set_level]; congruence. }
  rewrite run_bind.
  destruct (PracticeSessionCreate.tasks session) as [|td l].
  - rewrite run_ret, run_bind, check_and_award_badges_run. reflexivity.
  - destruct ((for_each (td :: l) (link_task _) ;; commit) _) as [db2 [[]|e]];
      [|reflexivity].
    rewrite run_bind, check_and_award_badges_run. reflexivity.
Qed.

(** ** The loop over [session.tasks] *)

(** The link row [link_task] adds for an entry of the payload. *)
Definition link_of (db_session : PracticeSession.t) (task_data : SessionTaskCreate.t)
  : SessionTask.t :=
  SessionTask.mk (PracticeSession.id db_session)
                 (SessionTaskCreate.task_id task_data)
                 (SessionTaskCreate.minutes_spent task_data).

(** [NOT_STARTED] becomes [IN_PROGRESS]; the other states stay. *)
Definition started (status : TaskStatus) : TaskStatus :=
  match status with
  | NOT_STARTED => IN_PROGRESS
  | other => other
  end.

(** A task object after one entry: time, count and status. *)
Definition linked (task : PracticeTask.t) (minutes : Z) : PracticeTask.t :=
  let task := PracticeTask.set_total_time_practiced task
                (PracticeTask.total_time_practiced task + minutes) in
  let task := PracticeTask.set_practice_count task (PracticeTask.practice_count task + 1) in
  match PracticeTask.status task with
  | NOT_STARTED => PracticeTask.set_status task IN_PROGRESS
  | _ => task
  end.

Definition with_new_session_tasks (db : Store) (l : list SessionTask.t) : Store :=
  mkStore (users db) (tasks db) (sessions db) (session_tasks db) (badges db)
          l (new_badges db).

Lemma readiness_loop_reads db db' l :
  sessions db' = sessions db ->
  forall acc, readiness_loop db' acc l = readiness_loop db acc l.
Proof.
  intros Hs. induction l as [|st l IH]; intros acc; [reflexivity|].
  cbn [readiness_loop].
  replace (readiness_round db' acc st) with (readiness_round db acc st)
    by (unfold readiness_round; now rewrite Hs).
  destruct (readiness_round db acc st) as [acc'|e]; [|reflexivity].
  cbn [result_bind]. apply IH.
Qed.

Lemma calculate_task_readiness_reads db db' task :
  sessions db' = sessions db -> session_tasks db' = session_tasks db ->
  calculate_task_readiness db' task = calculate_task_readiness db task.
Proof.
  intros Hs Hl. unfold calculate_task_readiness, task_links. rewrite Hl.
  now rewrite (readiness_loop_reads db db').
Qed.

Lemma linked_frame task minutes :
  PracticeTask.id (linked task minutes) = PracticeTask.id task
  /\ PracticeTask.user_id (linked task minutes) = PracticeTask.user_id task
  /\ PracticeTask.estimated_minutes (linked task minutes)
     = PracticeTask.estimated_minutes task
  /\ PracticeTask.total_time_practiced (linked task minutes)
     = PracticeTask.total_time_practiced task + minutes
  /\ PracticeTask.practice_count (linked task minutes) = PracticeTask.practice_count task + 1
  /\ PracticeTask.status (linked task minutes) = started (PracticeTask.status task).
Proof. destruct task as [i u e t c [] r]; cbn; auto 10. Qed.

Lemma run_link_task db_session task_data db :
  let db0 := with_new_session_tasks db
               (new_session_tasks db ++ [link_of db_session task_data]) in
  link_task db_session task_data db
  = match find (fun k => PracticeTask.id k =? SessionTaskCreate.task_id task_data)
               (tasks db) with
    | None => (db0, Ok tt)
    | Some task =>
        let task := linked task (SessionTaskCreate.minutes_spent task_data) in
        match calculate_task_readiness db task with
        | Ok readiness =>
            (with_tasks db0
               (replace_task (PracticeTask.set_readiness_score task readiness) (tasks db)),
             Ok tt)
        | Raise e => (with_tasks db0 (replace_task task (tasks db)), Raise e)
        end
    end.
Proof.
  cbv zeta. unfold link_task.
  rewrite run_bind. unfold add_session_task, modify at 1. cbv beta.
  fold (link_of db_session task_data).
  rewrite run_bind, run_get_task. cbn [tasks].
  destruct (find _ (tasks db)) as [task|] eqn:Ek; [|reflexivity].
  rewrite run_bind, run_assign_task, run_bind, run_assign_task.
  cbn [tasks with_tasks].
  set (t1 := PracticeTask.set_total_time_practiced task _).
  set (t2 := PracticeTask.set_practice_count t1 _).
  assert (E12 : PracticeTask.id t1 = PracticeTask.id t2) by (destruct task; reflexivity).
  unfold replace_task. rewrite (replace_twice PracticeTask.id) by exact E12.
  rewrite run_bind.
  assert (Hl : forall db1 (t3 : PracticeTask.t),
            PracticeTask.id t2 = PracticeTask.id t3 ->
            sessions db1 = sessions db -> session_tasks db1 = session_tasks db ->
            (readiness <- (fun db => (db, calculate_task_readiness db t3)) ;;
             put_task (PracticeTask.set_readiness_score t3 readiness))
              (with_tasks db1 (replace_row PracticeTask.id t3 (tasks db)))
            = match calculate_task_readiness db t3 with
              | Ok readiness =>
                  (with_tasks db1
                     (replace_row PracticeTask.id
                        (PracticeTask.set_readiness_score t3 readiness) (tasks db)),
                   Ok tt)
              | Raise e => (with_tasks db1 (replace_row PracticeTask.id t3 (tasks db)), Raise e)
              end).
  { intros db1 t3 E23 Hs Hst. rewrite run_bind.
    rewrite (calculate_task_readiness_reads db) by (cbn; assumption).
    destruct (calculate_task_readiness db t3) as [r|e]; [|reflexivity].
    rewrite run_put_task. cbn [tasks with_tasks]. unfold replace_task.
    rewrite (replace_twice PracticeTask.id) by (destruct t3; reflexivity).
    reflexivity. }
  unfold linked. fold t1. fold t2.
  destruct (PracticeTask.status t2) eqn:Est.
  - rewrite run_assign_task. cbn [tasks with_tasks]. unfold replace_task.
    rewrite (replace_twice PracticeTask.id) by (destruct t2; reflexivity).
    apply (Hl (with_new_session_tasks db _)); [destruct t2|..]; reflexivity.
  - rewrite run_ret. apply (Hl (with_new_session_tasks db _)); reflexivity.
  - rewrite run_ret. apply (Hl (with_new_session_tasks db _)); reflexivity.
Qed.

(** What the loop has done to a task that [count] entries with [minutes] in
    all refer to. *)
Definition grown (task task' : PracticeTask.t) (minutes count : Z) : Prop :=
  PracticeTask.id task' = PracticeTask.id task
  /\ PracticeTask.user_id task' = PracticeTask.user_id task
  /\ PracticeTask.estimated_minutes task' = PracticeTask.estimated_minutes task
  /\ PracticeTask.total_time_practiced task' = PracticeTask.total_time_practiced task + minutes
  /\ PracticeTask.practice_count task' = PracticeTask.practice_count task + count
  /\ (count = 0 -> task' = task)
  /\ (count <> 0 -> PracticeTask.status task' = started (PracticeTask.status task)).

Lemma started_started status : started (started status) = started status.
Proof. now destruct status. Qed.

Lemma link_count_nonneg i l : 0 <= link_count i l.
Proof. unfold link_count. lia. Qed.

Lemma link_minutes_cons i st l :
  link_minutes i (st :: l)
  = (if SessionTask.task_id st =? i then SessionTask.minutes_spent st else 0)
    + link_minutes i l.
Proof.
  unfold link_minutes, links_to, sum_Z. cbn [filter].
  destruct (SessionTask.task_id st =? i); cbn [map fold_right]; lia.
Qed.

Lemma link_count_cons i st l :
  link_count i (st :: l)
  = (if SessionTask.task_id st =? i then 1 else 0) + link_count i l.
Proof.
  unfold link_count, links_to. cbn [filter].
  destruct (SessionTask.task_id st =? i); cbn [List.length]; lia.
Qed.

Lemma link_loop db_session l : forall db db2,
  for_each l (link_task db_session) db = (db2, Ok tt) ->
  users db2 = users db /\ sessions db2 = sessions db
  /\ session_tasks db2 = session_tasks db
  /\ badges db2 = badges db /\ new_badges db2 = new_badges db
  /\ new_session_tasks db2 = new_session_tasks db ++ map (link_of db_session) l
  /\ forall i,
       match find (fun k => PracticeTask.id k =? i) (tasks db) with
       | None => find (fun k => PracticeTask.id k =? i) (tasks db2) = None
       | Some task =>
           exists task',
             find (fun k => PracticeTask.id k =? i) (tasks db2) = Some task'
             /\ grown task task' (link_minutes i (map (link_of db_session) l))
                      (link_count i (map (link_of db_session) l))
       end.
Proof.
  induction l as [|td l IH]; intros db db2 H.
  - cbn [for_each] in H. rewrite run_ret in H. injection H as <-.
    rewrite app_nil_r. repeat split; try reflexivity.
    intros i. destruct (find _ (tasks db)) as [task|]; [|reflexivity].
    exists task. split; [reflexivity|].
    unfold grown. cbn. repeat split; try lia; intros; congruence.
  - cbn [for_each] in H. rewrite run_bind in H.
    pose proof (run_link_task db_session td db) as Hstep. cbv zeta in Hstep.
    destruct (link_task db_session td db) as [dbA [[]|e]]; [|discriminate].
    specialize (IH _ _ H) as (Hu & Hs & Hst & Hb & Hnb & Hnst & Ht).
    assert (Hframe : users dbA = users db /\ sessions dbA = sessions db
                     /\ session_tasks dbA = session_tasks db
                     /\ badges dbA = badges db /\ new_badges dbA = new_badges db
                     /\ new_session_tasks dbA
                        = new_session_tasks db ++ [link_of db_session td]).
    { destruct (find _ (tasks db)); [destruct (calculate_task_readiness db _)|];
        inversion Hstep; cbn; auto 10. }
    destruct Hframe as (F1 & F2 & F3 & F4 & F5 & F6).
    rewrite Hnst, F6, <- app_assoc.
    split; [congruence|]. split; [congruence|]. split; [congruence|].
    split; [congruence|]. split; [congruence|]. split; [reflexivity|].
    intros i. specialize (Ht i). cbn [map].
    rewrite link_minutes_cons, link_count_cons.
    change (SessionTask.task_id (link_of db_session td))
      with (SessionTaskCreate.task_id td).
    change (SessionTask.minutes_spent (link_of db_session td))
      with (SessionTaskCreate.minutes_spent td).
    set (m := link_minutes i _) in *. set (c := link_count i _) in *.
    assert (Hc : 0 <= c) by apply link_count_nonneg.
    clearbody m c.
    destruct (find (fun k => PracticeTask.id k =? SessionTaskCreate.task_id td) (tasks db))
      as [task|] eqn:Ek.
    + destruct (calculate_task_readiness db _) as [r|e] eqn:Er; [|discriminate].
      injection Hstep as ->. cbn [tasks with_tasks] in Ht.
      set (tA := PracticeTask.set_readiness_score
                   (linked task (SessionTaskCreate.minutes_spent td)) r) in *.
      assert (FA : PracticeTask.id tA = PracticeTask.id task
                   /\ PracticeTask.user_id tA = PracticeTask.user_id task
                   /\ PracticeTask.estimated_minutes tA = PracticeTask.estimated_minutes task
                   /\ PracticeTask.total_time_practiced tA
                      = PracticeTask.total_time_practiced task
                        + SessionTaskCreate.minutes_spent td
                   /\ PracticeTask.practice_count tA = PracticeTask.practice_count task + 1
                   /\ PracticeTask.status tA = started (PracticeTask.status task)).
      { destruct (linked_frame task (SessionTaskCreate.minutes_spent td))
          as (L1 & L2 & L3 & L4 & L5 & L6).
        subst tA. destruct (linked task _); cbn in *. auto 10. }
      destruct FA as (A1 & A2 & A3 & A4 & A5 & A6).
      pose proof (find_key PracticeTask.id _ _ _ Ek) as Hid.
      clearbody tA.
      destruct (Z.eqb_spec (SessionTaskCreate.task_id td) i) as [<-|Hne].
      * rewrite Ek. unfold replace_task in Ht.
        rewrite (find_replace_same PracticeTask.id tA _ _ task) in Ht by congruence.
        destruct Ht as (task' & Hf & G1 & G2 & G3 & G4 & G5 & G6 & G7).
        exists task'. split; [exact Hf|].
        unfold grown. split; [congruence|]. split; [congruence|]. split; [congruence|].
        split; [lia|]. split; [lia|]. split; [lia|].
        intros _. destruct (Z.eq_dec c 0) as [E0|E0].
        -- rewrite (G6 E0). exact A6.
        -- rewrite (G7 E0), A6. apply started_started.
      * unfold replace_task in Ht.
        rewrite (find_replace_other PracticeTask.id tA i) in Ht by congruence.
        exact Ht.
    + injection Hstep as ->. cbn [tasks with_tasks with_new_session_tasks] in Ht.
      destruct (Z.eqb_spec (SessionTaskCreate.task_id td) i) as [<-|Hne].
      * rewrite Ek in *. exact Ht.
      * exact Ht.
Qed.

Lemma badged_frame db user session :
  users (badged db user session) = users db
  /\ tasks (badged db user session) = tasks db
  /\ sessions (badged db user session) = sessions db
  /\ session_tasks (badged db user session) = session_tasks db ++ new_session_tasks db
  /\ badges (badged db user session)
     = badges db ++ new_badges db ++ newly_granted db user session.
Proof. unfold badged. cbn. auto. Qed.

(** Everything a successful [create_practice_session] leaves in the store. *)
Lemma create_practice_session_store today session db db' s' :
  create_practice_session today session db = (db', Ok s') ->
  exists user points,
    find (fun u => User.id u =? PracticeSessionCreate.user_id session) (users db) = Some user
    /\ calculate_points (mk_session session) (update_streak today user) = Ok points
    /\ s' = stored_session db session points
    /\ users db' = replace_user (rewarded today user points) (users db)
    /\ sessions db' = sessions db ++ [s']
    /\ session_tasks db'
       = (session_tasks db ++ new_session_tasks db)
         ++ map (link_of s') (PracticeSessionCreate.tasks session)
    /\ (forall i,
          match find (fun k => PracticeTask.id k =? i) (tasks db) with
          | None => find (fun k => PracticeTask.id k =? i) (tasks db') = None
          | Some task =>
              exists task',
                find (fun k => PracticeTask.id k =? i) (tasks db') = Some task'
                /\ grown task task'
                     (link_minutes i (map (link_of s') (PracticeSessionCreate.tasks session)))
                     (link_count i (map (link_of s') (PracticeSessionCreate.tasks session)))
          end)
    /\ exists db2,
         db' = badged db2 (rewarded today user points) s'
         /\ sessions db2 = sessions db ++ [s']
         /\ badges db2 = badges db ++ new_badges db
         /\ new_badges db2 = [].
Proof.
  intros H.
  pose proof (create_practice_session_tables today session db) as T. cbv zeta in T.
  destruct (find _ (users db)) as [user|] eqn:Eu; [|rewrite T in H; discriminate].
  destruct (calculate_points _ _) as [points|e] eqn:Ep; [|rewrite T in H; discriminate].
  clear T. exists user, points. split; [reflexivity|]. split; [exact Ep|].
  rewrite (create_practice_session_run today session db user points Eu Ep) in H.
  cbv zeta in H.
  set (s1 := stored_session db session points) in *.
  set (u1 := rewarded today user points) in *.
  set (db1 := session_stored today session db user points) in *.
  assert (F1 : users db1 = replace_user u1 (users db)
               /\ tasks db1 = tasks db /\ sessions db1 = sessions db ++ [s1]
               /\ session_tasks db1 = session_tasks db ++ new_session_tasks db
               /\ badges db1 = badges db ++ new_badges db
               /\ new_session_tasks db1 = [] /\ new_badges db1 = []).
  { subst db1. unfold session_stored. cbn. auto 10. }
  destruct F1 as (U1 & K1 & S1 & L1 & B1 & NL1 & NB1).
  clearbody db1.
  destruct (PracticeSessionCreate.tasks session) as [|td l] eqn:El.
  - injection H as <- <-. destruct (badged_frame db1 u1 s1) as (Bu & Bk & Bs & Bl & Bb).
    split; [reflexivity|]. rewrite Bu, Bs, Bl, Bk, NL1, !app_nil_r.
    split; [exact U1|]. split; [exact S1|]. split; [exact L1|]. split.
    + intros i. rewrite K1. destruct (find _ (tasks db)) as [task|]; [|reflexivity].
      exists task. split; [reflexivity|].
      unfold grown. cbn. repeat split; try lia; intros; congruence.
    + exists db1. auto.
  - rewrite run_bind in H.
    destruct (for_each (td :: l) (link_task s1) db1) as [db2 [[]|e]] eqn:Eloop;
      [|discriminate].
    rewrite run_commit in H. injection H as <- <-.
    apply link_loop in Eloop as (Hu & Hs & Hst & Hb & Hnb & Hnst & Ht).
    destruct (badged_frame (committed db2) u1 s1) as (Bu & Bk & Bs & Bl & Bb).
    split; [reflexivity|]. rewrite Bu, Bs, Bl, Bk. cbn [committed users tasks sessions
      session_tasks new_session_tasks]. rewrite app_nil_r.
    split; [congruence|]. split; [congruence|].
    split; [rewrite Hst, Hnst, L1, NL1; reflexivity|]. split.
    + intros i. specialize (Ht i). rewrite K1 in Ht. exact Ht.
    + exists (committed db2). split; [reflexivity|]. cbn.
      rewrite Hs, Hb, Hnb, S1, B1, NB1, app_nil_r. auto.
Qed.

Lemma stored_session_frame db session points :
  let s := stored_session db session points in
  PracticeSession.id s = next_id (map PracticeSession.id (sessions db))
  /\ PracticeSession.user_id s = PracticeSessionCreate.user_id session
  /\ PracticeSession.points_earned s = points
  /\ PracticeSession.duration_minutes s = PracticeSessionCreate.duration_minutes session
  /\ PracticeSession.focus_rating s = PracticeSessionCreate.focus_rating session
  /\ PracticeSession.start_time s = PracticeSessionCreate.start_time session.
Proof. cbn. auto 10. Qed.

Lemma rewarded_frame today user points :
  let u := rewarded today user points in
  User.id u = User.id user
  /\ User.total_points u = User.total_points user + points
  /\ User.streak_count u = User.streak_count (update_streak today user)
  /\ User.last_practice_date u = Some today
  /\ User.ensemble_id u = User.ensemble_id user.
Proof.
  cbv zeta. unfold rewarded, repointed.
  destruct (update_streak_frame today user) as (H1 & H2 & H3 & _).
  assert (H4 : User.last_practice_date (update_streak today user) = Some today).
  { unfold update_streak. destruct (User.last_practice_date user) as [last|];
      [destruct (last =? today), (last =? today - 1)|]; reflexivity. }
  destruct (update_streak today user); cbn in *. subst. auto.
Qed.

(** X4: a successful [create_practice_session] stores one new session under
    an id above every stored one; its points are those of
    [calculate_points] for the streak as [update_streak] leaves it that day,
    and the user's total grows by exactly these points. *)
Theorem create_practice_session_awards today session db db' s' :
  create_practice_session today session db = (db', Ok s') ->
  exists user user',
    find (fun u => User.id u =? PracticeSessionCreate.user_id session) (users db) = Some user
    /\ calculate_points (mk_session session) (update_streak today user)
       = Ok (PracticeSession.points_earned s')
    /\ (forall s, In s (sessions db) -> PracticeSession.id s < PracticeSession.id s')
    /\ sessions db' = sessions db ++ [s']
    /\ find (fun u => User.id u =? PracticeSessionCreate.user_id session) (users db')
       = Some user'
    /\ User.total_points user' = User.total_points user + PracticeSession.points_earned s'
    /\ User.streak_count user' = User.streak_count (update_streak today user)
    /\ User.last_practice_date user' = Some today.
Proof.
  intros H.
  destruct (create_practice_session_store _ _ _ _ _ H)
    as (user & points & Eu & Ep & -> & Hu & Hs & _).
  destruct (stored_session_frame db session points) as (S1 & S2 & S3 & _).
  destruct (rewarded_frame today user points) as (R1 & R2 & R3 & R4 & _).
  pose proof (find_key User.id _ _ _ Eu) as Hid.
  exists user, (rewarded today user points).
  split; [exact Eu|]. split; [now rewrite S3|]. split.
  { intros s Hin. rewrite S1. apply next_id_fresh. now apply in_map. }
  split; [exact Hs|]. split.
  { rewrite Hu. apply (find_replace_same User.id _ _ _ user); [congruence|exact Eu]. }
  rewrite S3. auto.
Qed.

(** X5: a successful [create_practice_session] stores one link per entry of
    the payload, also for a task id that no task has; a task that entries
    refer to gains their minutes and one practice each and leaves
    [NOT_STARTED] for [IN_PROGRESS]; a task no entry refers to is untouched. *)
Theorem create_practice_session_links today session db db' s' :
  create_practice_session today session db = (db', Ok s') ->
  let links := map (link_of s') (PracticeSessionCreate.tasks session) in
  session_tasks db' = (session_tasks db ++ new_session_tasks db) ++ links
  /\ forall i,
       match find (fun k => PracticeTask.id k =? i) (tasks db) with
       | None => find (fun k => PracticeTask.id k =? i) (tasks db') = None
       | Some task =>
           exists task',
             find (fun k => PracticeTask.id k =? i) (tasks db') = Some task'
             /\ PracticeTask.total_time_practiced task'
                = PracticeTask.total_time_practiced task + link_minutes i links
             /\ PracticeTask.practice_count task'
                = PracticeTask.practice_count task + link_count i links
             /\ (link_count i links = 0 -> task' = task)
             /\ (link_count i links <> 0 ->
                 PracticeTask.status task' = started (PracticeTask.status task))
       end.
Proof.
  intros H. cbv zeta.
  destruct (create_practice_session_store _ _ _ _ _ H)
    as (user & points & _ & _ & _ & _ & _ & Hl & Ht & _).
  split; [exact Hl|]. intros i. specialize (Ht i).
  destruct (find _ (tasks db)) as [task|]; [|exact Ht].
  destruct Ht as (task' & Hf & _ & _ & _ & G4 & G5 & G6 & G7).
  exists task'. auto.
Qed.

Lemma session_count_app db rows user_id :
  session_count (with_sessions db (sessions db ++ rows)) user_id
  = session_count db user_id
    + Z.of_nat (List.length (filter (fun s => PracticeSession.user_id s =? user_id) rows)).
Proof.
  unfold session_count. cbn [sessions with_sessions].
  rewrite filter_app, length_app. lia.
Qed.

Lemma first_session_trigger db user session :
  In ("first_session"%string, true) (badge_triggers db user session)
  <-> session_count db (User.id user) = 1.
Proof.
  cbn [badge_triggers In]. split.
  - intros [E|Hin].
    + injection E as E. now apply Z.eqb_eq.
    + repeat (destruct Hin as [E|Hin]; [discriminate E|]). contradiction.
  - intros E. left. f_equal. now apply Z.eqb_eq.
Qed.

(** X6: the first session a user logs earns the badge [first_session]; a
    later one never grants it. *)
Theorem create_practice_session_first_badge today session db db' s' :
  create_practice_session today session db = (db', Ok s') ->
  let user_id := PracticeSessionCreate.user_id session in
  let first := Badge.mk user_id "first_session" in
  (session_count db user_id = 0 -> In first (badges db'))
  /\ (session_count db user_id <> 0 ->
      In first (badges db') -> In first (badges db ++ new_badges db)).
Proof.
  intros H. cbv zeta.
  destruct (create_practice_session_store _ _ _ _ _ H)
    as (user & points & Eu & _ & -> & _ & _ & _ & _ & db2 & -> & Hs & Hb & Hnb).
  destruct (stored_session_frame db session points) as (_ & S2 & _).
  destruct (rewarded_frame today user points) as (R1 & _).
  pose proof (find_key User.id _ _ _ Eu) as Hid.
  set (s' := stored_session db session points) in *.
  set (u' := rewarded today user points) in *.
  destruct (badged_frame db2 u' s') as (_ & _ & _ & _ & Bb).
  rewrite Bb, Hnb, Hb. cbn [app].
  assert (Hc : session_count db2 (User.id u')
               = session_count db (PracticeSessionCreate.user_id session) + 1).
  { unfold session_count. rewrite Hs, filter_app, length_app. cbn [filter].
    rewrite R1, Hid, S2, Z.eqb_refl. cbn [List.length]. lia. }
  assert (Hid' : User.id u' = PracticeSessionCreate.user_id session) by congruence.
  split.
  - intros H0. apply in_or_app.
    destruct (has_badge db2 (User.id u') "first_session") eqn:Eh.
    + left. apply has_badge_In in Eh. rewrite Hb, Hid' in Eh. exact Eh.
    + right. unfold newly_granted. apply grants_In.
      exists "first_session"%string. rewrite Hid'. split; [reflexivity|].
      rewrite <- Hid'. split; [exact Eh|].
      apply first_session_trigger. rewrite Hc, H0. reflexivity.
  - intros Hne Hin. apply in_app_or in Hin as [Hin|Hin]; [exact Hin|].
    exfalso. unfold newly_granted in Hin. apply grants_In in Hin as (t & Et & _ & Hin).
    injection Et as _ <-.
    apply first_session_trigger in Hin. rewrite Hc in Hin.
    unfold session_count in *. lia.
Qed.

Lemma session_links_fresh old links session_id :
  (forall st, In st old -> SessionTask.session_id st <> session_id) ->
  (forall st, In st links -> SessionTask.session_id st = session_id) ->
  filter (fun st => SessionTask.session_id st =? session_id) (old ++ links) = links.
Proof.
  intros Hold Hnew. rewrite filter_app.
  replace (filter _ old) with (@nil SessionTask.t).
  - cbn [app]. induction links as [|st l IH]; [reflexivity|]. cbn [filter].
    rewrite (Hnew st (or_introl eq_refl)), Z.eqb_refl. f_equal.
    apply IH. intros st' Hin. apply Hnew. now right.
  - symmetry. induction old as [|st l IH]; [reflexivity|]. cbn [filter].
    replace (SessionTask.session_id st =? session_id) with false
      by (symmetry; apply Z.eqb_neq, Hold; now left).
    apply IH. intros st' Hin. apply Hold. now right.
Qed.

Lemma without_session_fresh rows s :
  (forall r, In r rows -> PracticeSession.id r < PracticeSession.id s) ->
  without_session (PracticeSession.id s) (rows ++ [s]) = rows.
Proof.
  intros H. unfold without_session. rewrite filter_app. cbn [filter].
  rewrite Z.eqb_refl. cbn [negb]. rewrite app_nil_r.
  induction rows as [|r rows IH]; [reflexivity|]. cbn [filter].
  pose proof (H r (or_introl eq_refl)).
  replace (PracticeSession.id r =? PracticeSession.id s) with false
    by (symmetry; apply Z.eqb_neq; lia).
  cbn [negb]. f_equal. apply IH. intros r' Hin. apply H. now right.
Qed.

Lemma find_fresh rows s :
  (forall r, In r rows -> PracticeSession.id r < PracticeSession.id s) ->
  find (fun r => PracticeSession.id r =? PracticeSession.id s) (rows ++ [s]) = Some s.
Proof.
  intros H. induction rows as [|r rows IH]; cbn [app find].
  - now rewrite Z.eqb_refl.
  - pose proof (H r (or_introl eq_refl)).
    replace (PracticeSession.id r =? PracticeSession.id s) with false
      by (symmetry; apply Z.eqb_neq; lia).
    apply IH. intros r' Hin. apply H. now right.
Qed.

(** X7: a session that [create_practice_session] has just stored can be
    taken back only if it was logged without tasks.  With an empty task
    list, [delete_practice_session] returns [True]: the session row is gone,
    the user's total and every task are as before the creation (the streak,
    the last practice date and the badges stay as the creation left them).
    With task entries, the delete raises IntegrityError and every table
    stays as the creation left it: the points and the practiced time are
    not taken back. *)
Theorem create_then_delete today session db db1 s' :
  create_practice_session today session db = (db1, Ok s') ->
  (forall st, In st (session_tasks db ++ new_session_tasks db) ->
     SessionTask.session_id st <> PracticeSession.id s') ->
  (forall td, In td (PracticeSessionCreate.tasks session) ->
     find (fun k => PracticeTask.id k =? SessionTaskCreate.task_id td) (tasks db) <> None) ->
  (forall u, In u (users db) -> 0 <= User.total_points u) ->
  match PracticeSessionCreate.tasks session with
  | [] =>
      exists db2,
        delete_practice_session (PracticeSession.id s') db1 = (db2, Ok true)
        /\ sessions db2 = sessions db
        /\ (forall i user,
              find (fun u => User.id u =? i) (users db) = Some user ->
              exists user2,
                find (fun u => User.id u =? i) (users db2) = Some user2
                /\ User.total_points user2 = User.total_points user)
        /\ (forall i task,
              find (fun k => PracticeTask.id k =? i) (tasks db) = Some task ->
              find (fun k => PracticeTask.id k =? i) (tasks db2) = Some task)
  | _ :: _ =>
      exists db2,
        delete_practice_session (PracticeSession.id s') db1 = (db2, Raise IntegrityError)
        /\ users db2 = users db1
        /\ tasks db2 = tasks db1
        /\ sessions db2 = sessions db1
        /\ session_tasks db2 = session_tasks db1
        /\ badges db2 = badges db1
  end.
Proof.
  intros H Hstale Hpay Hpts.
  destruct (create_practice_session_store _ _ _ _ _ H)
    as (user & points & Eu & Ep & Es' & Hu & Hs & Hl & Ht & _).
  destruct (stored_session_frame db session points) as (S1 & S2 & S3 & _).
  rewrite <- Es' in S1, S2, S3.
  destruct (rewarded_frame today user points) as (R1 & R2 & _).
  pose proof (find_key User.id _ _ _ Eu) as Hid.
  set (links := map (link_of s') (PracticeSessionCreate.tasks session)) in *.
  assert (Hfresh : forall r, In r (sessions db) -> PracticeSession.id r < PracticeSession.id s').
  { intros r Hin. rewrite S1. apply next_id_fresh. now apply in_map. }
  assert (Hlinks : session_links db1 (PracticeSession.id s') = links).
  { unfold session_links. rewrite Hl.
    apply session_links_fresh.
    - exact Hstale.
    - intros st Hin. apply in_map_iff in Hin as (td & <- & _). reflexivity. }
  assert (Hfind : find (fun s => PracticeSession.id s =? PracticeSession.id s') (sessions db1)
                  = Some s')
    by (rewrite Hs; apply find_fresh, Hfresh).
  destruct (PracticeSessionCreate.tasks session) as [|td l] eqn:El.
  - rewrite delete_practice_session_run, Hfind, Hlinks. cbn [links map].
    eexists. split; [reflexivity|].
    cbn [committed sessions users tasks with_sessions].
    split; [rewrite Hs; apply without_session_fresh, Hfresh|]. split.
    + intros i u Hf. unfold refund_step. rewrite Hu, S2.
      rewrite (find_replace_same User.id _ _ _ user) by (congruence || exact Eu).
      cbn [users with_users]. unfold replace_user.
      rewrite (replace_twice User.id)
        by (unfold refunded; cbn [User.id update_user_level User.set_total_points
                                    User.set_level]; reflexivity).
      destruct (Z.eq_dec (PracticeSessionCreate.user_id session) i) as [<-|Hne].
      * eexists. split.
        -- apply (find_replace_same User.id _ _ _ user); [|exact Eu].
           unfold refunded.
           cbn [User.id update_user_level User.set_total_points User.set_level]. congruence.
        -- rewrite Hf in Eu. injection Eu as ->.
           pose proof (Hpts user (proj1 (find_some _ _ Hf))).
           unfold refunded.
           cbn [User.total_points update_user_level User.set_total_points User.set_level].
           rewrite R2, S3. lia.
      * exists u. split; [|reflexivity].
        rewrite (find_replace_other User.id); [exact Hf|].
        unfold refunded.
        cbn [User.id update_user_level User.set_total_points User.set_level]. congruence.
    + intros i task Hf. specialize (Ht i). rewrite Hf in Ht.
      destruct Ht as (task1 & Hf1 & _ & _ & _ & _ & _ & G6 & _).
      assert (Et : tasks (refund_step db1 s') = tasks db1)
        by (unfold refund_step; destruct (find _ (users db1)); reflexivity).
      rewrite Et, Hf1. f_equal. apply G6. reflexivity.
  - destruct (delete_practice_session_linked (PracticeSession.id s') db1 s' Hfind)
      as (db2 & e & Hrun & _ & Hex).
    { rewrite Hlinks. discriminate. }
    destruct Hex as (-> & ->).
    { rewrite Hlinks. intros st Hin. apply in_map_iff in Hin as (td' & <- & Hin).
      cbn [link_of SessionTask.task_id].
      pose proof (Hpay td' Hin) as Hex. specialize (Ht (SessionTaskCreate.task_id td')).
      destruct (find _ (tasks db)); [|contradiction].
      destruct Ht as (task' & -> & _). discriminate. }
    exists (rolled_back db1). split; [exact Hrun|]. repeat split.
Qed.

(** X8: logging practice never costs anything: after a successful
    [create_practice_session] with a non-negative duration the session's
    points are not negative, the user's total is at least what it was, and
    the level is at least the level that total stood for. *)
Theorem create_practice_session_never_costs today session db db' s' :
  create_practice_session today session db = (db', Ok s') ->
  0 <= PracticeSessionCreate.duration_minutes session ->
  0 <= PracticeSession.points_earned s'
  /\ exists user user',
       find (fun u => User.id u =? PracticeSessionCreate.user_id session) (users db)
       = Some user
       /\ find (fun u => User.id u =? PracticeSessionCreate.user_id session) (users db')
          = Some user'
       /\ User.total_points user <= User.total_points user'
       /\ User.total_points user / 100 + 1 <= User.level user'.
Proof.
  intros H Hd.
  destruct (create_practice_session_store _ _ _ _ _ H)
    as (user & points & Eu & Ep & -> & Hu & _).
  destruct (stored_session_frame db session points) as (_ & _ & S3 & _).
  destruct (rewarded_frame today user points) as (R1 & R2 & _).
  pose proof (find_key User.id _ _ _ Eu) as Hid.
  assert (Hp : 0 <= points).
  { apply (calculate_points_nonneg (mk_session session) (update_streak today user));
      [exact Hd|exact Ep]. }
  split; [now rewrite S3|].
  exists user, (rewarded today user points). split; [exact Eu|]. split.
  { rewrite Hu. apply (find_replace_same User.id _ _ _ user); [congruence|exact Eu]. }
  split; [lia|].
  assert (EL : User.level (rewarded today user points)
               = User.total_points (rewarded today user points) / 100 + 1)
    by reflexivity.
  rewrite EL, R2.
  assert (User.total_points user / 100 <= (User.total_points user + points) / 100)
    by (apply Z.div_le_mono; lia).
  lia.
Qed.

(** X9: after [check_and_award_badges] the user holds every badge whose
    trigger held, newly granted or held before; so a streak of 30 leaves the
    three streak badges in hand.  One call never grants both [early_bird]
    and [night_owl]. *)
Theorem badges_held_after user session db :
  let db' := fst (check_and_award_badges user session db) in
  let granted := snd (check_and_award_badges user session db) in
  (forall t, In (t, true) (badge_triggers db user session) ->
             In (Badge.mk (User.id user) t) (badges db'))
  /\ (30 <= User.streak_count user ->
      In (Badge.mk (User.id user) "streak_3") (badges db')
      /\ In (Badge.mk (User.id user) "streak_7") (badges db')
      /\ In (Badge.mk (User.id user) "streak_30") (badges db'))
  /\ (forall l, granted = Ok l ->
        ~ (In (Badge.mk (User.id user) "early_bird") l
           /\ In (Badge.mk (User.id user) "night_owl") l)).
Proof.
  cbv zeta. rewrite check_and_award_badges_run. cbn [fst snd committed badges with_new_badges].
  assert (Hheld : forall t, In (t, true) (badge_triggers db user session) ->
            In (Badge.mk (User.id user) t)
               (badges db ++ new_badges db ++ newly_granted db user session)).
  { intros t Ht. destruct (has_badge db (User.id user) t) eqn:Eh.
    - apply in_or_app. left. now apply has_badge_In.
    - apply in_or_app. right. apply in_or_app. right. unfold newly_granted.
      apply grants_In. exists t. auto. }
  split; [exact Hheld|]. split.
  - intros Hs.
    assert (H3 : (3 <=? User.streak_count user) = true) by (apply Z.leb_le; lia).
    assert (H7 : (7 <=? User.streak_count user) = true) by (apply Z.leb_le; lia).
    assert (H30 : (30 <=? User.streak_count user) = true) by (apply Z.leb_le; lia).
    repeat split; apply Hheld; cbn [badge_triggers In];
      rewrite ?H3, ?H7, ?H30; auto 10.
  - intros l El (He & Hn). injection El as <-.
    unfold newly_granted in He, Hn.
    apply grants_In in He as (t1 & E1 & _ & H1). injection E1 as <-.
    apply grants_In in Hn as (t2 & E2 & _ & H2). injection E2 as <-.
    cbn [badge_triggers In] in H1, H2.
    repeat (destruct H1 as [H1|H1]; [try discriminate H1|]); [|contradiction].
    repeat (destruct H2 as [H2|H2]; [try discriminate H2|]); [|contradiction].
    injection H1 as H1. injection H2 as H2.
    apply Z.ltb_lt in H1. apply Z.leb_le in H2. lia.
Qed.

(** * Weekly minutes of a user (crud.py, [get_user_weekly_minutes]) *)

(** The sum of the durations of the user's sessions dated from the Monday of
    the week of [today] on; [result or 0]. *)
Definition get_user_weekly_minutes (today : Z) (db : Store) (user_id : Z) : Z :=
  let week_start := today - weekday today in
  let result :=
    scalar_sum
      (map PracticeSession.duration_minutes
         (filter (fun s => (PracticeSession.user_id s =? user_id)
                           && (week_start <=? DateTime.date (PracticeSession.start_time s)))
                 (sessions db))) in
  or_0 result.

Lemma board_entry today db ensemble_id e :
  In e (Leaderboard.entries (get_weekly_leaderboard today db ensemble_id)) ->
  exists member,
    In member (get_ensemble_members db ensemble_id)
    /\ entry_of e
       = member_entry db (today - weekday today) (today - weekday today + 6) member.
Proof.
  unfold get_weekly_leaderboard. cbn [Leaderboard.entries]. intros Hin.
  apply (in_map entry_of) in Hin. rewrite rank_entries_entry_of in Hin.
  apply (Permutation_in _ (sort_reverse_perm Entry.weekly_minutes _)) in Hin.
  apply in_map_iff in Hin as (member & E & Hin). eauto.
Qed.

Lemma sum_Z_filter_le (f g : PracticeSession.t -> bool) rows :
  (forall s, In s rows -> 0 <= PracticeSession.duration_minutes s) ->
  (forall s, f s = true -> g s = true) ->
  sum_Z (map PracticeSession.duration_minutes (filter f rows))
  <= sum_Z (map PracticeSession.duration_minutes (filter g rows)).
Proof.
  intros Hpos Himp. unfold sum_Z.
  induction rows as [|s rows IH]; [cbn; lia|]. cbn [filter].
  pose proof (Hpos s (or_introl eq_refl)).
  assert (IH' := IH (fun r Hr => Hpos r (or_intror Hr))).
  destruct (f s) eqn:Ef.
  - rewrite (Himp s Ef). cbn [map fold_right]. lia.
  - destruct (g s); cbn [map fold_right]; lia.
Qed.

(** X10: the weekly minutes a board entry shows never exceed what
    [get_user_weekly_minutes] gives for that member (durations being
    non-negative), and both agree when the member has no session dated after
    the Sunday of the week: the board counts Monday to Sunday, the user's
    own figure everything from Monday on. *)
Theorem weekly_minutes_on_board today db ensemble_id e :
  In e (Leaderboard.entries (get_weekly_leaderboard today db ensemble_id)) ->
  let member_id := User.id (LeaderboardEntry.user e) in
  let week_end := today - weekday today + 6 in
  ((forall s, In s (sessions db) -> 0 <= PracticeSession.duration_minutes s) ->
   LeaderboardEntry.weekly_minutes e <= get_user_weekly_minutes today db member_id)
  /\ ((forall s, In s (sessions db) -> PracticeSession.user_id s = member_id ->
                 DateTime.date (PracticeSession.start_time s) <= week_end) ->
      LeaderboardEntry.weekly_minutes e = get_user_weekly_minutes today db member_id).
Proof.
  intros Hin. cbv zeta.
  destruct (board_entry _ _ _ _ Hin) as (member & _ & E).
  assert (Eu : LeaderboardEntry.user e = member)
    by (apply (f_equal Entry.user) in E; exact E).
  assert (Em : LeaderboardEntry.weekly_minutes e
               = Entry.weekly_minutes
                   (member_entry db (today - weekday today) (today - weekday today + 6) member))
    by (apply (f_equal Entry.weekly_minutes) in E; exact E).
  rewrite Em, Eu. unfold member_entry, get_user_weekly_minutes.
  cbn [Entry.weekly_minutes]. rewrite !or_0_scalar_sum. split.
  - intros Hpos. apply sum_Z_filter_le; [exact Hpos|].
    intros s H. unfold in_week in H. apply andb_true_iff in H as (H & _). exact H.
  - intros Hweek. f_equal. f_equal. apply filter_ext_in. intros s Hs.
    unfold in_week.
    destruct (PracticeSession.user_id s =? User.id member) eqn:Ei; [|reflexivity].
    apply Z.eqb_eq in Ei. specialize (Hweek s Hs Ei).
    destruct (_ <=? DateTime.date _); [|reflexivity]. cbn [andb].
    apply Z.leb_le. exact Hweek.
Qed.

(** * Practice tasks (crud.py, "PRACTICE TASK OPERATIONS") *)

Module PracticeTaskCreate.
(** The fields of the payload that reach the kept columns. *)
Record t := mk { user_id : Z; estimated_minutes : Z }.
End PracticeTaskCreate.

(** [db.add(db_task)] followed by the flush of [db.commit()]: the row is
    stored under a fresh id. *)
Definition add_task (k : PracticeTask.t) : M PracticeTask.t :=
  fun db =>
    let k' := PracticeTask.mk (next_id (map PracticeTask.id (tasks db)))
                (PracticeTask.user_id k) (PracticeTask.estimated_minutes k)
                (PracticeTask.total_time_practiced k) (PracticeTask.practice_count k)
                (PracticeTask.status k) (PracticeTask.readiness_score k) in
    (with_tasks db (tasks db ++ [k']), Ok k').

(** The columns left to their defaults: no time, no practice, not started,
    readiness 0.0. *)
Definition create_task (task : PracticeTaskCreate.t) : M PracticeTask.t :=
  let db_task := PracticeTask.mk 0 (PracticeTaskCreate.user_id task)
                   (PracticeTaskCreate.estimated_minutes task)
                   0 0 NOT_STARTED PyFloat.zero in
  db_task <- add_task db_task ;;
  commit ;;
  ret db_task.

Definition TaskStatus_eqb (a b : TaskStatus) : bool :=
  match a, b with
  | NOT_STARTED, NOT_STARTED | IN_PROGRESS, IN_PROGRESS | READY, READY => true
  | _, _ => false
  end.

(** The loop [task.readiness_score = calculate_task_readiness(db, task)]
    over the selected tasks; the objects of the list are the rows. *)
Fixpoint refresh_readiness (l : list PracticeTask.t) : M (list PracticeTask.t) :=
  match l with
  | [] => ret []
  | task :: rest =>
      readiness <- (fun db => (db, calculate_task_readiness db task)) ;;
      task <- assign_task (PracticeTask.set_readiness_score task readiness) ;;
      rest <- refresh_readiness rest ;;
      ret (task :: rest)
  end.

Section TaskQueries.

(** Two columns of [practice_tasks] that the record leaves out. *)
Variable rehearsal_id : PracticeTask.t -> option Z.
Variable created_at : PracticeTask.t -> Z.

(** The rows [get_user_tasks] selects: [if status:] and [if rehearsal_id:]
    add their filter when the argument is truthy. *)
Definition selected (user_id : Z) (status : option TaskStatus) (rehearsal : option Z)
           (task : PracticeTask.t) : bool :=
  (PracticeTask.user_id task =? user_id)
  && match status with
     | Some status => TaskStatus_eqb (PracticeTask.status task) status
     | None => true
     end
  && (if truthy rehearsal
      then option_Z_eqb (rehearsal_id task) rehearsal
      else true).

(** [order_by(created_at.desc())], then the readiness loop and the commit. *)
Definition get_user_tasks (user_id : Z) (status : option TaskStatus) (rehearsal : option Z)
  : M (list PracticeTask.t) :=
  tasks <- gets (fun db =>
             sort_reverse created_at (filter (selected user_id status rehearsal) (tasks db))) ;;
  tasks <- refresh_readiness tasks ;;
  commit ;;
  ret tasks.

End TaskQueries.

Lemma calculate_task_readiness_score db task r :
  calculate_task_readiness db (PracticeTask.set_readiness_score task r)
  = calculate_task_readiness db task.
Proof. destruct task; reflexivity. Qed.

Lemma In_replace_other {A} (key : A -> Z) x r rows :
  In r rows -> key r <> key x -> In r (replace_row key x rows).
Proof.
  intros Hin Hne. unfold replace_row. apply in_map_iff. exists r. split; [|exact Hin].
  replace (key r =? key x) with false; [reflexivity|].
  symmetry. now apply Z.eqb_neq.
Qed.

(** A task object and the object the loop leaves for it. *)
Definition refreshed (db : Store) (task task' : PracticeTask.t) : Prop :=
  exists r, calculate_task_readiness db task = Ok r
            /\ task' = PracticeTask.set_readiness_score task r.

Lemma refresh_readiness_run l : forall db db2 l',
  refresh_readiness l db = (db2, Ok l') ->
  NoDup (map PracticeTask.id l) ->
  users db2 = users db /\ sessions db2 = sessions db
  /\ session_tasks db2 = session_tasks db /\ new_session_tasks db2 = new_session_tasks db
  /\ badges db2 = badges db /\ new_badges db2 = new_badges db
  /\ Forall2 (refreshed db) l l'
  /\ map PracticeTask.id (tasks db2) = map PracticeTask.id (tasks db)
  /\ (forall i, ~ In i (map PracticeTask.id l) ->
        find (fun k => PracticeTask.id k =? i) (tasks db2)
        = find (fun k => PracticeTask.id k =? i) (tasks db))
  /\ (forall k, In k (tasks db) -> ~ In (PracticeTask.id k) (map PracticeTask.id l) ->
        In k (tasks db2))
  /\ (forall k', In k' l' ->
        find (fun k => PracticeTask.id k =? PracticeTask.id k') (tasks db) <> None ->
        find (fun k => PracticeTask.id k =? PracticeTask.id k') (tasks db2) = Some k').
Proof.
  induction l as [|k rest IH]; intros db db2 l' H Hnd.
  - cbn [refresh_readiness] in H. rewrite run_ret in H. injection H as <- <-.
    repeat split; try reflexivity; auto. intros k' [].
  - cbn [refresh_readiness] in H. rewrite run_bind in H.
    destruct (calculate_task_readiness db k) as [r|e] eqn:Er; [|discriminate].
    rewrite run_bind, run_assign_task, run_bind in H.
    set (kA := PracticeTask.set_readiness_score k r) in *.
    set (dbA := with_tasks db (replace_task kA (tasks db))) in *.
    destruct (refresh_readiness rest dbA) as [db3 [rest'|e]] eqn:Erest; [|discriminate].
    rewrite run_ret in H. injection H as <- <-.
    cbn [map] in Hnd. inversion Hnd as [|? ? Hnin Hnd']; subst.
    specialize (IH _ _ _ Erest Hnd')
      as (Hu & Hs & Hst & Hnst & Hb & Hnb & HF & Hids & Hfind & Hkeep & Hnew).
    assert (EA : PracticeTask.id kA = PracticeTask.id k) by (destruct k; reflexivity).
    assert (Hreads : forall task, calculate_task_readiness dbA task
                                  = calculate_task_readiness db task).
    { intros task. apply calculate_task_readiness_reads; reflexivity. }
    split; [exact Hu|]. split; [exact Hs|]. split; [exact Hst|]. split; [exact Hnst|].
    split; [exact Hb|]. split; [exact Hnb|]. split.
    { constructor.
      - exists r. split; [exact Er|reflexivity].
      - eapply Forall2_impl; [|exact HF]. intros a b (r' & H1 & H2).
        exists r'. split; [now rewrite <- Hreads|exact H2]. }
    split.
    { rewrite Hids. subst dbA. cbn [tasks with_tasks]. apply replace_keys. }
    split.
    { intros i Hi. cbn [map In] in Hi. rewrite Hfind by tauto.
      subst dbA. cbn [tasks with_tasks]. apply find_replace_other. rewrite EA. tauto. }
    split.
    { intros k0 Hin Hi. cbn [map In] in Hi. apply Hkeep; [|tauto].
      subst dbA. cbn [tasks with_tasks]. apply In_replace_other; [exact Hin|].
      rewrite EA. intros E. apply Hi. left. now symmetry. }
    intros k' [<-|Hin] Hex.
    + rewrite Hfind by (rewrite EA; exact Hnin).
      subst dbA. cbn [tasks with_tasks].
      destruct (find (fun k0 => PracticeTask.id k0 =? PracticeTask.id kA) (tasks db))
        as [k0|] eqn:E0; [|contradiction].
      apply (find_replace_same PracticeTask.id kA _ _ k0 eq_refl E0).
    + apply Hnew; [exact Hin|].
      assert (Hne : PracticeTask.id kA <> PracticeTask.id k').
      { rewrite EA. intros E. apply Hnin. rewrite E.
        assert (Hm : map PracticeTask.id rest' = map PracticeTask.id rest).
        { clear - HF. induction HF as [|a b l1 l2 (r' & _ & ->) _ IH]; [reflexivity|].
          cbn [map]. rewrite IH. destruct a; reflexivity. }
        rewrite <- Hm. now apply in_map. }
      subst dbA. cbn [tasks with_tasks].
      unfold replace_task. now rewrite (find_replace_other PracticeTask.id kA).
Qed.

Lemma NoDup_filter_keys {A} (key : A -> Z) (f : A -> bool) rows :
  NoDup (map key rows) -> NoDup (map key (filter f rows)).
Proof.
  induction rows as [|r rows IH]; cbn [map filter]; intros H; [constructor|].
  inversion H as [|? ? Hnin Hnd]; subst.
  destruct (f r); [|now apply IH]. cbn [map]. constructor; [|now apply IH].
  intros Hin. apply Hnin. apply in_map_iff in Hin as (x & E & Hx).
  apply filter_In in Hx as (Hx & _). rewrite <- E. now apply in_map.
Qed.

Lemma Forall2_refreshed_ids db l l' :
  Forall2 (refreshed db) l l' -> map PracticeTask.id l' = map PracticeTask.id l.
Proof.
  induction 1 as [|a b l1 l2 (r & _ & ->) _ IH]; [reflexivity|].
  cbn [map]. rewrite IH. destruct a; reflexivity.
Qed.

Lemma Forall2_refreshed_In db l l' k' :
  Forall2 (refreshed db) l l' -> In k' l' -> exists k, In k l /\ refreshed db k k'.
Proof.
  induction 1 as [|a b l1 l2 Hab _ IH]; intros Hin; [contradiction|].
  destruct Hin as [<-|Hin].
  - exists a. split; [now left|exact Hab].
  - destruct (IH Hin) as (k & Hk & Hr). exists k. split; [now right|exact Hr].
Qed.

(** X11: [get_user_tasks] brings the stored readiness up to date: every task
    it returns is the stored row, belongs to the user, and carries the score
    [calculate_task_readiness] gives for it in the store the call leaves;
    the rows it does not select, and the other tables, stay as they are. *)
Theorem get_user_tasks_refreshes rehearsal_id created_at user_id status rehearsal db db' l :
  NoDup (map PracticeTask.id (tasks db)) ->
  new_session_tasks db = [] ->
  get_user_tasks rehearsal_id created_at user_id status rehearsal db = (db', Ok l) ->
  (forall k, In k l ->
     In k (tasks db') /\ PracticeTask.user_id k = user_id
     /\ calculate_task_readiness db' k = Ok (PracticeTask.readiness_score k))
  /\ Permutation (map PracticeTask.id l)
                 (map PracticeTask.id
                    (filter (selected rehearsal_id user_id status rehearsal) (tasks db)))
  /\ (forall k, In k (tasks db) ->
        selected rehearsal_id user_id status rehearsal k = false -> In k (tasks db'))
  /\ map PracticeTask.id (tasks db') = map PracticeTask.id (tasks db)
  /\ users db' = users db /\ sessions db' = sessions db
  /\ session_tasks db' = session_tasks db.
Proof.
  intros Hnd Hpending H. unfold get_user_tasks in H.
  rewrite run_bind in H. unfold gets at 1 in H. cbv beta in H.
  set (sel := filter (selected rehearsal_id user_id status rehearsal) (tasks db)) in *.
  set (l0 := sort_reverse created_at sel) in *.
  assert (Hperm : Permutation l0 sel) by apply sort_reverse_perm.
  assert (Hnd0 : NoDup (map PracticeTask.id l0)).
  { apply (Permutation_NoDup (Permutation_map _ (Permutation_sym Hperm))).
    now apply NoDup_filter_keys. }
  rewrite run_bind in H.
  destruct (refresh_readiness l0 db) as [db2 [l'|e]] eqn:Eloop; [|discriminate].
  rewrite run_bind, run_commit, run_ret in H. injection H as <- <-.
  destruct (refresh_readiness_run _ _ _ _ Eloop Hnd0)
    as (Hu & Hs & Hst & Hnst & Hb & Hnb & HF & Hids & Hfind & Hkeep & Hnew).
  cbn [committed users tasks sessions session_tasks].
  rewrite Hnst, Hpending, app_nil_r.
  assert (Hreads : forall task, calculate_task_readiness (committed db2) task
                                = calculate_task_readiness db task).
  { intros task. apply calculate_task_readiness_reads; cbn [committed sessions session_tasks];
      [exact Hs|]. now rewrite Hnst, Hpending, app_nil_r. }
  split.
  { intros k' Hin.
    destruct (Forall2_refreshed_In _ _ _ _ HF Hin) as (k & Hk & r & Er & ->).
    assert (Hsel : In k sel) by (apply (Permutation_in _ Hperm); exact Hk).
    apply filter_In in Hsel as (Hk0 & Hsel).
    assert (Hfound : find (fun k0 => PracticeTask.id k0
                                     =? PracticeTask.id (PracticeTask.set_readiness_score k r))
                          (tasks db2)
                     = Some (PracticeTask.set_readiness_score k r)).
    { apply Hnew; [exact Hin|].
      intros Hnone. apply (find_none _ _ Hnone) in Hk0.
      destruct k; cbn in Hk0. rewrite Z.eqb_refl in Hk0. discriminate. }
    split; [exact (proj1 (find_some _ _ Hfound))|]. split.
    - unfold selected in Hsel. apply andb_true_iff in Hsel as (Hsel & _).
      apply andb_true_iff in Hsel as (Hsel & _). apply Z.eqb_eq in Hsel.
      destruct k; exact Hsel.
    - rewrite Hreads, calculate_task_readiness_score, Er. destruct k; reflexivity. }
  split.
  { rewrite (Forall2_refreshed_ids _ _ _ HF). now apply Permutation_map. }
  split.
  { intros k Hk Hsel. apply Hkeep; [exact Hk|].
    intros Hin. apply in_map_iff in Hin as (k0 & E & Hk0).
    assert (Hs0 : In k0 sel) by (apply (Permutation_in _ Hperm); exact Hk0).
    apply filter_In in Hs0 as (Hk0' & Hsel0).
    assert (k0 = k); [|congruence].
    clear - Hnd Hk Hk0' E.
    induction (tasks db) as [|x rows IH]; [contradiction|].
    cbn [map] in Hnd. inversion Hnd as [|? ? Hnin Hnd']; subst.
    destruct Hk as [->|Hk], Hk0' as [->|Hk0']; try reflexivity.
    - exfalso. apply Hnin. rewrite <- E. now apply in_map.
    - exfalso. apply Hnin. rewrite E. now apply in_map.
    - now apply IH. }
  auto.
Qed.

Lemma find_app_fresh (rows : list PracticeTask.t) k :
  (forall r, In r rows -> PracticeTask.id r < PracticeTask.id k) ->
  find (fun r => PracticeTask.id r =? PracticeTask.id k) (rows ++ [k]) = Some k
  /\ forall i r, find (fun r => PracticeTask.id r =? i) rows = Some r ->
                 find (fun r => PracticeTask.id r =? i) (rows ++ [k]) = Some r.
Proof.
  intros H. split.
  - induction rows as [|r rows IH]; cbn [app find].
    + now rewrite Z.eqb_refl.
    + pose proof (H r (or_introl eq_refl)).
      replace (PracticeTask.id r =? PracticeTask.id k) with false
        by (symmetry; apply Z.eqb_neq; lia).
      apply IH. intros r' Hin. apply H. now right.
  - intros i r Hf. clear H. induction rows as [|x rows IH]; [discriminate|].
    cbn [app find] in *. destruct (PracticeTask.id x =? i); [exact Hf|now apply IH].
Qed.

(** X12: [create_task] stores the task under an id above every stored one
    with no time, no practice, the status [NOT_STARTED] and readiness 0.0;
    [get_task] then finds it and finds every earlier task as before; and when
    no link row carries the new id, the stored 0.0 is the score
    [calculate_task_readiness] gives. *)
Theorem create_task_stored task db :
  exists db' k,
    create_task task db = (db', Ok k)
    /\ k = PracticeTask.mk (next_id (map PracticeTask.id (tasks db)))
                           (PracticeTaskCreate.user_id task)
                           (PracticeTaskCreate.estimated_minutes task)
                           0 0 NOT_STARTED PyFloat.zero
    /\ (forall r, In r (tasks db) -> PracticeTask.id r < PracticeTask.id k)
    /\ get_task (PracticeTask.id k) db' = (db', Ok (Some k))
    /\ (forall i r, get_task i db = (db, Ok (Some r)) -> get_task i db' = (db', Ok (Some r)))
    /\ ((forall st, In st (session_tasks db ++ new_session_tasks db) ->
           SessionTask.task_id st <> PracticeTask.id k) ->
        calculate_task_readiness db' k = Ok (PracticeTask.readiness_score k)).
Proof.
  unfold create_task. rewrite run_bind. unfold add_task at 1. cbv beta zeta.
  rewrite run_bind, run_commit, run_ret.
  set (k := PracticeTask.mk _ _ _ _ _ _ _).
  assert (Hfresh : forall r, In r (tasks db) -> PracticeTask.id r < PracticeTask.id k).
  { intros r Hr. subst k. cbn [PracticeTask.id]. apply next_id_fresh. now apply in_map. }
  destruct (find_app_fresh (tasks db) k Hfresh) as (Hnew & Hold).
  eexists _, k. split; [reflexivity|]. split; [reflexivity|]. split; [exact Hfresh|].
  split.
  { rewrite run_get_task. cbn [committed tasks with_tasks]. now rewrite Hnew. }
  split.
  { intros i r Hg. rewrite run_get_task in Hg. injection Hg as Hg.
    rewrite run_get_task. cbn [committed tasks with_tasks]. now rewrite (Hold i r Hg). }
  intros Hlinks. unfold calculate_task_readiness, task_links.
  cbn [committed session_tasks with_tasks PracticeTask.estimated_minutes k].
  change (PracticeTask.estimated_minutes k) with (PracticeTaskCreate.estimated_minutes task).
  destruct (PracticeTaskCreate.estimated_minutes task <=? 0) eqn:Ee; [reflexivity|].
  apply Z.leb_gt in Ee.
  replace (filter _ (session_tasks db ++ new_session_tasks db)) with (@nil SessionTask.t).
  - cbn [readiness_loop result_bind]. cbn [PracticeTask.total_time_practiced k].
    change (PracticeTask.total_time_practiced k) with 0.
    rewrite Z.add_0_l, Z.mul_0_l, Z.add_0_r.
    replace (PracticeTaskCreate.estimated_minutes task <=? 0) with false
      by (symmetry; apply Z.leb_gt; exact Ee).
    unfold PyFloat.int_truediv.
    replace (PracticeTaskCreate.estimated_minutes task =? 0) with false
      by (symmetry; apply Z.eqb_neq; lia).
    replace (PracticeTaskCreate.estimated_minutes task <? 0) with false
      by (symmetry; apply Z.ltb_ge; lia).
    reflexivity.
  - symmetry. induction (session_tasks db ++ new_session_tasks db) as [|st l IH];
      [reflexivity|]. cbn [filter].
    replace (SessionTask.task_id st =? PracticeTask.id k) with false
      by (symmetry; apply Z.eqb_neq, Hlinks; now left).
    apply IH. intros st' Hin. apply Hlinks. now right.
Qed.

(** * Joining an ensemble (crud.py, [join_ensemble]) *)

Module Ensemble.
Record t := mk { id : Z; ensemble_code : option string }.
End Ensemble.

Definition get_ensemble_by_code (ensembles : list Ensemble.t) (ensemble_code : string)
  : option Ensemble.t :=
  find (fun e => match Ensemble.ensemble_code e with
                 | Some c => String.eqb c ensemble_code
                 | None => false
                 end) ensembles.

Definition set_ensemble_id (u : User.t) (v : option Z) : User.t :=
  User.mk (User.id u) v (User.streak_count u) (User.total_points u) (User.level u)
          (User.last_practice_date u).

(** The ensembles table is only read. *)
Definition join_ensemble (ensembles : list Ensemble.t) (user_id : Z) (ensemble_code : string)
  : M (option Ensemble.t) :=
  match get_ensemble_by_code ensembles ensemble_code with
  | None => ret None
  | Some ensemble =>
      user <- get_user user_id ;;
      match user with
      | Some user => put_user (set_ensemble_id user (Some (Ensemble.id ensemble))) ;; commit
      | None => ret tt
      end ;;
      ret (Some ensemble)
  end.

Lemma board_has_member today db ensemble_id member :
  In member (get_ensemble_members db ensemble_id) ->
  exists e,
    In e (Leaderboard.entries (get_weekly_leaderboard today db ensemble_id))
    /\ LeaderboardEntry.user e = member.
Proof.
  intros Hin. unfold get_weekly_leaderboard. cbn [Leaderboard.entries].
  set (sorted := sort_reverse Entry.weekly_minutes _).
  assert (H : In (member_entry db (today - weekday today) (today - weekday today + 6) member)
                 sorted).
  { apply (Permutation_in _ (Permutation_sym (sort_reverse_perm Entry.weekly_minutes _))).
    now apply in_map. }
  rewrite <- (rank_entries_entry_of sorted 0) in H.
  apply in_map_iff in H as (e & E & He). exists e. split; [exact He|].
  apply (f_equal Entry.user) in E. exact E.
Qed.

(** X13: [join_ensemble] looks at the code first: an unknown code gives
    [None] and changes nothing; with a known code the ensemble is returned
    even when the user id is unknown (and then nothing changes); a known user
    becomes a member of that ensemble and of no other, keeps streak, points
    and level, and stands on that ensemble's weekly board. *)
Theorem join_ensemble_membership ensembles user_id ensemble_code db :
  match get_ensemble_by_code ensembles ensemble_code with
  | None => join_ensemble ensembles user_id ensemble_code db = (db, Ok None)
  | Some ensemble =>
      match find (fun u => User.id u =? user_id) (users db) with
      | None => join_ensemble ensembles user_id ensemble_code db = (db, Ok (Some ensemble))
      | Some user =>
          exists db',
            join_ensemble ensembles user_id ensemble_code db = (db', Ok (Some ensemble))
            /\ In (set_ensemble_id user (Some (Ensemble.id ensemble)))
                  (get_ensemble_members db' (Ensemble.id ensemble))
            /\ (forall e m, In m (get_ensemble_members db' e) -> User.id m = user_id ->
                            e = Ensemble.id ensemble
                            /\ User.total_points m = User.total_points user
                            /\ User.streak_count m = User.streak_count user
                            /\ User.level m = User.level user)
            /\ (forall m, In m (users db) -> User.id m <> user_id -> In m (users db'))
            /\ (forall today, exists entry,
                  In entry (Leaderboard.entries
                              (get_weekly_leaderboard today db' (Ensemble.id ensemble)))
                  /\ User.id (LeaderboardEntry.user entry) = user_id)
      end
  end.
Proof.
  unfold join_ensemble.
  destruct (get_ensemble_by_code ensembles ensemble_code) as [ensemble|]; [|reflexivity].
  rewrite run_bind, run_get_user.
  destruct (find _ (users db)) as [user|] eqn:Eu; [|reflexivity].
  pose proof (find_key User.id _ _ _ Eu) as Hid.
  rewrite run_bind, run_bind, run_put_user, run_commit, run_ret.
  set (u' := set_ensemble_id user (Some (Ensemble.id ensemble))).
  assert (Hmember : In u' (get_ensemble_members
                             (committed (with_users db (replace_user u' (users db))))
                             (Ensemble.id ensemble))).
  { unfold get_ensemble_members. cbn [committed users with_users].
    apply filter_In. split.
    - apply (find_some (fun u => User.id u =? user_id)).
      apply (find_replace_same User.id u' user_id _ user); [exact Hid|exact Eu].
    - cbn. apply Z.eqb_refl. }
  eexists. split; [reflexivity|]. split; [exact Hmember|]. split.
  { intros e m Hm Em. unfold get_ensemble_members in Hm.
    cbn [committed users with_users] in Hm. apply filter_In in Hm as (Hm & He).
    unfold replace_user, replace_row in Hm. apply in_map_iff in Hm as (r & Er & _).
    replace (User.id r =? User.id u') with true in Er.
    - subst m. cbn in He. apply Z.eqb_eq in He. auto.
    - symmetry. apply Z.eqb_eq.
      destruct (User.id r =? User.id u') eqn:E; [now apply Z.eqb_eq|].
      subst m. apply Z.eqb_neq in E. cbn in E. congruence. }
  split.
  { intros m Hm Hne. cbn [committed users with_users].
    apply In_replace_other; [exact Hm|]. cbn. congruence. }
  intros today.
  destruct (board_has_member today _ _ _ Hmember) as (entry & He & Eu').
  exists entry. split; [exact He|]. rewrite Eu'. exact Hid.
Qed.

(** * Challenge completions (crud.py, [complete_challenge]) *)

Module ChallengeCompletion.
Record t := mk { challenge_id : Z; user_id : Z }.
End ChallengeCompletion.

Definition completion_of (challenge_id user_id : Z) (c : ChallengeCompletion.t) : bool :=
  (ChallengeCompletion.challenge_id c =? challenge_id)
  && (ChallengeCompletion.user_id c =? user_id).

(** The table of completions is passed through; the result says whether a
    row was added. *)
Definition complete_challenge (completions : list ChallengeCompletion.t)
           (challenge_id user_id : Z) : list ChallengeCompletion.t * bool :=
  let existing := find (completion_of challenge_id user_id) completions in
  match existing with
  | Some _ => (completions, false)
  | None => (completions ++ [ChallengeCompletion.mk challenge_id user_id], true)
  end.

Lemma completion_of_spec challenge_id user_id c :
  completion_of challenge_id user_id c = true
  <-> c = ChallengeCompletion.mk challenge_id user_id.
Proof.
  unfold completion_of. destruct c as [a b]. cbn. rewrite andb_true_iff, !Z.eqb_eq.
  split; [intros (-> & ->); reflexivity|intros E; injection E; auto].
Qed.

(** X14: [complete_challenge] records a pair of challenge and user at most
    once: it answers [True] exactly when the pair was not recorded, and then
    appends it; a repeat answers [False] and changes nothing; the earlier
    rows stay, and a table without a doubled pair stays without one.  The
    call looks at no other table: neither the challenge nor the user need
    exist. *)
Theorem complete_challenge_once completions challenge_id user_id :
  let pair := ChallengeCompletion.mk challenge_id user_id in
  let '(completions', added) := complete_challenge completions challenge_id user_id in
  (added = true <-> ~ In pair completions)
  /\ completions' = (if added then completions ++ [pair] else completions)
  /\ In pair completions'
  /\ complete_challenge completions' challenge_id user_id = (completions', false)
  /\ (NoDup completions -> NoDup completions').
Proof.
  cbv zeta. unfold complete_challenge.
  set (pair := ChallengeCompletion.mk challenge_id user_id).
  destruct (find (completion_of challenge_id user_id) completions) as [c|] eqn:Ef.
  - apply find_some in Ef as (Hin & Hc). apply completion_of_spec in Hc. subst c.
    fold pair in Hin. split; [split; [discriminate|contradiction]|].
    split; [reflexivity|]. split; [exact Hin|]. split; [|auto].
    destruct (find _ completions) as [c|] eqn:Ef; [reflexivity|].
    apply (find_none _ _ Ef) in Hin. unfold pair, completion_of in Hin. cbn in Hin.
    now rewrite !Z.eqb_refl in Hin.
  - assert (Hnin : ~ In pair completions).
    { intros Hin. apply (find_none _ _ Ef) in Hin. unfold pair, completion_of in Hin.
      cbn in Hin. now rewrite !Z.eqb_refl in Hin. }
    split; [split; auto|]. split; [reflexivity|].
    split; [apply in_or_app; right; now left|]. split.
    + destruct (find _ (completions ++ [pair])) as [c|] eqn:Ef'; [reflexivity|].
      exfalso. assert (Hin : In pair (completions ++ [pair]))
        by (apply in_or_app; right; now left).
      apply (find_none _ _ Ef') in Hin. unfold pair, completion_of in Hin. cbn in Hin.
      now rewrite !Z.eqb_refl in Hin.
    + intros Hnd. apply NoDup_app; [exact Hnd|repeat constructor; intros []|].
      intros x Hx [<-|[]]. contradiction.
Qed.

(** ** Progress of a challenge ([get_challenge_progress]) *)

Module GroupChallenge.
Record t := mk { id : Z; ensemble_id : Z }.
End GroupChallenge.

Module ChallengeProgress.
Record t := mk {
  challenge : GroupChallenge.t;
  total_members : Z;
  completed_count : Z;
  completed_by : list User.t;
  user_completed : bool
}.
End ChallengeProgress.

(** What the call hands back: a value, or the validation error of the
    schema, which wants a user for every entry of [completed_by]. *)
Inductive validated (A : Type) : Type :=
| Valid (a : A)
| ValidationError.
Arguments Valid {A} a.
Arguments ValidationError {A}.

(** [[c.user for c in completions]]: the user row of each completion, if
    all of them exist. *)
Fixpoint completed_users (db : Store) (completions : list ChallengeCompletion.t)
  : option (list User.t) :=
  match completions with
  | [] => Some []
  | c :: rest =>
      match find (fun u => User.id u =? ChallengeCompletion.user_id c) (users db),
            completed_users db rest with
      | Some user, Some users => Some (user :: users)
      | _, _ => None
      end
  end.

Definition get_challenge_progress (db : Store) (challenges : list GroupChallenge.t)
           (all_completions : list ChallengeCompletion.t)
           (challenge_id current_user_id : Z)
  : validated (option ChallengeProgress.t) :=
  match find (fun c => GroupChallenge.id c =? challenge_id) challenges with
  | None => Valid None
  | Some challenge =>
      let members := get_ensemble_members db (GroupChallenge.ensemble_id challenge) in
      let total_members := Z.of_nat (List.length members) in
      let completions :=
        filter (fun c => ChallengeCompletion.challenge_id c =? challenge_id)
               all_completions in
      let user_completed :=
        existsb (fun c => ChallengeCompletion.user_id c =? current_user_id) completions in
      match completed_users db completions with
      | Some completed_users =>
          Valid (Some (ChallengeProgress.mk challenge total_members
                         (Z.of_nat (List.length completions)) completed_users
                         user_completed))
      | None => ValidationError
      end
  end.

Lemma completed_users_app db l1 l2 :
  completed_users db (l1 ++ l2)
  = match completed_users db l1, completed_users db l2 with
    | Some a, Some b => Some (a ++ b)
    | _, _ => None
    end.
Proof.
  induction l1 as [|c l1 IH]; cbn [app completed_users].
  - now destruct (completed_users db l2).
  - rewrite IH. destruct (find _ (users db)); [|reflexivity].
    destruct (completed_users db l1), (completed_users db l2); reflexivity.
Qed.

(** X15: the progress of a challenge follows [complete_challenge]: when the
    progress could be shown before and the user exists, it can be shown
    after the call, then says that this user has completed the challenge,
    counts one completion more exactly when the call answered [True], lists
    the users as before with this user added in that case, and shows the
    same challenge and number of members.  The count is not bounded by
    the number of members: the completing user need not be one. *)
Theorem progress_after_completion db challenges completions challenge_id user_id
        viewer before user :
  get_challenge_progress db challenges completions challenge_id viewer
  = Valid (Some before) ->
  find (fun u => User.id u =? user_id) (users db) = Some user ->
  let '(completions', added) := complete_challenge completions challenge_id user_id in
  exists after,
    get_challenge_progress db challenges completions' challenge_id user_id
    = Valid (Some after)
    /\ ChallengeProgress.user_completed after = true
    /\ ChallengeProgress.completed_count after
       = ChallengeProgress.completed_count before + (if added then 1 else 0)
    /\ ChallengeProgress.completed_by after
       = ChallengeProgress.completed_by before ++ (if added then [user] else [])
    /\ ChallengeProgress.total_members after = ChallengeProgress.total_members before
    /\ ChallengeProgress.challenge after = ChallengeProgress.challenge before.
Proof.
  intros Hb Hu. unfold get_challenge_progress in *.
  destruct (find _ challenges) as [challenge|]; [|discriminate]. cbv zeta in *.
  set (mine := fun c => ChallengeCompletion.challenge_id c =? challenge_id) in *.
  destruct (completed_users db (filter mine completions)) as [cu|] eqn:Ecu; [|discriminate].
  injection Hb as <-. cbn [ChallengeProgress.completed_count ChallengeProgress.completed_by
    ChallengeProgress.total_members ChallengeProgress.challenge].
  unfold complete_challenge.
  set (pair := ChallengeCompletion.mk challenge_id user_id).
  destruct (find (completion_of challenge_id user_id) completions) as [c|] eqn:Ef.
  - rewrite Ecu. eexists. split; [reflexivity|].
    cbn [ChallengeProgress.user_completed ChallengeProgress.completed_count
         ChallengeProgress.completed_by ChallengeProgress.total_members
         ChallengeProgress.challenge].
    rewrite Z.add_0_r, app_nil_r. split; [|auto].
    apply existsb_exists. apply find_some in Ef as (Hin & Hc).
    apply completion_of_spec in Hc. subst c. exists pair. split.
    + apply filter_In. split; [exact Hin|]. unfold mine. cbn. apply Z.eqb_refl.
    + cbn. apply Z.eqb_refl.
  - assert (Efil : filter mine (completions ++ [pair]) = filter mine completions ++ [pair]).
    { rewrite filter_app. cbn [filter].
      replace (mine pair) with true; [reflexivity|].
      symmetry. unfold mine, pair. cbn. apply Z.eqb_refl. }
    rewrite Efil, completed_users_app, Ecu. cbn [completed_users].
    change (ChallengeCompletion.user_id pair) with user_id. rewrite Hu.
    eexists. split; [reflexivity|].
    cbn [ChallengeProgress.user_completed ChallengeProgress.completed_count
         ChallengeProgress.completed_by ChallengeProgress.total_members
         ChallengeProgress.challenge].
    split.
    + rewrite existsb_app. cbn [existsb].
      change (ChallengeCompletion.user_id pair) with user_id.
      rewrite Z.eqb_refl. now rewrite orb_true_r.
    + split; [rewrite length_app; cbn [List.length]; lia|auto].
Qed.

(** * Notes between teacher and student (crud.py, "TEACHER NOTE OPERATIONS") *)

Module TeacherNote.
Record t := mk { id : Z; sender_id : Z; recipient_id : Z; is_read : bool }.
End TeacherNote.

Module TeacherNoteCreate.
Record t := mk { recipient_id : Z }.
End TeacherNoteCreate.

Definition set_is_read (n : TeacherNote.t) (v : bool) : TeacherNote.t :=
  TeacherNote.mk (TeacherNote.id n) (TeacherNote.sender_id n) (TeacherNote.recipient_id n) v.

(** The row is stored under a fresh id, unread by default. *)
Definition create_teacher_note (notes : list TeacherNote.t) (sender_id : Z)
           (note : TeacherNoteCreate.t) : list TeacherNote.t * TeacherNote.t :=
  let db_note := TeacherNote.mk (next_id (map TeacherNote.id notes)) sender_id
                                (TeacherNoteCreate.recipient_id note) false in
  (notes ++ [db_note], db_note).

Definition mark_note_as_read (notes : list TeacherNote.t) (note_id : Z)
  : list TeacherNote.t * option TeacherNote.t :=
  match find (fun n => TeacherNote.id n =? note_id) notes with
  | None => (notes, None)
  | Some note =>
      let note := set_is_read note true in
      (replace_row TeacherNote.id note notes, Some note)
  end.

(** The rows the bulk update of [mark_notes_as_read] matches. *)
Definition unread_from (user_id sender_id : Z) (n : TeacherNote.t) : bool :=
  (TeacherNote.recipient_id n =? user_id)
  && (TeacherNote.sender_id n =? sender_id)
  && negb (TeacherNote.is_read n).

(** [query.update({is_read: True})]: the rows matched are set and counted. *)
Definition mark_notes_as_read (notes : list TeacherNote.t) (user_id sender_id : Z)
  : list TeacherNote.t * Z :=
  let result := Z.of_nat (List.length (filter (unread_from user_id sender_id) notes)) in
  (map (fun n => if unread_from user_id sender_id n then set_is_read n true else n) notes,
   result).

Section NoteQueries.

(** The column [created_at], which the record leaves out. *)
Variable created_at : TeacherNote.t -> Z.

Definition get_user_unread_notes (notes : list TeacherNote.t) (user_id : Z)
  : list TeacherNote.t :=
  sort_reverse created_at
    (filter (fun n => (TeacherNote.recipient_id n =? user_id)
                      && negb (TeacherNote.is_read n)) notes).

End NoteQueries.

Lemma unread_from_marked user_id sender_id notes :
  filter (unread_from user_id sender_id)
         (map (fun n => if unread_from user_id sender_id n then set_is_read n true else n)
              notes) = [].
Proof.
  induction notes as [|n notes IH]; [reflexivity|]. cbn [map filter].
  destruct (unread_from user_id sender_id n) eqn:E.
  - unfold unread_from at 1. cbn [set_is_read TeacherNote.is_read negb].
    rewrite andb_false_r. exact IH.
  - rewrite E. exact IH.
Qed.

(** X16: [mark_notes_as_read] returns the number of unread notes the sender
    had sent to the user and leaves none of them unread; the notes of other
    senders and to other recipients are untouched, so the user's other
    unread notes are still listed; a second call finds nothing to mark,
    returns 0 and changes nothing. *)
Theorem mark_notes_as_read_clears created_at notes user_id sender_id :
  let '(notes', count) := mark_notes_as_read notes user_id sender_id in
  count = Z.of_nat (List.length (filter (unread_from user_id sender_id) notes))
  /\ (forall n, In n (get_user_unread_notes created_at notes' user_id) ->
                TeacherNote.sender_id n <> sender_id)
  /\ (forall n, TeacherNote.sender_id n <> sender_id ->
                (In n (get_user_unread_notes created_at notes' user_id)
                 <-> In n (get_user_unread_notes created_at notes user_id)))
  /\ (forall n, In n notes -> unread_from user_id sender_id n = false -> In n notes')
  /\ map TeacherNote.id notes' = map TeacherNote.id notes
  /\ mark_notes_as_read notes' user_id sender_id = (notes', 0).
Proof.
  unfold mark_notes_as_read. cbv zeta.
  set (mark := fun n => if unread_from user_id sender_id n then set_is_read n true else n).
  assert (Hin : forall n, In n (map mark notes)
                          -> unread_from user_id sender_id n = false).
  { intros n Hn. apply in_map_iff in Hn as (r & <- & _). unfold mark.
    destruct (unread_from user_id sender_id r) eqn:E; [|exact E].
    unfold unread_from. cbn [set_is_read TeacherNote.is_read negb]. apply andb_false_r. }
  split; [reflexivity|]. split.
  { intros n Hn E. unfold get_user_unread_notes in Hn.
    apply (Permutation_in _ (sort_reverse_perm created_at _)) in Hn.
    apply filter_In in Hn as (Hn & Hu). apply Hin in Hn.
    unfold unread_from in Hn. apply andb_true_iff in Hu as (H1 & H2).
    rewrite H1, H2, E, Z.eqb_refl in Hn. discriminate. }
  split.
  { intros n Hne. unfold get_user_unread_notes.
    split; intros Hn;
      apply (Permutation_in _ (sort_reverse_perm created_at _)) in Hn;
      apply (Permutation_in _ (Permutation_sym (sort_reverse_perm created_at _)));
      apply filter_In in Hn as (Hn & Hu); apply filter_In; (split; [|exact Hu]).
    - apply in_map_iff in Hn as (r & E & Hr). unfold mark in E.
      destruct (unread_from user_id sender_id r) eqn:Er; [|now subst].
      exfalso. subst n. cbn in Hu. now rewrite andb_false_r in Hu.
    - apply in_map_iff. exists n. split; [|exact Hn]. unfold mark.
      replace (unread_from user_id sender_id n) with false; [reflexivity|].
      symmetry. unfold unread_from.
      replace (TeacherNote.sender_id n =? sender_id) with false
        by (symmetry; now apply Z.eqb_neq).
      now rewrite andb_false_r. }
  split.
  { intros n Hn E. apply in_map_iff. exists n. split; [|exact Hn]. unfold mark. now rewrite E. }
  split.
  { rewrite map_map. apply map_ext. intros n. unfold mark.
    destruct (unread_from user_id sender_id n); reflexivity. }
  f_equal.
  - rewrite <- (map_id (map mark notes)) at 2. apply map_ext_in. intros n Hn.
    pose proof (Hin n Hn) as E. unfold mark. now rewrite E.
  - unfold mark. now rewrite unread_from_marked.
Qed.

Lemma unread_In created_at notes user_id n :
  In n (get_user_unread_notes created_at notes user_id)
  <-> In n notes /\ TeacherNote.recipient_id n = user_id /\ TeacherNote.is_read n = false.
Proof.
  unfold get_user_unread_notes. split.
  - intros H. apply (Permutation_in _ (sort_reverse_perm created_at _)) in H.
    apply filter_In in H as (H & Hc). apply andb_true_iff in Hc as (H1 & H2).
    apply Z.eqb_eq in H1. apply negb_true_iff in H2. auto.
  - intros (H & H1 & H2).
    apply (Permutation_in _ (Permutation_sym (sort_reverse_perm created_at _))).
    apply filter_In. split; [exact H|]. now rewrite H1, H2, Z.eqb_refl.
Qed.

(** X17: a note created is listed among the recipient's unread notes;
    [mark_note_as_read] with its id then takes exactly this note off the
    list and touches no other note; with an id no note has it returns [None]
    and changes nothing. *)
Theorem note_read_round_trip created_at notes sender_id payload :
  let '(notes1, note) := create_teacher_note notes sender_id payload in
  let user_id := TeacherNoteCreate.recipient_id payload in
  In note (get_user_unread_notes created_at notes1 user_id)
  /\ (forall n, In n notes -> TeacherNote.id n < TeacherNote.id note)
  /\ (let '(notes2, r) := mark_note_as_read notes1 (TeacherNote.id note) in
      r = Some (set_is_read note true)
      /\ notes2 = notes ++ [set_is_read note true]
      /\ forall n u, In n (get_user_unread_notes created_at notes2 u)
                     <-> In n (get_user_unread_notes created_at notes u))
  /\ (forall note_id,
        find (fun n => TeacherNote.id n =? note_id) notes1 = None ->
        mark_note_as_read notes1 note_id = (notes1, None)).
Proof.
  unfold create_teacher_note. cbv zeta.
  set (note := TeacherNote.mk _ _ _ _).
  assert (Hfresh : forall n, In n notes -> TeacherNote.id n < TeacherNote.id note).
  { intros n Hn. apply next_id_fresh. now apply in_map. }
  split.
  { apply unread_In. split; [apply in_or_app; right; now left|]. split; reflexivity. }
  split; [exact Hfresh|]. split.
  - unfold mark_note_as_read.
    assert (Hf : find (fun n => TeacherNote.id n =? TeacherNote.id note) (notes ++ [note])
                 = Some note).
    { clearbody note. clear - Hfresh. induction notes as [|r notes IH]; cbn [app find].
      - now rewrite Z.eqb_refl.
      - pose proof (Hfresh r (or_introl eq_refl)).
        replace (TeacherNote.id r =? TeacherNote.id note) with false
          by (symmetry; apply Z.eqb_neq; lia).
        apply IH. intros n Hn. apply Hfresh. now right. }
    rewrite Hf. split; [reflexivity|].
    assert (Hrep : replace_row TeacherNote.id (set_is_read note true) (notes ++ [note])
                   = notes ++ [set_is_read note true]).
    { unfold replace_row. rewrite map_app. cbn [map].
      change (TeacherNote.id (set_is_read note true)) with (TeacherNote.id note).
      rewrite Z.eqb_refl. f_equal.
      rewrite <- (map_id notes) at 2. apply map_ext_in. intros r Hr.
      pose proof (Hfresh r Hr).
      replace (TeacherNote.id r =? TeacherNote.id note) with false
        by (symmetry; apply Z.eqb_neq; lia).
      reflexivity. }
    split; [exact Hrep|]. rewrite Hrep. intros n u. rewrite !unread_In. split.
    + intros (Hn & H1 & H2). apply in_app_or in Hn as [Hn|[<-|[]]]; [auto|].
      discriminate H2.
    + intros (Hn & H1 & H2). split; [apply in_or_app; now left|auto].
  - intros note_id Hnone. unfold mark_note_as_read. now rewrite Hnone.
Qed.

(** * Dashboard statistics (crud.py, [get_user_stats]) *)

Module UserStats.
Record t := mk {
  streak_count : Z;
  total_points : Z;
  level : Z;
  weekly_minutes : Z;
  weekly_goal_minutes : Z;
  weekly_progress_percent : PyFloat.float
}.
End UserStats.

(** [min(weekly_progress, 100)]: the second argument only when it is smaller. *)
Definition min_100 (weekly_progress : num) : num :=
  match weekly_progress with
  | Int n => if 100 <? n then Int 100 else Int n
  | Float x => if SFltb (PyFloat.literal 100 1) x then Int 100 else Float x
  end.

(** A number handed to a [float] field of a schema. *)
Definition as_float (a : num) : result PyFloat.float :=
  match a with
  | Int n => PyFloat.of_int n
  | Float x => Ok x
  end.

Section Dashboard.

(** The column [weekly_goal_minutes] of [users], which the record leaves out. *)
Variable weekly_goal_minutes : User.t -> Z.

Definition get_user_stats (today : Z) (db : Store) (user_id : Z)
  : result (option UserStats.t) :=
  match find (fun u => User.id u =? user_id) (users db) with
  | None => Ok None
  | Some user =>
      let weekly_minutes := get_user_weekly_minutes today db user_id in
      result_bind
        (if 0 <? weekly_goal_minutes user
         then result_bind (PyFloat.int_truediv weekly_minutes (weekly_goal_minutes user))
                (fun q => result_map Float (PyFloat.mul_int q 100))
         else Ok (Int 0))
        (fun weekly_progress =>
           result_bind (as_float (min_100 weekly_progress)) (fun percent =>
             Ok (Some (UserStats.mk (User.streak_count user) (User.total_points user)
                                    (User.level user) weekly_minutes
                                    (weekly_goal_minutes user) percent))))
  end.

(** X18: for a known user whose sessions have non-negative durations,
    [get_user_stats] returns the stored streak, points and level, the weekly
    minutes of [get_user_weekly_minutes], and a progress between 0.0 and
    100.0, which is 0.0 when the goal is not positive; for an unknown user it
    returns [None]. *)
Theorem get_user_stats_progress today db user_id :
  (forall s, In s (sessions db) -> 0 <= PracticeSession.duration_minutes s) ->
  get_user_weekly_minutes today db user_id < 2 ^ 1000 ->
  match find (fun u => User.id u =? user_id) (users db) with
  | None => get_user_stats today db user_id = Ok None
  | Some user =>
      exists percent,
        get_user_stats today db user_id
        = Ok (Some (UserStats.mk (User.streak_count user) (User.total_points user)
                                 (User.level user)
                                 (get_user_weekly_minutes today db user_id)
                                 (weekly_goal_minutes user) percent))
        /\ PyFloat.leb PyFloat.zero percent = true
        /\ PyFloat.leb percent (PyFloat.literal 100 1) = true
        /\ (weekly_goal_minutes user <= 0 -> percent = PyFloat.zero)
  end.
Proof.
  intros Hpos Hbound. unfold get_user_stats.
  destruct (find _ (users db)) as [user|]; [|reflexivity].
  assert (Hwm : 0 <= get_user_weekly_minutes today db user_id).
  { unfold get_user_weekly_minutes. rewrite or_0_scalar_sum. apply sum_Z_nonneg.
    intros x Hx. apply in_map_iff in Hx as (r & <- & Hr).
    apply filter_In in Hr as (Hr & _). now apply Hpos. }
  set (wm := get_user_weekly_minutes today db user_id) in *.
  destruct (0 <? weekly_goal_minutes user) eqn:Eg.
  - apply Z.ltb_lt in Eg.
    destruct (int_truediv_nonneg wm (weekly_goal_minutes user) Hwm Eg) as (q & Eq & Hq).
    { assert (0 < 2 ^ 1000) by (apply Z.pow_pos_nonneg; lia). nia. }
    rewrite Eq. cbn [result_bind]. unfold PyFloat.mul_int.
    change (PyFloat.of_int 100) with (Ok (PyFloat.literal 100 1)).
    cbn [result_map result_bind min_100].
    pose proof (mul_nonneg q 7036874417766400 (-46) Hq) as Hx.
    change (S754_finite false 7036874417766400 (-46)) with (PyFloat.literal 100 1) in Hx.
    destruct (min_hundred_range _ Hx) as (H1 & H2). unfold PyFloat.min in H1, H2.
    destruct (SFltb (PyFloat.literal 100 1) (PyFloat.mul q (PyFloat.literal 100 1)));
      cbn [as_float result_bind].
    + change (PyFloat.of_int 100) with (Ok (PyFloat.literal 100 1)). cbn [result_bind].
      eexists. split; [reflexivity|]. split; [exact H1|]. split; [exact H2|]. lia.
    + eexists. split; [reflexivity|]. split; [exact H1|]. split; [exact H2|]. lia.
  - cbn [result_bind min_100]. change (100 <? 0) with false. cbn [as_float].
    change (PyFloat.of_int 0) with (Ok PyFloat.zero). cbn [result_bind].
    eexists. split; [reflexivity|]. split; [reflexivity|]. split; [reflexivity|].
    reflexivity.
Qed.

End Dashboard.

(** * The route [POST /api/sessions] (main.py, [create_session]) *)

(** What a route hands to the framework: a value, an [HTTPException] it
    raised itself, or an exception it let through. *)
Inductive response (A : Type) : Type :=
| Reply (a : A)
| HTTPException (status_code : Z) (detail : string)
| Unhandled (e : exn).
Arguments Reply {A} a.
Arguments HTTPException {A} status_code detail.
Arguments Unhandled {A} e.

(** [try: return crud.create_practice_session(db, session)]
    [except ValueError as e: raise HTTPException(status_code=400, detail=str(e))] *)
Definition create_session (today : Z) (session : PracticeSessionCreate.t) (db : Store)
  : Store * response PracticeSession.t :=
  match create_practice_session today session db with
  | (db', Ok db_session) => (db', Reply db_session)
  | (db', Raise (ValueError msg)) => (db', HTTPException 400 msg)
  | (db', Raise e) => (db', Unhandled e)
  end.

Definition other_than_ValueError (e : exn) : Prop :=
  match e with
  | ValueError _ => False
  | _ => True
  end.

Definition is_number (x : PyFloat.float) : Prop :=
  match x with
  | S754_nan => False
  | _ => True
  end.

Lemma binary_round_aux_number s m e l :
  0 <= m -> is_number (binary_round_aux PyFloat.prec PyFloat.emax s m e l).
Proof.
  intros Hm. pose proof (binary_round_aux_sign s m e l Hm) as H.
  destruct (binary_round_aux _ _ _ _ _ _); cbn; auto.
Qed.

Lemma of_int_number n x : PyFloat.of_int n = Ok x -> is_number x.
Proof.
  unfold PyFloat.of_int, binary_normalize, binary_round. intros H.
  destruct n as [|p|p].
  - injection H as <-. exact I.
  - destruct (shl_align _ _ _) as [mz ez].
    pose proof (binary_round_aux_number false (Z.pos mz) ez loc_Exact ltac:(lia)) as Hn.
    destruct (binary_round_aux _ _ _ _ _ _); try discriminate; injection H as <-; exact Hn.
  - destruct (shl_align _ _ _) as [mz ez].
    pose proof (binary_round_aux_number true (Z.pos mz) ez loc_Exact ltac:(lia)) as Hn.
    destruct (binary_round_aux _ _ _ _ _ _); try discriminate; injection H as <-; exact Hn.
Qed.

Lemma mul_number x s m e :
  is_number x -> is_number (PyFloat.mul x (S754_finite s m e)).
Proof.
  intros Hx. unfold PyFloat.mul, SFmul. destruct x as [sx|sx| |sx mx ex]; try exact I.
  - contradiction.
  - apply binary_round_aux_number. lia.
Qed.

Lemma to_int_number x e : is_number x -> PyFloat.to_int x = Raise e -> other_than_ValueError e.
Proof.
  destruct x; cbn; intros Hx H; try discriminate; [|contradiction].
  injection H as <-. exact I.
Qed.

Lemma of_int_raises n e : PyFloat.of_int n = Raise e -> other_than_ValueError e.
Proof.
  unfold PyFloat.of_int. destruct (binary_normalize _ _ _ _ _); intros H; try discriminate.
  injection H as <-. exact I.
Qed.

Lemma calculate_points_raises session user e :
  calculate_points session user = Raise e -> other_than_ValueError e.
Proof.
  unfold calculate_points.
  destruct (streak_multiplier_finite (User.streak_count user)) as (m1 & e1 & ->).
  cbn [num_mul]. unfold PyFloat.int_mul.
  destruct (PyFloat.of_int (PracticeSession.duration_minutes session)) as [fd|e0] eqn:Ed.
  2:{ cbn [result_map result_bind]. intros H. injection H as <-.
      now apply of_int_raises in Ed. }
  pose proof (of_int_number _ _ Ed) as Hfd. cbn [result_map result_bind].
  pose proof (mul_number fd false m1 e1 Hfd) as Hx.
  destruct (one_plus_bonus_finite (PracticeSession.focus_rating session))
    as (m2 & e2 & [->| ->]); cbn [result_bind num_mul].
  - unfold PyFloat.mul_int. change (PyFloat.of_int 1) with (Ok (S754_finite false 4503599627370496 (-52))).
    cbn [result_map result_bind num_int]. apply to_int_number. now apply mul_number.
  - cbn [num_int]. apply to_int_number. now apply mul_number.
Qed.

Lemma readiness_loop_raises db l : forall acc e,
  readiness_loop db acc l = Raise e -> other_than_ValueError e.
Proof.
  induction l as [|st l IH]; intros acc e H; [discriminate|].
  cbn [readiness_loop] in H.
  destruct (readiness_round db acc st) as [acc'|e0] eqn:Er.
  - cbn [result_bind] in H. eapply IH, H.
  - cbn [result_bind] in H. injection H as <-. unfold readiness_round in Er.
    destruct (find _ (sessions db)) as [p|]; [|injection Er as <-; exact I].
    destruct acc as [a b].
    destruct (truthy (PracticeSession.focus_rating p)),
             (truthy (PracticeSession.progress_rating p)),
             (truthy (PracticeSession.energy_rating p)); discriminate.
Qed.

Lemma int_truediv_raises a b e :
  PyFloat.int_truediv a b = Raise e -> other_than_ValueError e.
Proof.
  unfold PyFloat.int_truediv.
  destruct (b =? 0); [intros H; injection H as <-; exact I|].
  destruct (a =? 0); [discriminate|].
  destruct (SFdiv _ _ _ _); intros H; try discriminate. injection H as <-. exact I.
Qed.

Lemma calculate_task_readiness_raises db task e :
  calculate_task_readiness db task = Raise e -> other_than_ValueError e.
Proof.
  unfold calculate_task_readiness.
  destruct (PracticeTask.estimated_minutes task <=? 0); [discriminate|].
  destruct (readiness_loop db (0, 0) _) as [[a b]|e0] eqn:El.
  - cbn [result_bind]. destruct (_ <=? 0); [discriminate|].
    destruct (PyFloat.int_truediv _ _) as [q|e0] eqn:Eq.
    + cbn [result_bind]. unfold PyFloat.mul_int.
      change (PyFloat.of_int 100) with (Ok (PyFloat.literal 100 1)). discriminate.
    + cbn [result_bind]. intros H. injection H as <-. eapply int_truediv_raises, Eq.
  - cbn [result_bind]. intros H. injection H as <-. eapply readiness_loop_raises, El.
Qed.

Lemma link_loop_raises db_session l : forall db db2 e,
  for_each l (link_task db_session) db = (db2, Raise e) -> other_than_ValueError e.
Proof.
  induction l as [|td l IH]; intros db db2 e H.
  - cbn [for_each] in H. rewrite run_ret in H. discriminate.
  - cbn [for_each] in H. rewrite run_bind in H.
    pose proof (run_link_task db_session td db) as Hstep. cbv zeta in Hstep.
    destruct (link_task db_session td db) as [dbA [[]|e0]].
    + eapply IH, H.
    + injection H as _ <-.
      destruct (find _ (tasks db)); [|discriminate].
      destruct (calculate_task_readiness db _) as [r|e1] eqn:Er; [discriminate|].
      injection Hstep as _ <-. eapply calculate_task_readiness_raises, Er.
Qed.

(** X19: the route answers 400 exactly when the user is unknown: then the
    detail is the text of the error and the store is as it was; for a known
    user it never raises an [HTTPException], whatever else goes wrong. *)
Theorem create_session_bad_request today session db :
  match find (fun u => User.id u =? PracticeSessionCreate.user_id session) (users db) with
  | None => create_session today session db = (db, HTTPException 400 "User not found")
  | Some _ =>
      forall status_code detail,
        snd (create_session today session db) <> HTTPException status_code detail
  end.
Proof.
  unfold create_session.
  pose proof (create_practice_session_tables today session db) as T. cbv zeta in T.
  destruct (find _ (users db)) as [user|] eqn:Eu; [|now rewrite T].
  intros status_code detail.
  destruct (calculate_points (mk_session session) (update_streak today user))
    as [points|e] eqn:Ep.
  - clear T. rewrite (create_practice_session_run today session db user points Eu Ep).
    cbv zeta.
    destruct (PracticeSessionCreate.tasks session) as [|td l]; [discriminate|].
    rewrite run_bind.
    destruct (for_each (td :: l) (link_task _) _) as [db2 [[]|e]] eqn:El.
    + rewrite run_commit. discriminate.
    + apply link_loop_raises in El. destruct e; [contradiction|discriminate..].
  - rewrite T. apply calculate_points_raises in Ep.
    destruct e; [contradiction|discriminate..].
Qed.

(** * The practice history (crud.py, [get_user_sessions]) *)

Section History.

(** The instant of a [start_time], by which the query orders. *)
Variable instant : DateTime.t -> Z.

Definition started_at (s : PracticeSession.t) : Z := instant (PracticeSession.start_time s).

(** [if start_date:] and [if end_date:] add their filter when a date is given. *)
Definition in_range (user_id : Z) (start_date end_date : option Z) (s : PracticeSession.t)
  : bool :=
  (PracticeSession.user_id s =? user_id)
  && match start_date with
     | Some d => d <=? DateTime.date (PracticeSession.start_time s)
     | None => true
     end
  && match end_date with
     | Some d => DateTime.date (PracticeSession.start_time s) <=? d
     | None => true
     end.

(** [LIMIT n]: a negative [n] is no limit. *)
Definition limited {A} (limit : Z) (rows : list A) : list A :=
  if limit <? 0 then rows else firstn (Z.to_nat limit) rows.

Definition get_user_sessions (db : Store) (user_id : Z) (start_date end_date : option Z)
           (limit : Z) : list PracticeSession.t :=
  limited limit
    (sort_reverse started_at (filter (in_range user_id start_date end_date) (sessions db))).

Lemma StronglySorted_firstn {A} (R : A -> A -> Prop) n : forall l,
  StronglySorted R l -> StronglySorted R (firstn n l).
Proof.
  induction n as [|n IH]; intros l H; [constructor|].
  destruct l as [|x l]; [constructor|]. cbn [firstn].
  inversion H as [|? ? Hs Hf]; subst. constructor; [now apply IH|].
  rewrite Forall_forall in *. intros y Hy. apply Hf.
  rewrite <- (firstn_skipn n l). apply in_or_app. now left.
Qed.

Lemma StronglySorted_split {A} (R : A -> A -> Prop) n : forall l,
  StronglySorted R l ->
  forall x y, In x (firstn n l) -> In y (skipn n l) -> R x y.
Proof.
  induction n as [|n IH]; intros l H x y Hx Hy; [contradiction|].
  destruct l as [|a l]; [contradiction|]. cbn [firstn skipn] in Hx, Hy.
  inversion H as [|? ? Hs Hf]; subst. destruct Hx as [<-|Hx].
  - rewrite Forall_forall in Hf. apply Hf.
    rewrite <- (firstn_skipn n l). apply in_or_app. now right.
  - now apply (IH l).
Qed.

(** X20: [get_user_sessions] returns sessions of the user inside the date
    range, newest first, at most [limit] of them when [limit] is not
    negative; it leaves out only sessions that are not newer than every one
    it returns, and nothing at all when the limit is negative or no smaller
    than the number of matching sessions. *)
Theorem get_user_sessions_newest db user_id start_date end_date limit :
  let rows := get_user_sessions db user_id start_date end_date limit in
  let matching := filter (in_range user_id start_date end_date) (sessions db) in
  (forall s, In s rows ->
     In s (sessions db) /\ PracticeSession.user_id s = user_id
     /\ in_range user_id start_date end_date s = true)
  /\ StronglySorted (fun a b => started_at b <= started_at a) rows
  /\ (0 <= limit -> Z.of_nat (List.length rows) <= limit)
  /\ (exists rest,
        Permutation (rows ++ rest) matching
        /\ forall s r, In s rows -> In r rest -> started_at r <= started_at s)
  /\ (limit < 0 \/ Z.of_nat (List.length matching) <= limit -> Permutation rows matching).
Proof.
  cbv zeta. unfold get_user_sessions.
  set (matching := filter (in_range user_id start_date end_date) (sessions db)).
  set (sorted := sort_reverse started_at matching).
  assert (Hperm : Permutation sorted matching) by apply sort_reverse_perm.
  assert (Hsorted : StronglySorted (fun a b => started_at b <= started_at a) sorted)
    by apply (sort_reverse_sorted started_at).
  assert (Hsub : forall s, In s (limited limit sorted) -> In s sorted).
  { unfold limited. intros s Hs. destruct (limit <? 0); [exact Hs|].
    rewrite <- (firstn_skipn (Z.to_nat limit) sorted). apply in_or_app. now left. }
  split.
  { intros s Hs. apply Hsub in Hs. apply (Permutation_in _ Hperm) in Hs.
    apply filter_In in Hs as (Hs & Hr). split; [exact Hs|]. split; [|exact Hr].
    unfold in_range in Hr. apply andb_true_iff in Hr as (Hr & _).
    apply andb_true_iff in Hr as (Hr & _). now apply Z.eqb_eq. }
  split.
  { unfold limited. destruct (limit <? 0); [exact Hsorted|].
    now apply StronglySorted_firstn. }
  split.
  { intros Hl. unfold limited.
    replace (limit <? 0) with false by (symmetry; apply Z.ltb_ge; lia).
    pose proof (firstn_le_length (Z.to_nat limit) sorted). lia. }
  split.
  { unfold limited. destruct (limit <? 0).
    - exists []. rewrite app_nil_r. split; [exact Hperm|]. intros s r _ [].
    - exists (skipn (Z.to_nat limit) sorted). rewrite firstn_skipn.
      split; [exact Hperm|]. intros s r Hs Hr.
      exact (StronglySorted_split _ _ _ Hsorted s r Hs Hr). }
  intros Hl. unfold limited. destruct (Z.ltb_spec limit 0) as [_|Hge]; [exact Hperm|].
  destruct Hl as [Hl|Hl]; [lia|].
  rewrite firstn_all2; [exact Hperm|].
  rewrite (Permutation_length Hperm). lia.
Qed.

End History.

(** * Teachers and students (crud.py, "TEACHER-STUDENT OPERATIONS") *)

Inductive UserRole : Type := STUDENT | TEACHER | PERSONAL.

Module Account.
(** A row of [users] with the columns of the teacher link beside the
    engine's. *)
Record t := mk {
  user : User.t;
  role : UserRole;
  teacher_code : option string;
  teacher_id : option Z;
  share_practice_with_teacher : bool
}.
Definition id (a : t) : Z := User.id (user a).
Definition set_teacher_id (a : t) (v : option Z) : t :=
  mk (user a) (role a) (teacher_code a) v (share_practice_with_teacher a).
Definition set_role (a : t) (v : UserRole) : t :=
  mk (user a) v (teacher_code a) (teacher_id a) (share_practice_with_teacher a).
End Account.

Definition is_teacher (role : UserRole) : bool :=
  match role with
  | TEACHER => true
  | _ => false
  end.

Definition get_teacher_by_code (accounts : list Account.t) (teacher_code : string)
  : option Account.t :=
  find (fun a => match Account.teacher_code a with
                 | Some c => String.eqb c teacher_code
                 | None => false
                 end && is_teacher (Account.role a)) accounts.

Definition get_teacher_students (accounts : list Account.t) (teacher_id : Z)
  : list Account.t :=
  filter (fun a => match Account.teacher_id a with
                   | Some t => t =? teacher_id
                   | None => false
                   end) accounts.

(** The table of users is passed through. *)
Definition link_student_to_teacher (accounts : list Account.t) (student_id : Z)
           (teacher_code : string) : list Account.t * option Account.t :=
  match find (fun a => Account.id a =? student_id) accounts with
  | None => (accounts, None)
  | Some student =>
      match get_teacher_by_code accounts teacher_code with
      | None => (accounts, None)
      | Some teacher =>
          let student := Account.set_teacher_id student (Some (Account.id teacher)) in
          let student := Account.set_role student STUDENT in
          (replace_row Account.id student accounts, Some student)
      end
  end.

(** X21: [link_student_to_teacher] links only to a user who holds the code
    and has the role [TEACHER]: otherwise, or when the student is unknown, it
    returns [None] and changes nothing.  A linked student has the role
    [STUDENT], is listed among that teacher's students and among no other
    teacher's, and keeps streak, points and level; no other user's row
    changes. *)
Theorem link_student_to_teacher_links accounts student_id teacher_code :
  let '(accounts', r) := link_student_to_teacher accounts student_id teacher_code in
  match r with
  | None =>
      accounts' = accounts
      /\ (find (fun a => Account.id a =? student_id) accounts = None
          \/ forall a, In a accounts -> Account.teacher_code a = Some teacher_code ->
                        Account.role a <> TEACHER)
  | Some student =>
      exists old teacher,
        find (fun a => Account.id a =? student_id) accounts = Some old
        /\ In teacher accounts
        /\ Account.teacher_code teacher = Some teacher_code
        /\ Account.role teacher = TEACHER
        /\ Account.role student = STUDENT
        /\ Account.user student = Account.user old
        /\ In student (get_teacher_students accounts' (Account.id teacher))
        /\ (forall t a, In a (get_teacher_students accounts' t) ->
                        Account.id a = student_id -> t = Account.id teacher)
        /\ (forall a, In a accounts -> Account.id a <> student_id -> In a accounts')
  end.
Proof.
  unfold link_student_to_teacher.
  destruct (find (fun a => Account.id a =? student_id) accounts) as [old|] eqn:Eo.
  2:{ split; [reflexivity|now left]. }
  pose proof (find_key Account.id _ _ _ Eo) as Hid.
  destruct (get_teacher_by_code accounts teacher_code) as [teacher|] eqn:Et.
  - unfold get_teacher_by_code in Et. apply find_some in Et as (Hin & Hc).
    apply andb_true_iff in Hc as (Hc & Hr).
    set (student := Account.set_role
                      (Account.set_teacher_id old (Some (Account.id teacher))) STUDENT).
    assert (Hsid : Account.id student = student_id) by exact Hid.
    exists old, teacher. split; [reflexivity|]. split; [exact Hin|]. split.
    { destruct (Account.teacher_code teacher) as [c|]; [|discriminate].
      apply String.eqb_eq in Hc. now subst. }
    split; [destruct (Account.role teacher); (reflexivity || discriminate)|].
    split; [reflexivity|]. split; [reflexivity|]. split.
    { unfold get_teacher_students. apply filter_In. split.
      - apply (find_some (fun a => Account.id a =? student_id)).
        apply (find_replace_same Account.id student student_id _ old Hsid Eo).
      - cbn. apply Z.eqb_refl. }
    split.
    { intros t a Ha Ea. unfold get_teacher_students in Ha.
      apply filter_In in Ha as (Ha & Ht). unfold replace_row in Ha.
      apply in_map_iff in Ha as (r & Er & _).
      destruct (Account.id r =? Account.id student) eqn:E.
      - subst a. cbn in Ht. apply Z.eqb_eq in Ht. now symmetry.
      - subst a. apply Z.eqb_neq in E. congruence. }
    intros a Ha Hne. apply In_replace_other; [exact Ha|]. congruence.
  - split; [reflexivity|]. right. intros a Ha Hc Hr.
    unfold get_teacher_by_code in Et. apply (find_none _ _ Et) in Ha.
    rewrite Hc, String.eqb_refl, Hr in Ha. discriminate.
Qed.

(** ** The properties at work on the fixtures *)

(** The ratings 5/5/5 once stored on the session of [rated_later]. *)
Definition rated_after : Store :=
  Eval vm_compute in fst (update_practice_session 1 all_fives rated_later).

Lemma update_practice_session_idempotent_witness :
  update_practice_session 1 all_fives rated_after
  = (rated_after,
     Ok (Some (PracticeSession.mk 1 1 (DateTime.mk 100 9) 30 (Some 5) (Some 5) (Some 5)
                                  None 36))).
Proof.
  apply (update_practice_session_idempotent 1 all_fives rated_later).
  vm_compute. reflexivity.
Defined.

Lemma update_practice_session_point_delta_witness :
  exists s' user',
    snd (update_practice_session 1 all_fives rated_later) = Ok (Some s')
    /\ PracticeSession.points_earned s' = 36
    /\ User.total_points user' = 30 + (36 - 30).
Proof.
  pose proof (update_practice_session_point_delta 1 all_fives rated_later
                (PracticeSession.mk 1 1 (DateTime.mk 100 9) 30 None None None None 30)
                (User.mk 1 None 1 30 1 (Some 100)) eq_refl eq_refl) as H.
  cbv zeta in H.
  change (focus_changed all_fives
            (PracticeSession.focus_rating
               (PracticeSession.mk 1 1 (DateTime.mk 100 9) 30 None None None None 30)))
    with true in H.
  destruct (H 36) as (s' & user' & H1 & H2 & _ & _ & H5 & _).
  - vm_compute. reflexivity.
  - exists s', user'. auto.
Defined.

(** Thirty minutes without a task list. *)
Definition quiet_session : PracticeSessionCreate.t :=
  PracticeSessionCreate.mk 1 (DateTime.mk 100 9) 30 None None None None [].

(** [newcomer] once [quiet_session] is logged, and the session row. *)
Definition quiet_after : Store :=
  Eval vm_compute in fst (create_practice_session 100 quiet_session newcomer).

Definition quiet_row : PracticeSession.t :=
  PracticeSession.mk 1 1 (DateTime.mk 100 9) 30 None None None None 30.

Lemma quiet_run :
  create_practice_session 100 quiet_session newcomer = (quiet_after, Ok quiet_row).
Proof. vm_compute. reflexivity. Qed.

Lemma delete_practice_session_twice_witness :
  delete_practice_session 1 (fst (delete_practice_session 1 quiet_after))
  = (fst (delete_practice_session 1 quiet_after), Ok false).
Proof.
  refine (proj1 (proj2 (delete_practice_session_twice 1 quiet_after _ _))).
  vm_compute. reflexivity.
Defined.

(** The session row [morning_session 1] leaves in [studio_after]. *)
Definition morning_row : PracticeSession.t :=
  PracticeSession.mk 1 1 (DateTime.mk 100 6) 40 (Some 5) None None None 57.

Lemma morning_run :
  create_practice_session 100 (morning_session 1) studio = (studio_after, Ok morning_row).
Proof. vm_compute. reflexivity. Qed.

Lemma create_practice_session_awards_witness :
  exists user user',
    find (fun u => User.id u =? 1) (users studio) = Some user
    /\ find (fun u => User.id u =? 1) (users studio_after) = Some user'
    /\ User.total_points user' = User.total_points user + 57.
Proof.
  destruct (create_practice_session_awards 100 (morning_session 1) studio studio_after
              morning_row morning_run)
    as (user & user' & H1 & _ & _ & _ & H5 & H6 & _).
  exists user, user'. auto.
Defined.

Lemma create_practice_session_links_witness :
  session_tasks studio_after = [SessionTask.mk 1 1 30].
Proof.
  destruct (create_practice_session_links 100 (morning_session 1) studio studio_after
              morning_row morning_run) as (H & _).
  exact H.
Defined.

Lemma create_practice_session_first_badge_witness :
  In (Badge.mk 1 "first_session") (badges studio_after).
Proof.
  destruct (create_practice_session_first_badge 100 (morning_session 1) studio studio_after
              morning_row morning_run) as (H & _).
  apply H. reflexivity.
Defined.

Lemma create_then_delete_witness :
  (exists db2,
     delete_practice_session 1 quiet_after = (db2, Ok true)
     /\ sessions db2 = sessions newcomer)
  /\ (exists db2,
        delete_practice_session 1 studio_after = (db2, Raise IntegrityError)
        /\ users db2 = users studio_after
        /\ tasks db2 = tasks studio_after).
Proof.
  split.
  - destruct (create_then_delete 100 quiet_session newcomer quiet_after quiet_row
                quiet_run) as (db2 & H1 & H2 & _).
    + intros st [].
    + intros td [].
    + intros u [<-|[]]; cbn; lia.
    + exists db2. auto.
  - destruct (create_then_delete 100 (morning_session 1) studio studio_after morning_row
                morning_run) as (db2 & H1 & H2 & H3 & _).
    + intros st [].
    + intros td [<-|[]]. discriminate.
    + intros u [<-|[<-|[]]]; cbn; lia.
    + exists db2. auto.
Defined.

(** The board entry of user 1 in [studio_after]. *)
Definition morning_entry : LeaderboardEntry.t :=
  LeaderboardEntry.mk 1 (User.mk 1 (Some 7) 3 57 1 (Some 100)) 40 57.

Lemma weekly_minutes_on_board_witness :
  In morning_entry (Leaderboard.entries (get_weekly_leaderboard 100 studio_after 7))
  /\ LeaderboardEntry.weekly_minutes morning_entry
     = get_user_weekly_minutes 100 studio_after 1.
Proof.
  assert (H : In morning_entry
                 (Leaderboard.entries (get_weekly_leaderboard 100 studio_after 7)))
    by (vm_compute; left; reflexivity).
  split; [exact H|].
  apply (proj2 (weekly_minutes_on_board 100 studio_after 7 morning_entry H)).
  intros s [<-|[]] _. vm_compute. discriminate.
Defined.

(** [get_user_tasks] for user 1 on [rated_after], whose stored score is stale. *)
Definition refreshed_store : Store :=
  Eval vm_compute in
    fst (get_user_tasks (fun _ => None) PracticeTask.id 1 None None rated_after).

Definition refreshed_task : PracticeTask.t :=
  Eval vm_compute in
    match snd (get_user_tasks (fun _ => None) PracticeTask.id 1 None None rated_after) with
    | Ok (k :: _) => k
    | _ => PracticeTask.mk 0 0 0 0 0 NOT_STARTED PyFloat.zero
    end.

Lemma refreshed_run :
  get_user_tasks (fun _ => None) PracticeTask.id 1 None None rated_after
  = (refreshed_store, Ok [refreshed_task]).
Proof. vm_compute. reflexivity. Qed.

Lemma get_user_tasks_refreshes_witness :
  In refreshed_task (tasks refreshed_store)
  /\ calculate_task_readiness refreshed_store refreshed_task
     = Ok (PracticeTask.readiness_score refreshed_task)
  /\ PracticeTask.readiness_score refreshed_task <> PyFloat.literal 50 1.
Proof.
  destruct (get_user_tasks_refreshes (fun _ => None) PracticeTask.id 1 None None
              rated_after refreshed_store [refreshed_task]) as (H & _).
  - vm_compute. repeat constructor. intros [].
  - reflexivity.
  - exact refreshed_run.
  - destruct (H refreshed_task (or_introl eq_refl)) as (H1 & _ & H3).
    split; [exact H1|]. split; [exact H3|]. vm_compute. discriminate.
Defined.

Lemma get_user_stats_progress_witness :
  exists percent,
    get_user_stats (fun _ => 300) 100 studio_after 1
    = Ok (Some (UserStats.mk 3 57 1 40 300 percent))
    /\ PyFloat.leb percent (PyFloat.literal 100 1) = true.
Proof.
  assert (H1 : forall s, In s (sessions studio_after)
                         -> 0 <= PracticeSession.duration_minutes s)
    by (intros s [<-|[]]; cbn; lia).
  assert (H2 : get_user_weekly_minutes 100 studio_after 1 < 2 ^ 1000)
    by (vm_compute; reflexivity).
  pose proof (get_user_stats_progress (fun _ => 300) 100 studio_after 1 H1 H2) as H.
  change (find (fun u => User.id u =? 1) (users studio_after))
    with (Some (User.mk 1 (Some 7) 3 57 1 (Some 100))) in H.
  destruct H as (percent & E & _ & Hle & _).
  exists percent. split; [exact E|exact Hle].
Defined.

Lemma create_practice_session_never_costs_witness :
  0 <= PracticeSession.points_earned morning_row.
Proof.
  destruct (create_practice_session_never_costs 100 (morning_session 1) studio studio_after
              morning_row morning_run) as (H & _).
  - cbn. lia.
  - exact H.
Defined.

(** A challenge of ensemble 7, which user 2 completes. *)
Definition scales_week : GroupChallenge.t := GroupChallenge.mk 1 7.

Lemma progress_after_completion_witness :
  exists after,
    get_challenge_progress studio_after [scales_week] [ChallengeCompletion.mk 1 2] 1 2
    = Valid (Some after)
    /\ ChallengeProgress.user_completed after = true
    /\ ChallengeProgress.completed_count after = 0 + 1.
Proof.
  pose proof (progress_after_completion studio_after [scales_week] [] 1 2 1
                (ChallengeProgress.mk scales_week 2 0 [] false)
                (User.mk 2 (Some 7) 0 0 1 None) eq_refl eq_refl) as H.
  change (complete_challenge [] 1 2) with ([ChallengeCompletion.mk 1 2], true) in H.
  cbv beta iota in H.
  destruct H as (after & H1 & H2 & H3 & _).
  exists after. auto.
Defined.
